(** * py1090: the BaseStation line codec of [py1090/message.py]

    A shallow embedding of [Message.parse_string], [Message.to_string] and
    the scalar helpers they call, followed by the properties of the codec.

    Conventions of the embedding.
    - A Python [str] is a [string]; the code points are restricted to ASCII,
      where [str.upper], [str.lower] and [str.strip] act on letters and
      white space only.
    - A Python [int] is a [Z]; a Python [float] is an IEEE-754 binary64 value,
      a [spec_float] with [prec = 53] and [emax = 1024]. [str()] and [int()]
      are modelled on every integer, without the limit of 4300 decimal digits
      beyond which CPython raises [ValueError]: a statement about the text
      that is written for an integer of a message carries the bound
      [int_within_limit].
    - An attribute that holds [None] is [None]; every attribute of [Message]
      is an [option].
    - [parse_string] mutates [self] and may raise in the middle of the
      mutation: it is a computation in a state-and-exception monad whose
      state is the [Message]. *)

From Stdlib Require Import ZArith List String Ascii Bool Lia.
From Stdlib Require Import Floats.SpecFloat.
From Stdlib Require Import Numbers.DecimalString Numbers.DecimalZ Numbers.DecimalN Numbers.DecimalPos.
Import ListNotations.

Local Open Scope string_scope.
Local Open Scope Z_scope.

(** ** Exceptions

    The exceptions that the codec can meet, and the outcome of a call that
    may raise one of them. *)

Inductive exn : Type := IndexError | ValueError | OverflowError.

Inductive result (A : Type) : Type :=
| Ok (a : A)
| Raise (e : exn).

Arguments Ok {A} a.
Arguments Raise {A} e.

(** A conversion whose only failure is [ValueError]. *)
Definition or_value_error {A : Type} (o : option A) : result A :=
  match o with Some a => Ok a | None => Raise ValueError end.

(** ** Python strings *)

Module PyStr.

(** [bool(s)] for a [str]: true unless the string is empty. *)
Definition truthy (s : string) : bool :=
  match s with EmptyString => false | String _ _ => true end.

(** [len(s)]. *)
Definition len (s : string) : Z := Z.of_nat (String.length s).

(** [c.isspace()] on ASCII: TAB, LF, VT, FF, CR, FS, GS, RS, US and SPACE. *)
Definition isspace (c : ascii) : bool :=
  let n := N_of_ascii c in
  ((9 <=? n) && (n <=? 13) || (28 <=? n) && (n <=? 32))%N.

Definition isdigit (c : ascii) : bool :=
  let n := N_of_ascii c in ((48 <=? n) && (n <=? 57))%N.

Definition digit_value (c : ascii) : Z := Z.of_N (N_of_ascii c) - 48.

Definition upper_char (c : ascii) : ascii :=
  let n := N_of_ascii c in
  if ((97 <=? n) && (n <=? 122))%N then ascii_of_N (n - 32) else c.

Definition lower_char (c : ascii) : ascii :=
  let n := N_of_ascii c in
  if ((65 <=? n) && (n <=? 90))%N then ascii_of_N (n + 32) else c.

Fixpoint map_chars (f : ascii -> ascii) (s : string) : string :=
  match s with
  | EmptyString => EmptyString
  | String c s' => String (f c) (map_chars f s')
  end.

(** [s.upper()] and [s.lower()]. *)
Definition upper (s : string) : string := map_chars upper_char s.
Definition lower (s : string) : string := map_chars lower_char s.

(** [s.lstrip()], [s.rstrip()] and [s.strip()]; [white] tells the
    characters that are removed. *)
Fixpoint lstrip_with (white : ascii -> bool) (s : string) : string :=
  match s with
  | EmptyString => EmptyString
  | String c s' => if white c then lstrip_with white s' else s
  end.

Fixpoint rstrip_with (white : ascii -> bool) (s : string) : string :=
  match s with
  | EmptyString => EmptyString
  | String c s' =>
      match rstrip_with white s' with
      | EmptyString => if white c then EmptyString else String c EmptyString
      | r => String c r
      end
  end.

Definition strip_with (white : ascii -> bool) (s : string) : string :=
  rstrip_with white (lstrip_with white s).

(** [s.strip()] with no argument removes the characters of [isspace]. *)
Definition strip (s : string) : string := strip_with isspace s.

(** [s.split(sep)] for a separator of one character: the list is never
    empty, and [n] separators give [n + 1] pieces. *)
Fixpoint split (sep : ascii) (s : string) : list string :=
  match s with
  | EmptyString => [EmptyString]
  | String c s' =>
      if Ascii.eqb c sep then EmptyString :: split sep s'
      else match split sep s' with
           | [] => [String c EmptyString]
           | p :: ps => String c p :: ps
           end
  end.

(** [sep.join(items)]. *)
Definition join (sep : string) (items : list string) : string :=
  String.concat sep items.

(** [s.rpartition(sep)] for a separator of one character: the text before
    the last separator, the separator, and the text after it; when there is
    no separator, two empty strings and [s]. *)
Fixpoint rpartition (sep : ascii) (s : string) : string * string * string :=
  match s with
  | EmptyString => (EmptyString, EmptyString, EmptyString)
  | String c s' =>
      let '(before, mid, after) := rpartition sep s' in
      if truthy mid then (String c before, mid, after)
      else if Ascii.eqb c sep then (EmptyString, String sep EmptyString, after)
      else (EmptyString, EmptyString, String c after)
  end.

End PyStr.

(** ** Python numbers: [int], [float] and their conversions *)

Module PyNum.
Import PyStr.

(** The white space that [int()] and [float()] skip at both ends of their
    argument: TAB, LF, VT, FF, CR and SPACE. *)
Definition c_isspace (c : ascii) : bool :=
  let n := N_of_ascii c in ((9 <=? n) && (n <=? 13) || (n =? 32))%N.

(** An optional sign in front of a number. *)
Definition split_sign (s : string) : bool * string :=
  match s with
  | String "-"%char r => (true, r)
  | String "+"%char r => (false, r)
  | _ => (false, s)
  end.

(** The longest prefix of the form [digit (["_"] digit)*], returned without
    its underscores, and the text after it. *)
Fixpoint scan_digits (after_digit : bool) (s : string) : string * string :=
  match s with
  | EmptyString => (EmptyString, EmptyString)
  | String c s' =>
      if isdigit c then
        let (ds, rest) := scan_digits true s' in (String c ds, rest)
      else if after_digit && Ascii.eqb c "_" then
        match s' with
        | String d _ => if isdigit d then scan_digits false s' else (EmptyString, s)
        | EmptyString => (EmptyString, s)
        end
      else (EmptyString, s)
  end.

Fixpoint digits_acc (acc : Z) (ds : string) : Z :=
  match ds with
  | EmptyString => acc
  | String c ds' => digits_acc (10 * acc + digit_value c) ds'
  end.

(** The number that a string of decimal digits denotes. *)
Definition digits_value (ds : string) : Z := digits_acc 0 ds.

(** The integer that the text of [int(s)] denotes, if it denotes one. *)
Definition int_literal (s : string) : option Z :=
  let (neg, body) := split_sign (strip_with c_isspace s) in
  let (ds, rest) := scan_digits false body in
  if truthy ds && negb (truthy rest)
  then Some (if neg then - digits_value ds else digits_value ds)
  else None.

(** [int(s)] for a [str]. *)
Definition int (s : string) : result Z := or_value_error (int_literal s).

(** [str(n)] for an [int]. *)
Definition str_int (n : Z) : string := NilZero.string_of_int (Z.to_int n).

(** [s.zfill(width)] on a string of digits: the padding of ['{:03d}']. *)
Definition zfill (width : nat) (s : string) : string :=
  String.concat "" (repeat "0" (width - String.length s)) ++ s.

(** *** binary64 *)

Definition float := spec_float.
Definition prec : Z := 53.
Definition emax : Z := 1024.

(** The float nearest to [n * 10 ^ e10], ties to even, for [n >= 0] written
    with [ndigits] digits: what [float()] returns for a decimal literal. A
    literal of [309] or more integer digits overflows to infinity and one
    below [10 ^ -324] rounds to zero. *)
Definition float_of_decimal (neg : bool) (n ndigits e10 : Z) : float :=
  match n with
  | Zpos p =>
      if 309 <=? e10 then S754_infinity neg
      else if ndigits + e10 <=? -324 then S754_zero neg
      else if 0 <=? e10 then
        binary_normalize prec emax (if neg then - (n * 10 ^ e10) else n * 10 ^ e10) 0 neg
      else
        let '(q, e, l) := SFdiv_core_binary prec emax n 0 (10 ^ (- e10)) 0 in
        binary_round_aux prec emax neg q e l
  | _ => S754_zero neg
  end.

(** The exponent part of a float literal: nothing, or [e] or [E], an
    optional sign and digits up to the end. *)
Definition scan_exponent (s : string) : option Z :=
  match s with
  | EmptyString => Some 0
  | String c r =>
      if Ascii.eqb (lower_char c) "e" then
        let (neg, body) := split_sign r in
        let (ds, rest) := scan_digits false body in
        if truthy ds && negb (truthy rest)
        then Some (if neg then - digits_value ds else digits_value ds)
        else None
      else None
  end.

(** The float that the text of [float(s)] denotes, if it denotes one. *)
Definition float_literal (s : string) : option float :=
  let (neg, body) := split_sign (strip_with c_isspace s) in
  let name := lower body in
  if String.eqb name "inf" || String.eqb name "infinity" then Some (S754_infinity neg)
  else if String.eqb name "nan" then Some S754_nan
  else
    let (ip, r1) := scan_digits false body in
    let (fp, r2) :=
      match r1 with
      | String "."%char r => scan_digits false r
      | _ => (EmptyString, r1)
      end in
    if truthy ip || truthy fp then
      match scan_exponent r2 with
      | Some e =>
          let ds := ip ++ fp in
          Some (float_of_decimal neg (digits_value ds) (len ds) (e - len fp))
      | None => None
      end
    else None.

(** [float(s)] for a [str]. *)
Definition float_of_str (s : string) : result float := or_value_error (float_literal s).

(** [float(n)] for an [int] in the range of the finite floats. *)
Definition float_of_int (n : Z) : float := binary_normalize prec emax n 0 false.

(** [x * y] on floats. *)
Definition float_mul (x y : float) : float := SFmul prec emax x y.

(** [x / y] on floats. *)
Definition float_div (x y : float) : float := SFdiv prec emax x y.

(** [int(x)] for a [float] truncates toward zero; it raises [ValueError] on
    a NaN and [OverflowError] on an infinity. *)
Definition int_of_float (x : float) : result Z :=
  match x with
  | S754_zero _ => Ok 0
  | S754_finite s m e =>
      let a := if 0 <=? e then Z.shiftl (Zpos m) e else Z.shiftr (Zpos m) (- e) in
      Ok (if s then - a else a)
  | S754_nan => Raise ValueError
  | S754_infinity _ => Raise OverflowError
  end.

(** [num / den] rounded to the nearest integer, ties to even, for
    [0 <= num] and [0 < den]. *)
Definition div_half_even (num den : Z) : Z :=
  let q := num / den in
  let r := num mod den in
  match 2 * r ?= den with
  | Lt => q
  | Gt => q + 1
  | Eq => if Z.even q then q else q + 1
  end.

(** The magnitude of a finite float as a fraction [(num, den)]. *)
Definition float_fraction (m : positive) (e : Z) : Z * Z :=
  if 0 <=? e then (Z.shiftl (Zpos m) e, 1) else (Zpos m, Z.shiftl 1 (- e)).

(** ['{:.5f}'.format(x)]: the value rounded to five decimals, ties to even
    on the exact binary value. *)
Definition format_5f (x : float) : string :=
  match x with
  | S754_nan => "nan"
  | S754_infinity s => if s then "-inf" else "inf"
  | S754_zero s => (if s then "-" else "") ++ "0.00000"
  | S754_finite s m e =>
      let (num, den) := float_fraction m e in
      let n := div_half_even (num * 100000) den in
      (if s then "-" else "") ++ str_int (n / 100000) ++ "."
        ++ zfill 5 (str_int (n mod 100000))
  end.

(** *** [repr] of a float

    [str(x)] is the shortest decimal literal that [float()] reads back as
    [x]; among the literals of that length, the one nearest to [x]. *)

Definition float_same (x y : float) : bool :=
  match x, y with
  | S754_nan, S754_nan => true
  | S754_zero s, S754_zero t => Bool.eqb s t
  | S754_infinity s, S754_infinity t => Bool.eqb s t
  | S754_finite s m e, S754_finite t n f => Bool.eqb s t && Pos.eqb m n && Z.eqb e f
  | _, _ => false
  end.

Definition pow10_fraction (k : Z) : Z * Z :=
  if 0 <=? k then (10 ^ k, 1) else (1, 10 ^ (- k)).

Definition fraction_ltb (a b : Z * Z) : bool := fst a * snd b <? fst b * snd a.

(** The [k] with [10 ^ k <= m * 2 ^ e < 10 ^ (k + 1)]: the estimate from the
    binary logarithm is off by one at most. *)
Definition decimal_exponent (m : positive) (e : Z) : Z :=
  let x := float_fraction m e in
  let k := (Z.log2 (Zpos m) + e) * 30103 / 100000 in
  if fraction_ltb x (pow10_fraction k) then k - 1
  else if fraction_ltb x (pow10_fraction (k + 1)) then k else k + 1.

(** The literal [c * 10 ^ k] reads back as [x]. *)
Definition reads_back (x : float) (nd c k : Z) : bool :=
  float_same (float_of_decimal false c nd k) x.

(** The literal of [n] digits, [n + 1], ... up to [n + fuel] that reads
    back as [x = m * 2 ^ e], as a pair [(c, k)] denoting [c * 10 ^ k]; with
    no fuel left, [x] rounded to [n] digits. *)
Fixpoint shortest_digits (fuel : nat) (n : Z) (m : positive) (e expo : Z) : Z * Z :=
  let x := S754_finite false m e in
  let k := expo - n + 1 in
  let (num, den) := float_fraction m e in
  let (num', den') := if 0 <=? k then (num, den * 10 ^ k) else (num * 10 ^ (- k), den) in
  let lo := num' / den' in
  let nearest := div_half_even num' den' in
  match fuel with
  | O => (nearest, k)
  | S fuel' =>
      let lo_ok := reads_back x (n + 1) lo k in
      let hi_ok := reads_back x (n + 1) (lo + 1) k in
      if lo_ok && hi_ok then (nearest, k)
      else if lo_ok then (lo, k)
      else if hi_ok then (lo + 1, k)
      else shortest_digits fuel' (n + 1) m e expo
  end.

Fixpoint strip_zeros_rev (s : string) : string :=
  match s with
  | String "0"%char s' => strip_zeros_rev s'
  | _ => s
  end.

Fixpoint string_rev (s : string) : string :=
  match s with
  | EmptyString => EmptyString
  | String c s' => string_rev s' ++ String c EmptyString
  end.

Definition zeros (n : Z) : string := String.concat "" (repeat "0" (Z.to_nat n)).

(** The digits [ds], read as [0.ds * 10 ^ decpt], laid out as [repr] does:
    positional when [-4 < decpt <= 16], with an exponent of two digits at
    least otherwise. *)
Definition layout_repr (ds : string) (decpt : Z) : string :=
  let n := len ds in
  if (-4 <? decpt) && (decpt <=? 16) then
    if decpt <=? 0 then "0." ++ zeros (- decpt) ++ ds
    else if n <=? decpt then ds ++ zeros (decpt - n) ++ ".0"
    else substring 0 (Z.to_nat decpt) ds ++ "."
           ++ substring (Z.to_nat decpt) (Z.to_nat (n - decpt)) ds
  else
    let x := decpt - 1 in
    substring 0 1 ds
      ++ (if 1 <? n then "." ++ substring 1 (Z.to_nat (n - 1)) ds else "")
      ++ "e" ++ (if x <? 0 then "-" else "+") ++ zfill 2 (str_int (Z.abs x)).

(** [str(x)], which is [repr(x)], for a float. *)
Definition str_float (x : float) : string :=
  match x with
  | S754_nan => "nan"
  | S754_infinity s => if s then "-inf" else "inf"
  | S754_zero s => if s then "-0.0" else "0.0"
  | S754_finite s m e =>
      let (c, k) := shortest_digits 16 1 m e (decimal_exponent m e) in
      let all := str_int c in
      let ds := string_rev (strip_zeros_rev (string_rev all)) in
      (if s then "-" else "") ++ layout_repr ds (len all + k)
  end.

End PyNum.

(** ** [datetime]: the two [strptime] formats and the [strftime] format *)

Module PyDatetime.
Import PyStr PyNum.

Record datetime : Type := mkDatetime {
  year : Z; month : Z; day : Z;
  hour : Z; minute : Z; second : Z; microsecond : Z
}.

(** A numeric directive of [strptime]: two digits whose value lies in
    [lo..hi], or else one digit that is [min1] at least. The two-digit
    alternatives of the directive's pattern come first, and the text after a
    directive never starts with a digit, so the first alternative that
    matches is the one that is kept. *)
Definition directive (lo hi min1 : Z) (s : string) : option (Z * string) :=
  match s with
  | EmptyString => None
  | String a r =>
      if isdigit a then
        let one := if min1 <=? digit_value a then Some (digit_value a, r) else None in
        match r with
        | String b r' =>
            let v := 10 * digit_value a + digit_value b in
            if isdigit b && (lo <=? v) && (v <=? hi) then Some (v, r') else one
        | EmptyString => one
        end
      else None
  end.

(** [%Y]: four digits. *)
Definition directive_Y (s : string) : option (Z * string) :=
  match s with
  | String a (String b (String c (String d r))) =>
      if isdigit a && isdigit b && isdigit c && isdigit d
      then Some (digits_value (String a (String b (String c (String d EmptyString)))), r)
      else None
  | _ => None
  end.

(** [%d] also takes a day of one digit after a space. *)
Definition directive_d (s : string) : option (Z * string) :=
  match directive 1 31 1 s with
  | Some v => Some v
  | None =>
      match s with
      | String " "%char (String b r) =>
          if isdigit b && (1 <=? digit_value b) then Some (digit_value b, r) else None
      | _ => None
      end
  end.

Definition literal (c : ascii) (s : string) : option string :=
  match s with
  | String a r => if Ascii.eqb a c then Some r else None
  | EmptyString => None
  end.

Definition is_leap (y : Z) : bool :=
  (y mod 4 =? 0) && (negb (y mod 100 =? 0) || (y mod 400 =? 0)).

Definition days_in_month (y m : Z) : Z :=
  if m =? 2 then (if is_leap y then 29 else 28)
  else if (m =? 4) || (m =? 6) || (m =? 9) || (m =? 11) then 30 else 31.

(** [datetime.strptime(s, '%Y/%m/%d')]: the date, at midnight. *)
Definition strptime_date (s : string) : result datetime :=
  or_value_error
    match directive_Y s with
    | Some (y, s1) =>
    match literal "/" s1 with
    | Some s2 =>
    match directive 1 12 1 s2 with
    | Some (m, s3) =>
    match literal "/" s3 with
    | Some s4 =>
    match directive_d s4 with
    | Some (d, s5) =>
        if negb (truthy s5) && (1 <=? y) && (d <=? days_in_month y m)
        then Some (mkDatetime y m d 0 0 0 0) else None
    | None => None end
    | None => None end
    | None => None end
    | None => None end
    | None => None end.

(** [datetime.strptime(s, '%H:%M:%S')]: the time, on 1 January 1900. *)
Definition strptime_time (s : string) : result datetime :=
  or_value_error
    match directive 0 23 0 s with
    | Some (h, s1) =>
    match literal ":" s1 with
    | Some s2 =>
    match directive 0 59 0 s2 with
    | Some (mi, s3) =>
    match literal ":" s3 with
    | Some s4 =>
    match directive 0 61 0 s4 with
    | Some (sec, s5) =>
        if negb (truthy s5) && (sec <=? 59)
        then Some (mkDatetime 1900 1 1 h mi sec 0) else None
    | None => None end
    | None => None end
    | None => None end
    | None => None end
    | None => None end.

(** [t.replace(microsecond=us)]: the argument is converted to a C [int],
    which raises [OverflowError] outside 32 bits, and is then checked
    against the range of the microseconds. *)
Definition replace_microsecond (t : datetime) (us : Z) : result datetime :=
  if (0 <=? us) && (us <=? 999999)
  then Ok (mkDatetime (year t) (month t) (day t) (hour t) (minute t) (second t) us)
  else if (-2147483648 <=? us) && (us <=? 2147483647) then Raise ValueError
  else Raise OverflowError.

(** [datetime.combine(d.date(), t.time())]. *)
Definition combine (d t : datetime) : datetime :=
  mkDatetime (year d) (month d) (day d) (hour t) (minute t) (second t) (microsecond t).

(** [datetime.strftime(t, '%Y/%m/%d,%H:%M:%S')]. The year is written as
    the C library of Linux writes it, without padding; from the year 1000
    on, every platform writes the same four digits. *)
Definition strftime (t : datetime) : string :=
  str_int (year t) ++ "/" ++ zfill 2 (str_int (month t)) ++ "/"
    ++ zfill 2 (str_int (day t)) ++ ","
    ++ zfill 2 (str_int (hour t)) ++ ":" ++ zfill 2 (str_int (minute t)) ++ ":"
    ++ zfill 2 (str_int (second t)).

End PyDatetime.

(** ** The scalar helpers of [message.py] *)

Import PyStr PyNum PyDatetime.

(** [_parse_datetime(datestr, timestr)]. *)
Definition _parse_datetime (datestr timestr : string) : result datetime :=
  match strptime_date datestr with
  | Raise e => Raise e
  | Ok date =>
      let '(timestr', separator, millisstr) := rpartition "." timestr in
      match strptime_time timestr' with
      | Raise e => Raise e
      | Ok time =>
          match float_of_str (separator ++ millisstr) with
          | Raise e => Raise e
          | Ok seconds =>
              match int_of_float (float_mul seconds (float_of_int 1000000)) with
              | Raise e => Raise e
              | Ok us =>
                  match replace_microsecond time us with
                  | Raise e => Raise e
                  | Ok time' => Ok (combine date time')
                  end
              end
          end
      end
  end.

(** [_parse_bool(str)]: with a text outside the two vocabularies the
    function reaches its end and returns [None]. *)
Definition _parse_bool (str : string) : option bool :=
  if existsb (String.eqb (lower str)) ["true"; "y"; "yes"; "on"; "1"] then Some true
  else if existsb (String.eqb (lower str)) ["false"; "n"; "no"; "off"; "0"] then Some false
  else None.

(** [int(time.microsecond/1000)]: a true division, on floats, truncated. *)
Definition milliseconds (time : datetime) : Z :=
  match int_of_float (float_div (float_of_int (microsecond time)) (float_of_int 1000)) with
  | Ok ms => ms
  | Raise _ => 0
  end.

(** [_dump_datetime(time)]. *)
Definition _dump_datetime (time : datetime) : string :=
  strftime time ++ "." ++ zfill 3 (str_int (milliseconds time)).

(** [_dump_bool(value)]. *)
Definition _dump_bool (value : bool) : string :=
  if Bool.eqb value true then "1" else "0".

(** [_dump_or_none(value, func)]. *)
Definition _dump_or_none {A : Type} (value : option A) (func : A -> string) : string :=
  match value with
  | None => ""
  | Some v => func v
  end.

(** [str(s)] for a [str]. *)
Definition str_str (s : string) : string := s.

(** ** The class [Message] *)

Record Message : Type := mkMessage {
  message_type : option string;
  transmission_type : option Z;
  session_id : option Z;
  aircraft_id : option Z;
  hexident : option string;
  flight_id : option string;
  generation_time : option datetime;
  record_time : option datetime;
  callsign : option string;
  altitude : option Z;
  ground_speed : option float;
  track : option float;
  latitude : option float;
  longitude : option float;
  vertical_rate : option Z;
  squawk : option Z;
  squawk_alert : option bool;
  emergency : option bool;
  spi : option bool;
  on_ground : option bool
}.

(** [Message.__init__]: every attribute is [None]. *)
Definition init : Message :=
  mkMessage None None None None None None None None None None
            None None None None None None None None None None.

(** [self.<attribute> = v], one function for each attribute. *)
Definition set_message_type v (self : Message) : Message :=
  let '(mkMessage _ b c d e f g h i j k l m n o p q r s t) := self in
  mkMessage v b c d e f g h i j k l m n o p q r s t.
Definition set_transmission_type v (self : Message) : Message :=
  let '(mkMessage a _ c d e f g h i j k l m n o p q r s t) := self in
  mkMessage a v c d e f g h i j k l m n o p q r s t.
Definition set_session_id v (self : Message) : Message :=
  let '(mkMessage a b _ d e f g h i j k l m n o p q r s t) := self in
  mkMessage a b v d e f g h i j k l m n o p q r s t.
Definition set_aircraft_id v (self : Message) : Message :=
  let '(mkMessage a b c _ e f g h i j k l m n o p q r s t) := self in
  mkMessage a b c v e f g h i j k l m n o p q r s t.
Definition set_hexident v (self : Message) : Message :=
  let '(mkMessage a b c d _ f g h i j k l m n o p q r s t) := self in
  mkMessage a b c d v f g h i j k l m n o p q r s t.
Definition set_flight_id v (self : Message) : Message :=
  let '(mkMessage a b c d e _ g h i j k l m n o p q r s t) := self in
  mkMessage a b c d e v g h i j k l m n o p q r s t.
Definition set_generation_time v (self : Message) : Message :=
  let '(mkMessage a b c d e f _ h i j k l m n o p q r s t) := self in
  mkMessage a b c d e f v h i j k l m n o p q r s t.
Definition set_record_time v (self : Message) : Message :=
  let '(mkMessage a b c d e f g _ i j k l m n o p q r s t) := self in
  mkMessage a b c d e f g v i j k l m n o p q r s t.
Definition set_callsign v (self : Message) : Message :=
  let '(mkMessage a b c d e f g h _ j k l m n o p q r s t) := self in
  mkMessage a b c d e f g h v j k l m n o p q r s t.
Definition set_altitude v (self : Message) : Message :=
  let '(mkMessage a b c d e f g h i _ k l m n o p q r s t) := self in
  mkMessage a b c d e f g h i v k l m n o p q r s t.
Definition set_ground_speed v (self : Message) : Message :=
  let '(mkMessage a b c d e f g h i j _ l m n o p q r s t) := self in
  mkMessage a b c d e f g h i j v l m n o p q r s t.
Definition set_track v (self : Message) : Message :=
  let '(mkMessage a b c d e f g h i j k _ m n o p q r s t) := self in
  mkMessage a b c d e f g h i j k v m n o p q r s t.
Definition set_latitude v (self : Message) : Message :=
  let '(mkMessage a b c d e f g h i j k l _ n o p q r s t) := self in
  mkMessage a b c d e f g h i j k l v n o p q r s t.
Definition set_longitude v (self : Message) : Message :=
  let '(mkMessage a b c d e f g h i j k l m _ o p q r s t) := self in
  mkMessage a b c d e f g h i j k l m v o p q r s t.
Definition set_vertical_rate v (self : Message) : Message :=
  let '(mkMessage a b c d e f g h i j k l m n _ p q r s t) := self in
  mkMessage a b c d e f g h i j k l m n v p q r s t.
Definition set_squawk v (self : Message) : Message :=
  let '(mkMessage a b c d e f g h i j k l m n o _ q r s t) := self in
  mkMessage a b c d e f g h i j k l m n o v q r s t.
Definition set_squawk_alert v (self : Message) : Message :=
  let '(mkMessage a b c d e f g h i j k l m n o p _ r s t) := self in
  mkMessage a b c d e f g h i j k l m n o p v r s t.
Definition set_emergency v (self : Message) : Message :=
  let '(mkMessage a b c d e f g h i j k l m n o p q _ s t) := self in
  mkMessage a b c d e f g h i j k l m n o p q v s t.
Definition set_spi v (self : Message) : Message :=
  let '(mkMessage a b c d e f g h i j k l m n o p q r _ t) := self in
  mkMessage a b c d e f g h i j k l m n o p q r v t.
Definition set_on_ground v (self : Message) : Message :=
  let '(mkMessage a b c d e f g h i j k l m n o p q r s _) := self in
  mkMessage a b c d e f g h i j k l m n o p q r s v.

(** *** Methods that mutate [self] and may raise

    A method body is a function from the state of [self] to the state it
    leaves and the value it returns or the exception it raises; the state
    that an exception leaves behind is the one reached when it was raised. *)

Definition M (A : Type) : Type := Message -> Message * result A.

Definition ret {A : Type} (a : A) : M A := fun self => (self, Ok a).

Definition bind {A B : Type} (c : M A) (k : A -> M B) : M B :=
  fun self =>
    match c self with
    | (self', Ok a) => k a self'
    | (self', Raise e) => (self', Raise e)
    end.

Declare Scope py_scope.
Delimit Scope py_scope with py.
Notation "x <- c ;; k" := (bind c (fun x => k))
  (at level 61, c at next level, right associativity) : py_scope.
Notation "c ;; k" := (bind c (fun _ => k))
  (at level 61, right associativity) : py_scope.
Local Open Scope py_scope.

(** The value of an expression that may raise. *)
Definition eval {A : Type} (r : result A) : M A := fun self => (self, r).

(** Reading and assigning an attribute of [self]. *)
Definition getattr {A : Type} (attribute : Message -> A) : M A :=
  fun self => (self, Ok (attribute self)).

Definition setattr {A : Type} (set : A -> Message -> Message) (v : A) : M unit :=
  fun self => (set v self, Ok tt).

(** [if test: body], with a test that may raise. *)
Definition If (test : M bool) (body : M unit) : M unit :=
  b <- test ;; if b then body else ret tt.

(** [a and b] in a test: [b] is evaluated only when [a] holds. *)
Definition And (a b : M bool) : M bool :=
  x <- a ;; if x then b else ret false.

(** [parts[i]]: a negative index counts from the end, and an index outside
    the list raises [IndexError]. *)
Definition getitem (parts : list string) (i : Z) : result string :=
  let n := Z.of_nat (List.length parts) in
  let j := if i <? 0 then i + n else i in
  if (0 <=? j) && (j <? n)
  then match nth_error parts (Z.to_nat j) with
       | Some p => Ok p
       | None => Raise IndexError
       end
  else Raise IndexError.

(** *** [Message.parse_string]

    The statements of the method in the order of the source, over the list
    [parts] that its first line computes. *)

Section ParseString.

Variable parts : list string.

(** The tests [parts[i]], [parts[i] != sentinel] and [len(parts[i]) > 0]. *)
Definition is_set (i : Z) : M bool :=
  p <- eval (getitem parts i) ;; ret (truthy p).

Definition is_not (i : Z) (sentinel : string) : M bool :=
  p <- eval (getitem parts i) ;; ret (negb (String.eqb p sentinel)).

Definition has_length (i : Z) : M bool :=
  p <- eval (getitem parts i) ;; ret (0 <? len p).

(** [if parts[0]: self.message_type = parts[0].upper()] *)
Definition parse_message_type : M unit :=
  If (is_set 0)
     (p <- eval (getitem parts 0) ;; setattr set_message_type (Some (upper p))).

(** [if parts[1]: self.transmission_type = int(parts[1])] *)
Definition parse_transmission_type : M unit :=
  If (is_set 1)
     (p <- eval (getitem parts 1) ;; v <- eval (int p) ;;
      setattr set_transmission_type (Some v)).

(** [if parts[2] and parts[2] != '111': self.session_id = int(parts[2])] *)
Definition parse_session_id : M unit :=
  If (And (is_set 2) (is_not 2 "111"))
     (p <- eval (getitem parts 2) ;; v <- eval (int p) ;;
      setattr set_session_id (Some v)).

(** [if parts[3] and parts[3] != '11111': self.aircraft_id = int(parts[3])] *)
Definition parse_aircraft_id : M unit :=
  If (And (is_set 3) (is_not 3 "11111"))
     (p <- eval (getitem parts 3) ;; v <- eval (int p) ;;
      setattr set_aircraft_id (Some v)).

(** [if parts[4]: self.hexident = parts[4].upper()] *)
Definition parse_hexident : M unit :=
  If (is_set 4)
     (p <- eval (getitem parts 4) ;; setattr set_hexident (Some (upper p))).

(** [if parts[5] and parts[5] != '111111': self.flight_id = parts[5].upper()] *)
Definition parse_flight_id : M unit :=
  If (And (is_set 5) (is_not 5 "111111"))
     (p <- eval (getitem parts 5) ;; setattr set_flight_id (Some (upper p))).

(** [if len(parts[6]) > 0 and len(parts[7]) > 0:
       self.generation_time = _parse_datetime(parts[6], parts[7])] *)
Definition parse_generation_time : M unit :=
  If (And (has_length 6) (has_length 7))
     (d <- eval (getitem parts 6) ;; t <- eval (getitem parts 7) ;;
      v <- eval (_parse_datetime d t) ;;
      setattr set_generation_time (Some v)).

(** [if len(parts[8]) > 0 and len(parts[8]) > 0:
       self.record_time = _parse_datetime(parts[8], parts[9])]:
    the test reads [parts[8]] twice and never [parts[9]]. *)
Definition parse_record_time : M unit :=
  If (And (has_length 8) (has_length 8))
     (d <- eval (getitem parts 8) ;; t <- eval (getitem parts 9) ;;
      v <- eval (_parse_datetime d t) ;;
      setattr set_record_time (Some v)).

(** [if len(parts) > 10 and parts[10]: self.callsign = parts[10].upper()] *)
Definition parse_callsign : M unit :=
  If (And (ret (10 <? Z.of_nat (List.length parts))) (is_set 10))
     (p <- eval (getitem parts 10) ;; setattr set_callsign (Some (upper p))).

(** [if parts[11]: self.altitude = int(parts[11])] *)
Definition parse_altitude : M unit :=
  If (is_set 11)
     (p <- eval (getitem parts 11) ;; v <- eval (int p) ;;
      setattr set_altitude (Some v)).

(** [if parts[-1]: self.on_ground = _parse_bool(parts[-1])], the body of
    the workaround for sub-type 7. *)
Definition parse_on_ground_last : M unit :=
  If (is_set (-1))
     (p <- eval (getitem parts (-1)) ;; setattr set_on_ground (_parse_bool p)).

(** [if parts[12]: self.ground_speed = float(parts[12])] *)
Definition parse_ground_speed : M unit :=
  If (is_set 12)
     (p <- eval (getitem parts 12) ;; v <- eval (float_of_str p) ;;
      setattr set_ground_speed (Some v)).

(** [if parts[13]: self.track = float(parts[13])] *)
Definition parse_track : M unit :=
  If (is_set 13)
     (p <- eval (getitem parts 13) ;; v <- eval (float_of_str p) ;;
      setattr set_track (Some v)).

(** [if parts[14]: self.latitude = float(parts[14])] *)
Definition parse_latitude : M unit :=
  If (is_set 14)
     (p <- eval (getitem parts 14) ;; v <- eval (float_of_str p) ;;
      setattr set_latitude (Some v)).

(** [if parts[15]: self.longitude = float(parts[15])] *)
Definition parse_longitude : M unit :=
  If (is_set 15)
     (p <- eval (getitem parts 15) ;; v <- eval (float_of_str p) ;;
      setattr set_longitude (Some v)).

(** [if parts[16]: self.vertical_rate = int(parts[16])] *)
Definition parse_vertical_rate : M unit :=
  If (is_set 16)
     (p <- eval (getitem parts 16) ;; v <- eval (int p) ;;
      setattr set_vertical_rate (Some v)).

(** [if parts[17]: self.squawk = int(parts[17])] *)
Definition parse_squawk : M unit :=
  If (is_set 17)
     (p <- eval (getitem parts 17) ;; v <- eval (int p) ;;
      setattr set_squawk (Some v)).

(** [if parts[18]: self.squawk_alert = _parse_bool(parts[18])] *)
Definition parse_squawk_alert : M unit :=
  If (is_set 18)
     (p <- eval (getitem parts 18) ;; setattr set_squawk_alert (_parse_bool p)).

(** [if parts[19]: self.emergency = _parse_bool(parts[19])] *)
Definition parse_emergency : M unit :=
  If (is_set 19)
     (p <- eval (getitem parts 19) ;; setattr set_emergency (_parse_bool p)).

(** [if parts[20]: self.spi = _parse_bool(parts[20])] *)
Definition parse_spi : M unit :=
  If (is_set 20)
     (p <- eval (getitem parts 20) ;; setattr set_spi (_parse_bool p)).

(** [if parts[21]: self.on_ground = _parse_bool(parts[21])] *)
Definition parse_on_ground : M unit :=
  If (is_set 21)
     (p <- eval (getitem parts 21) ;; setattr set_on_ground (_parse_bool p)).

(** [self.transmission_type == 7 and len(parts) == 21] *)
Definition is_subtype_7_of_21 : M bool :=
  t <- getattr transmission_type ;;
  ret (match t with Some v => v =? 7 | None => false end
       && (Z.of_nat (List.length parts) =? 21)).

(** Fields 12 to 21, read when the workaround did not return. *)
Definition parse_full_form : M unit :=
  parse_ground_speed ;; parse_track ;; parse_latitude ;; parse_longitude ;;
  parse_vertical_rate ;; parse_squawk ;; parse_squawk_alert ;;
  parse_emergency ;; parse_spi ;; parse_on_ground.

(** The body of [if self.message_type == 'MSG':]; the [return] of the
    workaround skips the statements after it. *)
Definition parse_transmission : M unit :=
  parse_altitude ;;
  shortcut <- is_subtype_7_of_21 ;;
  if shortcut then parse_on_ground_last else parse_full_form.

(** [self.message_type == 'MSG'] *)
Definition is_transmission : M bool :=
  t <- getattr message_type ;;
  ret (match t with Some v => String.eqb v "MSG" | None => false end).

(** Fields 0 to 10, read for every message type. *)
Definition parse_header : M unit :=
  parse_message_type ;; parse_transmission_type ;; parse_session_id ;;
  parse_aircraft_id ;; parse_hexident ;; parse_flight_id ;;
  parse_generation_time ;; parse_record_time ;; parse_callsign.

Definition parse_parts : M unit :=
  parse_header ;; If is_transmission parse_transmission.

End ParseString.

(** [self.parse_string(string)] *)
Definition parse_string (string : string) : M unit :=
  parse_parts (split "," (strip string)).

(** [Message.from_string(string)]: the message is returned when
    [parse_string] returns, and is lost when it raises. *)
Definition from_string (string : string) : result Message :=
  match parse_string string init with
  | (message, Ok _) => Ok message
  | (_, Raise e) => Raise e
  end.

(** [self.to_string()] *)
Definition format_coordinates (x : float) : string := format_5f x.

Definition to_string_fields (self : Message) : list string :=
  [ _dump_or_none (message_type self) str_str;
    _dump_or_none (transmission_type self) str_int;
    _dump_or_none (session_id self) str_int;
    _dump_or_none (aircraft_id self) str_int;
    _dump_or_none (hexident self) str_str;
    _dump_or_none (flight_id self) str_str;
    _dump_or_none (generation_time self) _dump_datetime;
    _dump_or_none (record_time self) _dump_datetime;
    _dump_or_none (callsign self) str_str;
    _dump_or_none (altitude self) str_int;
    _dump_or_none (ground_speed self) str_float;
    _dump_or_none (track self) str_float;
    _dump_or_none (latitude self) format_coordinates;
    _dump_or_none (longitude self) format_coordinates;
    _dump_or_none (vertical_rate self) str_int;
    _dump_or_none (squawk self) str_int;
    _dump_or_none (squawk_alert self) _dump_bool;
    _dump_or_none (emergency self) _dump_bool;
    _dump_or_none (spi self) _dump_bool;
    _dump_or_none (on_ground self) _dump_bool ].

Definition newline : string := String (ascii_of_N 10) EmptyString.

Definition to_string (self : Message) : string :=
  join "," (to_string_fields self) ++ newline.

(** *** What a statement of [parse_string] does

    Every statement of [parse_string] is a guarded assignment: from [parts]
    alone it raises, or leaves [self] as it is, or assigns one attribute.
    [perform o set] is the statement whose outcome is [o] and whose
    attribute is the one of [set]; the lemmas of the next part show each
    statement to be one. *)

Definition perform {A : Type} (o : result (option A)) (set : A -> Message -> Message)
  : M unit :=
  fun self =>
    match o with
    | Raise e => (self, Raise e)
    | Ok None => (self, Ok tt)
    | Ok (Some v) => (set v self, Ok tt)
    end.

(** The outcome of [if guard(tok): attribute = conv(tok)]. *)
Definition guarded {A : Type} (tok : result string) (guard : string -> bool)
    (conv : string -> result A) : result (option A) :=
  match tok with
  | Raise e => Raise e
  | Ok p =>
      if guard p then
        match conv p with
        | Ok v => Ok (Some v)
        | Raise e => Raise e
        end
      else Ok None
  end.

Definition some_of {A : Type} (r : result A) : result (option A) :=
  match r with
  | Ok v => Ok (Some v)
  | Raise e => Raise e
  end.

Definition upper_of (p : string) : result (option string) := Ok (Some (upper p)).
Definition int_of (p : string) : result (option Z) := some_of (int p).
Definition float_of (p : string) : result (option float) := some_of (float_of_str p).
Definition bool_of (p : string) : result (option bool) := Ok (_parse_bool p).

Definition not_sentinel (sentinel p : string) : bool :=
  truthy p && negb (String.eqb p sentinel).

Section Outcomes.

Variable parts : list string.

Definition message_type_outcome := guarded (getitem parts 0) truthy upper_of.
Definition transmission_type_outcome := guarded (getitem parts 1) truthy int_of.
Definition session_id_outcome := guarded (getitem parts 2) (not_sentinel "111") int_of.
Definition aircraft_id_outcome := guarded (getitem parts 3) (not_sentinel "11111") int_of.
Definition hexident_outcome := guarded (getitem parts 4) truthy upper_of.
Definition flight_id_outcome := guarded (getitem parts 5) (not_sentinel "111111") upper_of.

Definition generation_time_outcome : result (option (option datetime)) :=
  match getitem parts 6 with
  | Raise e => Raise e
  | Ok d =>
      if truthy d
      then guarded (getitem parts 7) truthy (fun t => some_of (_parse_datetime d t))
      else Ok None
  end.

Definition record_time_outcome : result (option (option datetime)) :=
  match getitem parts 8 with
  | Raise e => Raise e
  | Ok d =>
      if truthy d
      then guarded (getitem parts 9) (fun _ => true) (fun t => some_of (_parse_datetime d t))
      else Ok None
  end.

Definition callsign_outcome : result (option (option string)) :=
  if 10 <? Z.of_nat (List.length parts)
  then guarded (getitem parts 10) truthy upper_of
  else Ok None.

Definition altitude_outcome := guarded (getitem parts 11) truthy int_of.
Definition on_ground_last_outcome := guarded (getitem parts (-1)) truthy bool_of.
Definition ground_speed_outcome := guarded (getitem parts 12) truthy float_of.
Definition track_outcome := guarded (getitem parts 13) truthy float_of.
Definition latitude_outcome := guarded (getitem parts 14) truthy float_of.
Definition longitude_outcome := guarded (getitem parts 15) truthy float_of.
Definition vertical_rate_outcome := guarded (getitem parts 16) truthy int_of.
Definition squawk_outcome := guarded (getitem parts 17) truthy int_of.
Definition squawk_alert_outcome := guarded (getitem parts 18) truthy bool_of.
Definition emergency_outcome := guarded (getitem parts 19) truthy bool_of.
Definition spi_outcome := guarded (getitem parts 20) truthy bool_of.
Definition on_ground_outcome := guarded (getitem parts 21) truthy bool_of.

End Outcomes.

(** [parts[i]] for an index that is a natural number. *)
Definition item (parts : list string) (i : nat) : result string :=
  match nth_error parts i with
  | Some p => Ok p
  | None => Raise IndexError
  end.


(** A guarded assignment, with the type of its attribute; [run] executes a
    list of them in order and stops at the first that raises. [commit] is
    the state that one of them leaves. *)
Record statement : Type := Stmt {
  attr_type : Type;
  outcome : result (option attr_type);
  setter : attr_type -> Message -> Message
}.

Definition commit {A : Type} (o : result (option A)) (set : A -> Message -> Message)
    (self : Message) : Message :=
  match o with
  | Ok (Some v) => set v self
  | _ => self
  end.

Fixpoint run (stmts : list statement) : M unit :=
  fun self =>
    match stmts with
    | [] => (self, Ok tt)
    | s :: rest =>
        match perform (outcome s) (setter s) self with
        | (self', Ok _) => run rest self'
        | (self', Raise e) => (self', Raise e)
        end
    end.

Definition raises (s : statement) : Prop := exists e, outcome s = Raise e.

Definition header_statements (parts : list string) : list statement :=
  [ Stmt _ (message_type_outcome parts) set_message_type;
    Stmt _ (transmission_type_outcome parts) set_transmission_type;
    Stmt _ (session_id_outcome parts) set_session_id;
    Stmt _ (aircraft_id_outcome parts) set_aircraft_id;
    Stmt _ (hexident_outcome parts) set_hexident;
    Stmt _ (flight_id_outcome parts) set_flight_id;
    Stmt _ (generation_time_outcome parts) set_generation_time;
    Stmt _ (record_time_outcome parts) set_record_time;
    Stmt _ (callsign_outcome parts) set_callsign ].

Definition full_form_statements (parts : list string) : list statement :=
  [ Stmt _ (ground_speed_outcome parts) set_ground_speed;
    Stmt _ (track_outcome parts) set_track;
    Stmt _ (latitude_outcome parts) set_latitude;
    Stmt _ (longitude_outcome parts) set_longitude;
    Stmt _ (vertical_rate_outcome parts) set_vertical_rate;
    Stmt _ (squawk_outcome parts) set_squawk;
    Stmt _ (squawk_alert_outcome parts) set_squawk_alert;
    Stmt _ (emergency_outcome parts) set_emergency;
    Stmt _ (spi_outcome parts) set_spi;
    Stmt _ (on_ground_outcome parts) set_on_ground ].

(** The tests of the two branches, on the state that they read. *)
Definition is_msg (self : Message) : bool :=
  match message_type self with Some v => String.eqb v "MSG" | None => false end.

Definition takes_shortcut (parts : list string) (self : Message) : bool :=
  match transmission_type self with Some v => v =? 7 | None => false end
  && (Z.of_nat (List.length parts) =? 21).

(** The statements that follow the header, chosen from the state that the
    header leaves. *)
Definition transmission_statements (parts : list string) (self : Message)
  : list statement :=
  Stmt _ (altitude_outcome parts) set_altitude
  :: (if takes_shortcut parts self
      then [ Stmt _ (on_ground_last_outcome parts) set_on_ground ]
      else full_form_statements parts).

Definition tail_statements (parts : list string) (self : Message) : list statement :=
  if is_msg self then transmission_statements parts self else [].

(** The state that a list of statements leaves when none of them raises. *)
Definition commit_all (stmts : list statement) (self : Message) : Message :=
  fold_left (fun m s => commit (outcome s) (setter s) m) stmts self.

Definition returns (s : statement) : Prop := exists o, outcome s = Ok o.

(** [parts] as [parse_string] computes it from its argument. *)
Definition fields (string : string) : list String.string := split "," (strip string).

(** The message that [from_string] returns when no statement raises. *)
Definition decoded (parts : list string) : Message :=
  let header := commit_all (header_statements parts) init in
  commit_all (tail_statements parts header) header.

(** An attribute that an assignment through [set] leaves as it is. *)
Definition untouched {A B : Type} (f : Message -> B) (set : A -> Message -> Message)
  : Prop :=
  forall v self, f (set v self) = f self.

(** ** Shapes of rendered fields *)

Fixpoint all_digits (s : string) : bool :=
  match s with
  | EmptyString => true
  | String c r => isdigit c && all_digits r
  end.

(** The text has a decimal point, and exactly five digits after the last
    one. *)
Definition five_decimals (s : string) : bool :=
  let '(_, sep, frac) := rpartition "." s in
  truthy sep && (String.length frac =? 5)%nat && all_digits frac.

(** A float that is a number: neither a NaN nor an infinity. *)
Definition is_finite (x : float) : bool :=
  match x with
  | S754_zero _ | S754_finite _ _ _ => true
  | S754_nan | S754_infinity _ => false
  end.

(** [p] holds of [k], [k + 1], ..., [k + n - 1]. *)
Fixpoint holds_from (n : nat) (k : Z) (p : Z -> bool) : bool :=
  match n with
  | O => true
  | S n' => p k && holds_from n' (k + 1) p
  end.

(** ** Relations between the states before and after [parse_string] *)

(** The assignment of the statement [s], when it takes place, relates the
    state before to the state after by [R]. *)
Definition respects (R : Message -> Message -> Prop) (s : statement) : Prop :=
  forall v self, outcome s = Ok (Some v) -> R self (setter s v self).

(** The attribute [f] has the value it had. *)
Definition kept {B : Type} (f : Message -> B) (before after : Message) : Prop :=
  f after = f before.

(** The attribute [f], if it was set, is still set. *)
Definition still_set {B : Type} (f : Message -> option B) (before after : Message)
  : Prop :=
  f before <> None -> f after <> None.

(** Field [i] of the line is empty or is beyond the end of the line. *)
Definition blank (parts : list string) (i : nat) : Prop := nth i parts "" = "".

(** The flag [f] has the value it had, or the one that [_parse_bool] gives
    for a field of the line that is not empty. *)
Definition assigned_from (parts : list string) (f : Message -> option bool)
    (before after : Message) : Prop :=
  f after = f before
  \/ exists p, In p parts /\ p <> "" /\ f after = _parse_bool p.

(** No character of the text is removed by a [strip] on [white]. *)
Fixpoint no_white (white : ascii -> bool) (s : string) : bool :=
  match s with
  | EmptyString => true
  | String c r => negb (white c) && no_white white r
  end.

(** ** A field of a line and the field that [to_string] writes for it

    [p] is a field of the line that was decoded and [e] the field of the
    line that is encoded from the message. *)

(** A text: [e] is [p] in upper case. *)
Definition same_text (p e : string) : Prop := e = upper p.

(** An integer: [e] is empty when [p] is, and otherwise is the decimal
    writing of the integer that [p] denotes, which [int] reads back. *)
Definition same_integer (p e : string) : Prop :=
  (p = "" -> e = "")
  /\ (p <> "" ->
      exists n, int_literal p = Some n /\ e = str_int n /\ int_literal e = Some n).

(** A flag: [e] is empty, ["1"] or ["0"], and [_parse_bool] gives for it what
    it gives for [p]. *)
Definition same_flag (p e : string) : Prop :=
  _parse_bool e = _parse_bool p /\ (e = "" \/ e = "1" \/ e = "0").

(** A float: [e] is empty when [p] is, and otherwise is [render] of the
    float that [p] denotes. *)
Definition rendered_float (render : float -> string) (p e : string) : Prop :=
  (p = "" -> e = "")
  /\ (p <> "" -> exists x, float_literal p = Some x /\ e = render x).

(** A time: [e] is empty when the pair [d], [t] is not read, and otherwise is
    what [_dump_datetime] writes for the time that the pair denotes. *)
Definition rendered_time (read : bool) (d t e : string) : Prop :=
  (read = false -> e = "")
  /\ (read = true ->
      exists v, _parse_datetime d t = Ok v /\ e = _dump_datetime v).

(** Field [i] of the line that is decoded, empty when the line is shorter,
    and field [i] of the twenty that [to_string] joins. *)
Definition field_of (string : string) (i : nat) : String.string :=
  nth i (fields string) "".

Definition encoded_field (r : Message) (i : nat) : string :=
  nth i (to_string_fields r) "?".

(** ** [Message.iter_messages]

    The generator decodes the items of [iterator] in order and yields one
    message for each; when [from_string] raises on an item the exception
    leaves the generator, which yields nothing more. For a finite iterator,
    what a consumer receives is the list of the messages yielded and the
    exception that ended the iteration, if one did. *)
Fixpoint iter_messages (iterator : list string) : list Message * option exn :=
  match iterator with
  | [] => ([], None)
  | item :: rest =>
      match from_string item with
      | Ok message =>
          let (yielded, raised) := iter_messages rest in
          (message :: yielded, raised)
      | Raise e => ([], Some e)
      end
  end.

(** ** Characters of a text *)

(** The text has the character [c]. *)
Fixpoint contains (c : ascii) (s : string) : bool :=
  match s with
  | EmptyString => false
  | String a r => Ascii.eqb a c || contains c r
  end.

(** Every character of the text is removed by a [strip] on [white]. *)
Fixpoint only_white (white : ascii -> bool) (s : string) : bool :=
  match s with
  | EmptyString => true
  | String c r => white c && only_white white r
  end.

(** ** Times on the wire *)

(** A time that the format can carry: a date of the calendar in a year of
    four digits, a time of the day, and a whole number of milliseconds. *)
Definition wire_datetime (t : datetime) : bool :=
  (1000 <=? year t) && (year t <=? 9999)
  && (1 <=? month t) && (month t <=? 12)
  && (1 <=? day t) && (day t <=? days_in_month (year t) (month t))
  && (0 <=? hour t) && (hour t <=? 23)
  && (0 <=? minute t) && (minute t <=? 59)
  && (0 <=? second t) && (second t <=? 59)
  && (0 <=? microsecond t) && (microsecond t <=? 999999)
  && (microsecond t mod 1000 =? 0).

(** The two fields that [_dump_datetime] writes, one before its comma and
    one after. *)
Definition date_field (t : datetime) : string :=
  str_int (year t) ++ "/" ++ zfill 2 (str_int (month t)) ++ "/"
    ++ zfill 2 (str_int (day t)).

Definition time_field (t : datetime) : string :=
  zfill 2 (str_int (hour t)) ++ ":" ++ zfill 2 (str_int (minute t)) ++ ":"
    ++ zfill 2 (str_int (second t)) ++ "." ++ zfill 3 (str_int (milliseconds t)).

(** Checks on the writing of a number, run on every number of a range. *)
Definition writes_four_digits (y : Z) : bool :=
  match str_int y with
  | String a (String b (String c (String d EmptyString))) =>
      isdigit a && isdigit b && isdigit c && isdigit d
      && (digits_value (str_int y) =? y)
  | _ => false
  end.

Definition writes_two_digits (v : Z) : bool :=
  match zfill 2 (str_int v) with
  | String a (String b EmptyString) =>
      isdigit a && isdigit b && (10 * digit_value a + digit_value b =? v)
  | _ => false
  end.

(** The three digits written for [ms] milliseconds are read back as
    [1000 * ms] microseconds, which are written as [ms] milliseconds. *)
Definition writes_milliseconds (ms : Z) : bool :=
  match zfill 3 (str_int ms) with
  | String a (String b (String c EmptyString)) =>
      isdigit a && isdigit b && isdigit c
      && match float_of_str ("." ++ zfill 3 (str_int ms)) with
         | Ok x =>
             match int_of_float (float_mul x (float_of_int 1000000)) with
             | Ok us => us =? 1000 * ms
             | Raise _ => false
             end
         | Raise _ => false
         end
      && (milliseconds (mkDatetime 0 0 0 0 0 0 (1000 * ms)) =? ms)
  | _ => false
  end.

(** The number of occurrences of the character [c] in the text. *)
Fixpoint count (c : ascii) (s : string) : nat :=
  match s with
  | EmptyString => 0
  | String a r => (if Ascii.eqb a c then 1 else 0) + count c r
  end.

(** 1 for an attribute that is present and 0 for one that is absent. *)
Definition present {A : Type} (value : option A) : nat :=
  match value with Some _ => 1 | None => 0 end.

(** No text attribute of the message has a comma. *)
Definition texts_without_comma (self : Message) : Prop :=
  forall v,
    message_type self = Some v \/ hexident self = Some v
    \/ flight_id self = Some v \/ callsign self = Some v ->
    contains "," v = false.
(** A text that a field of a line gives back as it is: not empty, in upper
    case and without a comma. *)
Definition wire_text (v : string) : Prop :=
  v <> "" /\ upper v = v /\ contains "," v = false.

(** A float that [float()] reads back from what [render] writes for it. *)
Definition float_read_back (render : float -> string) (x : float) : Prop :=
  float_literal (render x) = Some x.

(** [P] holds of the attribute when it is present. *)
Definition when_present {A : Type} (P : A -> Prop) (value : option A) : Prop :=
  match value with Some v => P v | None => True end.

(** An integer that [str()] writes and [int()] reads: CPython refuses to
    convert, in either direction, an integer of more than 4300 decimal
    digits, and raises [ValueError]. *)
Definition int_within_limit (n : Z) : Prop := Z.abs n < 10 ^ 4300.

(** The messages that an encoded line gives back: a transmission message
    with both its times, none of the values that a line cannot hold. *)
Record wire_message (self : Message) : Prop := {
  wire_message_type : message_type self = Some "MSG";
  wire_transmission_type : when_present int_within_limit (transmission_type self);
  wire_session_id : session_id self <> Some 111;
  wire_session_id_limit : when_present int_within_limit (session_id self);
  wire_aircraft_id : aircraft_id self <> Some 11111;
  wire_aircraft_id_limit : when_present int_within_limit (aircraft_id self);
  wire_altitude : when_present int_within_limit (altitude self);
  wire_vertical_rate : when_present int_within_limit (vertical_rate self);
  wire_squawk : when_present int_within_limit (squawk self);
  wire_hexident : when_present wire_text (hexident self);
  wire_flight_id : when_present (fun v => wire_text v /\ v <> "111111") (flight_id self);
  wire_generation_time :
    exists t, generation_time self = Some t /\ wire_datetime t = true;
  wire_record_time :
    exists t, record_time self = Some t /\ wire_datetime t = true;
  wire_callsign : when_present wire_text (callsign self);
  wire_ground_speed : when_present (float_read_back str_float) (ground_speed self);
  wire_track : when_present (float_read_back str_float) (track self);
  wire_latitude : when_present (float_read_back format_coordinates) (latitude self);
  wire_longitude : when_present (float_read_back format_coordinates) (longitude self)
}.

(** The twenty-two columns of the line of a message with both its times. *)
Definition columns (self : Message) (generated recorded : datetime) : list string :=
  [ _dump_or_none (message_type self) str_str;
    _dump_or_none (transmission_type self) str_int;
    _dump_or_none (session_id self) str_int;
    _dump_or_none (aircraft_id self) str_int;
    _dump_or_none (hexident self) str_str;
    _dump_or_none (flight_id self) str_str;
    date_field generated; time_field generated;
    date_field recorded; time_field recorded;
    _dump_or_none (callsign self) str_str;
    _dump_or_none (altitude self) str_int;
    _dump_or_none (ground_speed self) str_float;
    _dump_or_none (track self) str_float;
    _dump_or_none (latitude self) format_coordinates;
    _dump_or_none (longitude self) format_coordinates;
    _dump_or_none (vertical_rate self) str_int;
    _dump_or_none (squawk self) str_int;
    _dump_or_none (squawk_alert self) _dump_bool;
    _dump_or_none (emergency self) _dump_bool;
    _dump_or_none (spi self) _dump_bool;
    _dump_or_none (on_ground self) _dump_bool ].
(** ** Properties *)

(** *** Strings *)

Lemma has_length_truthy (p : string) : (0 <? len p) = truthy p.
Proof. destruct p; unfold len; simpl; [reflexivity | apply Z.ltb_lt; lia]. Qed.

Lemma truthy_true (p : string) : truthy p = true <-> p <> "".
Proof. destruct p; simpl; split; congruence. Qed.

Lemma truthy_false (p : string) : truthy p = false <-> p = "".
Proof. destruct p; simpl; split; congruence. Qed.

Lemma split_not_nil (sep : ascii) (s : string) : split sep s <> [].
Proof.
  destruct s as [|c s]; simpl; [discriminate|].
  destruct (Ascii.eqb c sep); [discriminate|].
  destruct (split sep s); discriminate.
Qed.

(** *** Indexing *)

Lemma getitem_item (parts : list string) (i : Z) :
  0 <= i -> getitem parts i = item parts (Z.to_nat i).
Proof.
  intros Hi. unfold getitem, item.
  destruct (i <? 0) eqn:Hneg; [apply Z.ltb_lt in Hneg; lia|].
  destruct (nth_error parts (Z.to_nat i)) as [p|] eqn:Hn.
  - assert (Hlt : (Z.to_nat i < List.length parts)%nat)
      by (apply nth_error_Some; congruence).
    replace ((0 <=? i) && (i <? Z.of_nat (List.length parts))) with true; [reflexivity|].
    symmetry. apply andb_true_iff. split; [apply Z.leb_le | apply Z.ltb_lt]; lia.
  - destruct ((0 <=? i) && (i <? Z.of_nat (List.length parts))); reflexivity.
Qed.

Lemma getitem_some (parts : list string) (i : nat) (p : string) :
  nth_error parts i = Some p -> getitem parts (Z.of_nat i) = Ok p.
Proof.
  intros H. rewrite getitem_item by lia. unfold item. rewrite Nat2Z.id, H. reflexivity.
Qed.

Lemma getitem_none (parts : list string) (i : nat) :
  nth_error parts i = None -> getitem parts (Z.of_nat i) = Raise IndexError.
Proof.
  intros H. rewrite getitem_item by lia. unfold item. rewrite Nat2Z.id, H. reflexivity.
Qed.

Lemma getitem_short (parts : list string) (i : Z) :
  Z.of_nat (List.length parts) <= i -> getitem parts i = Raise IndexError.
Proof.
  intros H. rewrite getitem_item by lia. unfold item.
  replace (nth_error parts (Z.to_nat i)) with (@None string); [reflexivity|].
  symmetry. apply nth_error_None. lia.
Qed.

Lemma getitem_last (parts : list string) :
  parts <> [] ->
  getitem parts (-1) = item parts (List.length parts - 1).
Proof.
  intros Hne. unfold getitem, item. cbv zeta.
  change (-1 <? 0) with true. cbv iota.
  assert (Hlen : (0 < List.length parts)%nat) by (destruct parts; simpl; [congruence | lia]).
  replace (Z.to_nat (-1 + Z.of_nat (List.length parts))) with (List.length parts - 1)%nat by lia.
  replace ((0 <=? -1 + Z.of_nat (List.length parts))
           && (-1 + Z.of_nat (List.length parts) <? Z.of_nat (List.length parts)))
    with true; [reflexivity|].
  symmetry. apply andb_true_iff. split; [apply Z.leb_le | apply Z.ltb_lt]; lia.
Qed.

(** *** Each statement is a guarded assignment *)

Ltac statement :=
  intros;
  unfold perform, guarded, some_of, upper_of, int_of, float_of, bool_of, not_sentinel,
    If, And, is_set, is_not, has_length, bind, eval, ret, setattr;
  repeat match goal with
         | |- context [0 <? len ?p] => rewrite (has_length_truthy p)
         | |- context [match getitem ?l ?i with _ => _ end] =>
             destruct (getitem l i); simpl; try reflexivity
         | |- context [if truthy ?p then _ else _] =>
             destruct (truthy p); simpl; try reflexivity
         | |- context [if negb (String.eqb ?p ?q) then _ else _] =>
             destruct (String.eqb p q); simpl; try reflexivity
         | |- context [match int ?p with _ => _ end] =>
             destruct (int p); simpl; try reflexivity
         | |- context [match float_of_str ?p with _ => _ end] =>
             destruct (float_of_str p); simpl; try reflexivity
         | |- context [match _parse_datetime ?d ?t with _ => _ end] =>
             destruct (_parse_datetime d t); simpl; try reflexivity
         | |- context [match _parse_bool ?p with _ => _ end] =>
             destruct (_parse_bool p); simpl; try reflexivity
         end;
  try reflexivity.

Section Statements.

Variable parts : list string.
Variable self : Message.

Lemma parse_message_type_perform :
  parse_message_type parts self
  = perform (message_type_outcome parts) set_message_type self.
Proof. unfold parse_message_type, message_type_outcome. statement. Qed.

Lemma parse_transmission_type_perform :
  parse_transmission_type parts self
  = perform (transmission_type_outcome parts) set_transmission_type self.
Proof. unfold parse_transmission_type, transmission_type_outcome. statement. Qed.

Lemma parse_session_id_perform :
  parse_session_id parts self
  = perform (session_id_outcome parts) set_session_id self.
Proof. unfold parse_session_id, session_id_outcome. statement. Qed.

Lemma parse_aircraft_id_perform :
  parse_aircraft_id parts self
  = perform (aircraft_id_outcome parts) set_aircraft_id self.
Proof. unfold parse_aircraft_id, aircraft_id_outcome. statement. Qed.

Lemma parse_hexident_perform :
  parse_hexident parts self = perform (hexident_outcome parts) set_hexident self.
Proof. unfold parse_hexident, hexident_outcome. statement. Qed.

Lemma parse_flight_id_perform :
  parse_flight_id parts self = perform (flight_id_outcome parts) set_flight_id self.
Proof. unfold parse_flight_id, flight_id_outcome. statement. Qed.

Lemma parse_generation_time_perform :
  parse_generation_time parts self
  = perform (generation_time_outcome parts) set_generation_time self.
Proof. unfold parse_generation_time, generation_time_outcome. statement. Qed.

Lemma parse_record_time_perform :
  parse_record_time parts self
  = perform (record_time_outcome parts) set_record_time self.
Proof. unfold parse_record_time, record_time_outcome. statement. Qed.

Lemma parse_callsign_perform :
  parse_callsign parts self = perform (callsign_outcome parts) set_callsign self.
Proof.
  unfold parse_callsign, callsign_outcome.
  destruct (10 <? Z.of_nat (List.length parts)); statement.
Qed.

Lemma parse_altitude_perform :
  parse_altitude parts self = perform (altitude_outcome parts) set_altitude self.
Proof. unfold parse_altitude, altitude_outcome. statement. Qed.

Lemma parse_on_ground_last_perform :
  parse_on_ground_last parts self
  = perform (on_ground_last_outcome parts) set_on_ground self.
Proof. unfold parse_on_ground_last, on_ground_last_outcome. statement. Qed.

Lemma parse_ground_speed_perform :
  parse_ground_speed parts self
  = perform (ground_speed_outcome parts) set_ground_speed self.
Proof. unfold parse_ground_speed, ground_speed_outcome. statement. Qed.

Lemma parse_track_perform :
  parse_track parts self = perform (track_outcome parts) set_track self.
Proof. unfold parse_track, track_outcome. statement. Qed.

Lemma parse_latitude_perform :
  parse_latitude parts self = perform (latitude_outcome parts) set_latitude self.
Proof. unfold parse_latitude, latitude_outcome. statement. Qed.

Lemma parse_longitude_perform :
  parse_longitude parts self = perform (longitude_outcome parts) set_longitude self.
Proof. unfold parse_longitude, longitude_outcome. statement. Qed.

Lemma parse_vertical_rate_perform :
  parse_vertical_rate parts self
  = perform (vertical_rate_outcome parts) set_vertical_rate self.
Proof. unfold parse_vertical_rate, vertical_rate_outcome. statement. Qed.

Lemma parse_squawk_perform :
  parse_squawk parts self = perform (squawk_outcome parts) set_squawk self.
Proof. unfold parse_squawk, squawk_outcome. statement. Qed.

Lemma parse_squawk_alert_perform :
  parse_squawk_alert parts self
  = perform (squawk_alert_outcome parts) set_squawk_alert self.
Proof. unfold parse_squawk_alert, squawk_alert_outcome. statement. Qed.

Lemma parse_emergency_perform :
  parse_emergency parts self = perform (emergency_outcome parts) set_emergency self.
Proof. unfold parse_emergency, emergency_outcome. statement. Qed.

Lemma parse_spi_perform :
  parse_spi parts self = perform (spi_outcome parts) set_spi self.
Proof. unfold parse_spi, spi_outcome. statement. Qed.

Lemma parse_on_ground_perform :
  parse_on_ground parts self = perform (on_ground_outcome parts) set_on_ground self.
Proof. unfold parse_on_ground, on_ground_outcome. statement. Qed.

End Statements.

(** *** Runs of statements *)

Lemma run_app (s1 s2 : list statement) (self : Message) :
  run (s1 ++ s2) self
  = match run s1 self with
    | (self', Ok _) => run s2 self'
    | (self', Raise e) => (self', Raise e)
    end.
Proof.
  revert self. induction s1 as [|s rest IH]; intros self; simpl; [reflexivity|].
  destruct (perform (outcome s) (setter s) self) as [self' [u|e]]; [apply IH | reflexivity].
Qed.

Lemma perform_commit {A : Type} (o : result (option A)) set (self : Message) :
  fst (perform o set self) = commit o set self.
Proof. destruct o as [[v|]|e]; reflexivity. Qed.

Lemma perform_ok {A : Type} (o : result (option A)) set (self self' : Message) u :
  perform o set self = (self', Ok u) ->
  exists v, o = Ok v /\ self' = commit o set self.
Proof.
  destruct o as [[v|]|e]; simpl; intros H; inversion H; subst; eauto.
Qed.

Lemma perform_raise {A : Type} (o : result (option A)) set (self : Message) e :
  o = Raise e -> perform o set self = (self, Raise e).
Proof. intros ->. reflexivity. Qed.

Lemma unit_result (r : Message * result unit) :
  match r with
  | (self', Ok _) => (self', Ok tt)
  | (self', Raise e) => (self', Raise e)
  end = r.
Proof. destruct r as [self' [[]|e]]; reflexivity. Qed.

(** [parse_header] runs the nine statements of the header. *)
Lemma parse_header_run (parts : list string) (self : Message) :
  parse_header parts self = run (header_statements parts) self.
Proof.
  unfold parse_header, header_statements, bind. simpl run.
  rewrite parse_message_type_perform.
  destruct (perform _ set_message_type self) as [m1 [u|e]]; [|reflexivity].
  rewrite parse_transmission_type_perform.
  destruct (perform _ set_transmission_type m1) as [m2 [u2|e]]; [|reflexivity].
  rewrite parse_session_id_perform.
  destruct (perform _ set_session_id m2) as [m3 [u3|e]]; [|reflexivity].
  rewrite parse_aircraft_id_perform.
  destruct (perform _ set_aircraft_id m3) as [m4 [u4|e]]; [|reflexivity].
  rewrite parse_hexident_perform.
  destruct (perform _ set_hexident m4) as [m5 [u5|e]]; [|reflexivity].
  rewrite parse_flight_id_perform.
  destruct (perform _ set_flight_id m5) as [m6 [u6|e]]; [|reflexivity].
  rewrite parse_generation_time_perform.
  destruct (perform _ set_generation_time m6) as [m7 [u7|e]]; [|reflexivity].
  rewrite parse_record_time_perform.
  destruct (perform _ set_record_time m7) as [m8 [u8|e]]; [|reflexivity].
  rewrite parse_callsign_perform.
  symmetry. apply unit_result.
Qed.

(** [parse_full_form] runs the ten statements of fields 12 to 21. *)
Lemma parse_full_form_run (parts : list string) (self : Message) :
  parse_full_form parts self = run (full_form_statements parts) self.
Proof.
  unfold parse_full_form, full_form_statements, bind. simpl run.
  rewrite parse_ground_speed_perform.
  destruct (perform _ set_ground_speed self) as [m1 [u|e]]; [|reflexivity].
  rewrite parse_track_perform.
  destruct (perform _ set_track m1) as [m2 [u2|e]]; [|reflexivity].
  rewrite parse_latitude_perform.
  destruct (perform _ set_latitude m2) as [m3 [u3|e]]; [|reflexivity].
  rewrite parse_longitude_perform.
  destruct (perform _ set_longitude m3) as [m4 [u4|e]]; [|reflexivity].
  rewrite parse_vertical_rate_perform.
  destruct (perform _ set_vertical_rate m4) as [m5 [u5|e]]; [|reflexivity].
  rewrite parse_squawk_perform.
  destruct (perform _ set_squawk m5) as [m6 [u6|e]]; [|reflexivity].
  rewrite parse_squawk_alert_perform.
  destruct (perform _ set_squawk_alert m6) as [m7 [u7|e]]; [|reflexivity].
  rewrite parse_emergency_perform.
  destruct (perform _ set_emergency m7) as [m8 [u8|e]]; [|reflexivity].
  rewrite parse_spi_perform.
  destruct (perform _ set_spi m8) as [m9 [u9|e]]; [|reflexivity].
  rewrite parse_on_ground_perform.
  symmetry. apply unit_result.
Qed.

Lemma takes_shortcut_altitude (parts : list string) o (self : Message) :
  takes_shortcut parts (commit o set_altitude self) = takes_shortcut parts self.
Proof. destruct o as [[v|]|e]; destruct self; reflexivity. Qed.

(** [parse_transmission] runs the statement of the altitude and then the
    one of the workaround or the ten of the full form. *)
Lemma parse_transmission_run (parts : list string) (self : Message) :
  parse_transmission parts self = run (transmission_statements parts self) self.
Proof.
  unfold parse_transmission, transmission_statements, bind.
  cbn [run outcome setter attr_type].
  rewrite parse_altitude_perform.
  destruct (perform (altitude_outcome parts) set_altitude self) as [m1 [u|e]] eqn:Ha;
    [|reflexivity].
  apply perform_ok in Ha. destruct Ha as [v [Hv ->]].
  unfold is_subtype_7_of_21, bind, getattr, ret.
  fold (takes_shortcut parts (commit (altitude_outcome parts) set_altitude self)).
  rewrite takes_shortcut_altitude.
  destruct (takes_shortcut parts self).
  - rewrite parse_on_ground_last_perform. simpl run.
    symmetry. apply unit_result.
  - apply parse_full_form_run.
Qed.

(** [parse_parts] runs the header and then the statements chosen by the
    state that the header leaves. *)
Lemma parse_parts_run (parts : list string) (self : Message) :
  parse_parts parts self
  = match run (header_statements parts) self with
    | (self', Ok _) => run (tail_statements parts self') self'
    | (self', Raise e) => (self', Raise e)
    end.
Proof.
  unfold parse_parts, bind. rewrite parse_header_run.
  destruct (run (header_statements parts) self) as [m1 [u|e]]; [|reflexivity].
  unfold If, is_transmission, bind, getattr, ret, tail_statements.
  fold (is_msg m1).
  destruct (is_msg m1); [apply parse_transmission_run | reflexivity].
Qed.

Lemma run_returns (stmts : list statement) (self : Message) :
  Forall returns stmts -> run stmts self = (commit_all stmts self, Ok tt).
Proof.
  intros H. revert self. induction H as [|s rest [o Ho] _ IH]; intros self; simpl.
  - reflexivity.
  - unfold commit_all. simpl. rewrite Ho.
    destruct o as [v|]; simpl; apply IH.
Qed.

Lemma run_ok (stmts : list statement) (self self' : Message) u :
  run stmts self = (self', Ok u) ->
  Forall returns stmts /\ self' = commit_all stmts self.
Proof.
  revert self. induction stmts as [|s rest IH]; intros self; simpl.
  - intros H. inversion H. split; [constructor | reflexivity].
  - destruct (perform (outcome s) (setter s) self) as [m1 [u1|e]] eqn:Hs; [|discriminate].
    intros H. apply perform_ok in Hs. destruct Hs as [o [Ho ->]].
    apply IH in H. destruct H as [Hall ->].
    split; [constructor; [exists o; exact Ho | exact Hall] | reflexivity].
Qed.

Lemma run_raises (stmts : list statement) (self : Message) :
  Exists raises stmts -> exists self' e, run stmts self = (self', Raise e).
Proof.
  intros H. revert self. induction H as [s rest [e He]|s rest _ IH]; intros self; simpl.
  - rewrite He. simpl. eauto.
  - destruct (perform (outcome s) (setter s) self) as [m1 [u1|e]]; [apply IH | eauto].
Qed.

(** A relation between the state before and the state after that every
    assignment of a run respects is respected by the run, whether it
    returns or raises. *)
Section RunPreserves.

Variable R : Message -> Message -> Prop.
Hypothesis R_refl : forall m, R m m.
Hypothesis R_trans : forall m1 m2 m3, R m1 m2 -> R m2 m3 -> R m1 m3.

Lemma commit_respects (s : statement) (self : Message) :
  respects R s -> R self (commit (outcome s) (setter s) self).
Proof.
  intros H. unfold commit. destruct (outcome s) as [[v|]|e] eqn:Ho; auto.
Qed.

Lemma run_respects (stmts : list statement) (self : Message) :
  Forall (respects R) stmts -> R self (fst (run stmts self)).
Proof.
  intros H. revert self. induction H as [|s rest Hs _ IH]; intros self; simpl.
  - apply R_refl.
  - pose proof (commit_respects s self Hs) as Hc.
    rewrite <- perform_commit in Hc.
    destruct (perform (outcome s) (setter s) self) as [m1 [u1|e]]; simpl in *.
    + eapply R_trans; [exact Hc | apply IH].
    + exact Hc.
Qed.

End RunPreserves.

Lemma commit_untouched {A B : Type} (f : Message -> B) (set : A -> Message -> Message)
    o (self : Message) :
  untouched f set -> f (commit o set self) = f self.
Proof. intros H. destruct o as [[v|]|e]; simpl; auto. Qed.

Lemma commit_all_untouched {B : Type} (f : Message -> B) (stmts : list statement)
    (self : Message) :
  Forall (fun s => untouched f (setter s)) stmts -> f (commit_all stmts self) = f self.
Proof.
  intros H. revert self. unfold commit_all.
  induction H as [|s rest Hs _ IH]; intros self; simpl; [reflexivity|].
  rewrite IH. apply commit_untouched, Hs.
Qed.

(** *** [from_string] *)

Lemma parse_string_run (string : string) (self : Message) :
  parse_string string self
  = match run (header_statements (fields string)) self with
    | (self', Ok _) => run (tail_statements (fields string) self') self'
    | (self', Raise e) => (self', Raise e)
    end.
Proof. apply parse_parts_run. Qed.

Lemma from_string_ok (string : string) (r : Message) :
  from_string string = Ok r ->
  r = decoded (fields string)
  /\ Forall returns (header_statements (fields string))
  /\ Forall returns
       (tail_statements (fields string)
          (commit_all (header_statements (fields string)) init)).
Proof.
  unfold from_string. rewrite parse_string_run.
  destruct (run (header_statements (fields string)) init) as [m1 [u1|e]] eqn:Hh;
    [|discriminate].
  apply run_ok in Hh. destruct Hh as [Hh ->].
  destruct (run _ (commit_all _ init)) as [m2 [u2|e]] eqn:Ht; [|discriminate].
  apply run_ok in Ht. destruct Ht as [Ht ->].
  intros H. inversion H. auto.
Qed.

Lemma from_string_returns (string : string) :
  Forall returns (header_statements (fields string)) ->
  Forall returns
    (tail_statements (fields string)
       (commit_all (header_statements (fields string)) init)) ->
  from_string string = Ok (decoded (fields string)).
Proof.
  intros Hh Ht. unfold from_string. rewrite parse_string_run.
  rewrite (run_returns _ _ Hh), (run_returns _ _ Ht). reflexivity.
Qed.

Lemma from_string_header_raises (string : string) :
  Exists raises (header_statements (fields string)) ->
  exists e, from_string string = Raise e.
Proof.
  intros H. unfold from_string. rewrite parse_string_run.
  destruct (run_raises _ init H) as [m1 [e ->]]. eauto.
Qed.

Lemma from_string_tail_raises (string : string) :
  Exists raises
    (tail_statements (fields string)
       (commit_all (header_statements (fields string)) init)) ->
  exists e, from_string string = Raise e.
Proof.
  intros H. unfold from_string. rewrite parse_string_run.
  destruct (run (header_statements (fields string)) init) as [m1 [u1|e]] eqn:Hh; [|eauto].
  apply run_ok in Hh. destruct Hh as [_ ->].
  destruct (run_raises _ (commit_all (header_statements (fields string)) init) H)
    as [m2 [e ->]]. eauto.
Qed.

(** *** Attributes after an assignment *)

Ltac untouched := intros ? []; reflexivity.

Lemma message_type_commit o (self : Message) :
  message_type (commit o set_message_type self)
  = match o with Ok (Some v) => v | _ => message_type self end.
Proof. destruct o as [[v|]|e]; destruct self; reflexivity. Qed.

Lemma transmission_type_commit o (self : Message) :
  transmission_type (commit o set_transmission_type self)
  = match o with Ok (Some v) => v | _ => transmission_type self end.
Proof. destruct o as [[v|]|e]; destruct self; reflexivity. Qed.

Lemma session_id_commit o (self : Message) :
  session_id (commit o set_session_id self)
  = match o with Ok (Some v) => v | _ => session_id self end.
Proof. destruct o as [[v|]|e]; destruct self; reflexivity. Qed.

Lemma aircraft_id_commit o (self : Message) :
  aircraft_id (commit o set_aircraft_id self)
  = match o with Ok (Some v) => v | _ => aircraft_id self end.
Proof. destruct o as [[v|]|e]; destruct self; reflexivity. Qed.

Lemma hexident_commit o (self : Message) :
  hexident (commit o set_hexident self)
  = match o with Ok (Some v) => v | _ => hexident self end.
Proof. destruct o as [[v|]|e]; destruct self; reflexivity. Qed.

Lemma flight_id_commit o (self : Message) :
  flight_id (commit o set_flight_id self)
  = match o with Ok (Some v) => v | _ => flight_id self end.
Proof. destruct o as [[v|]|e]; destruct self; reflexivity. Qed.

Lemma generation_time_commit o (self : Message) :
  generation_time (commit o set_generation_time self)
  = match o with Ok (Some v) => v | _ => generation_time self end.
Proof. destruct o as [[v|]|e]; destruct self; reflexivity. Qed.

Lemma record_time_commit o (self : Message) :
  record_time (commit o set_record_time self)
  = match o with Ok (Some v) => v | _ => record_time self end.
Proof. destruct o as [[v|]|e]; destruct self; reflexivity. Qed.

Lemma callsign_commit o (self : Message) :
  callsign (commit o set_callsign self)
  = match o with Ok (Some v) => v | _ => callsign self end.
Proof. destruct o as [[v|]|e]; destruct self; reflexivity. Qed.

Lemma altitude_commit o (self : Message) :
  altitude (commit o set_altitude self)
  = match o with Ok (Some v) => v | _ => altitude self end.
Proof. destruct o as [[v|]|e]; destruct self; reflexivity. Qed.

Lemma ground_speed_commit o (self : Message) :
  ground_speed (commit o set_ground_speed self)
  = match o with Ok (Some v) => v | _ => ground_speed self end.
Proof. destruct o as [[v|]|e]; destruct self; reflexivity. Qed.

Lemma track_commit o (self : Message) :
  track (commit o set_track self)
  = match o with Ok (Some v) => v | _ => track self end.
Proof. destruct o as [[v|]|e]; destruct self; reflexivity. Qed.

Lemma latitude_commit o (self : Message) :
  latitude (commit o set_latitude self)
  = match o with Ok (Some v) => v | _ => latitude self end.
Proof. destruct o as [[v|]|e]; destruct self; reflexivity. Qed.

Lemma longitude_commit o (self : Message) :
  longitude (commit o set_longitude self)
  = match o with Ok (Some v) => v | _ => longitude self end.
Proof. destruct o as [[v|]|e]; destruct self; reflexivity. Qed.

Lemma vertical_rate_commit o (self : Message) :
  vertical_rate (commit o set_vertical_rate self)
  = match o with Ok (Some v) => v | _ => vertical_rate self end.
Proof. destruct o as [[v|]|e]; destruct self; reflexivity. Qed.

Lemma squawk_commit o (self : Message) :
  squawk (commit o set_squawk self)
  = match o with Ok (Some v) => v | _ => squawk self end.
Proof. destruct o as [[v|]|e]; destruct self; reflexivity. Qed.

Lemma squawk_alert_commit o (self : Message) :
  squawk_alert (commit o set_squawk_alert self)
  = match o with Ok (Some v) => v | _ => squawk_alert self end.
Proof. destruct o as [[v|]|e]; destruct self; reflexivity. Qed.

Lemma emergency_commit o (self : Message) :
  emergency (commit o set_emergency self)
  = match o with Ok (Some v) => v | _ => emergency self end.
Proof. destruct o as [[v|]|e]; destruct self; reflexivity. Qed.

Lemma spi_commit o (self : Message) :
  spi (commit o set_spi self)
  = match o with Ok (Some v) => v | _ => spi self end.
Proof. destruct o as [[v|]|e]; destruct self; reflexivity. Qed.

Lemma on_ground_commit o (self : Message) :
  on_ground (commit o set_on_ground self)
  = match o with Ok (Some v) => v | _ => on_ground self end.
Proof. destruct o as [[v|]|e]; destruct self; reflexivity. Qed.

(** The attribute [f] of a state reached by assignments: the assignments
    to other attributes are skipped and the one to [f] is read. *)
Ltac project f :=
  repeat first
    [ rewrite (commit_untouched f) by untouched
    | rewrite message_type_commit
    | rewrite transmission_type_commit
    | rewrite session_id_commit
    | rewrite aircraft_id_commit
    | rewrite hexident_commit
    | rewrite flight_id_commit
    | rewrite generation_time_commit
    | rewrite record_time_commit
    | rewrite callsign_commit
    | rewrite altitude_commit
    | rewrite ground_speed_commit
    | rewrite track_commit
    | rewrite latitude_commit
    | rewrite longitude_commit
    | rewrite vertical_rate_commit
    | rewrite squawk_commit
    | rewrite squawk_alert_commit
    | rewrite emergency_commit
    | rewrite spi_commit
    | rewrite on_ground_commit
    ].

Ltac header := unfold commit_all, header_statements; cbn [fold_left outcome setter attr_type].
Ltac full_form :=
  unfold commit_all, full_form_statements; cbn [fold_left outcome setter attr_type].

(** *** Attributes after the header *)

Lemma header_message_type (parts : list string) (self : Message) :
  message_type (commit_all (header_statements parts) self)
  = match message_type_outcome parts with Ok (Some v) => v | _ => message_type self end.
Proof. header. project message_type. reflexivity. Qed.

Lemma header_transmission_type (parts : list string) (self : Message) :
  transmission_type (commit_all (header_statements parts) self)
  = match transmission_type_outcome parts with Ok (Some v) => v | _ => transmission_type self end.
Proof. header. project transmission_type. reflexivity. Qed.

Lemma header_session_id (parts : list string) (self : Message) :
  session_id (commit_all (header_statements parts) self)
  = match session_id_outcome parts with Ok (Some v) => v | _ => session_id self end.
Proof. header. project session_id. reflexivity. Qed.

Lemma header_aircraft_id (parts : list string) (self : Message) :
  aircraft_id (commit_all (header_statements parts) self)
  = match aircraft_id_outcome parts with Ok (Some v) => v | _ => aircraft_id self end.
Proof. header. project aircraft_id. reflexivity. Qed.

Lemma header_hexident (parts : list string) (self : Message) :
  hexident (commit_all (header_statements parts) self)
  = match hexident_outcome parts with Ok (Some v) => v | _ => hexident self end.
Proof. header. project hexident. reflexivity. Qed.

Lemma header_flight_id (parts : list string) (self : Message) :
  flight_id (commit_all (header_statements parts) self)
  = match flight_id_outcome parts with Ok (Some v) => v | _ => flight_id self end.
Proof. header. project flight_id. reflexivity. Qed.

Lemma header_generation_time (parts : list string) (self : Message) :
  generation_time (commit_all (header_statements parts) self)
  = match generation_time_outcome parts with Ok (Some v) => v | _ => generation_time self end.
Proof. header. project generation_time. reflexivity. Qed.

Lemma header_record_time (parts : list string) (self : Message) :
  record_time (commit_all (header_statements parts) self)
  = match record_time_outcome parts with Ok (Some v) => v | _ => record_time self end.
Proof. header. project record_time. reflexivity. Qed.

Lemma header_callsign (parts : list string) (self : Message) :
  callsign (commit_all (header_statements parts) self)
  = match callsign_outcome parts with Ok (Some v) => v | _ => callsign self end.
Proof. header. project callsign. reflexivity. Qed.

Lemma header_untouched {B : Type} (f : Message -> B) (parts : list string)
    (self : Message) :
  untouched f set_message_type -> untouched f set_transmission_type ->
  untouched f set_session_id -> untouched f set_aircraft_id ->
  untouched f set_hexident -> untouched f set_flight_id ->
  untouched f set_generation_time -> untouched f set_record_time ->
  untouched f set_callsign ->
  f (commit_all (header_statements parts) self) = f self.
Proof.
  intros. apply commit_all_untouched. unfold header_statements.
  repeat constructor; assumption.
Qed.

(** *** Attributes after fields 12 to 21 *)

Lemma full_form_ground_speed (parts : list string) (self : Message) :
  ground_speed (commit_all (full_form_statements parts) self)
  = match ground_speed_outcome parts with Ok (Some v) => v | _ => ground_speed self end.
Proof. full_form. project ground_speed. reflexivity. Qed.

Lemma full_form_track (parts : list string) (self : Message) :
  track (commit_all (full_form_statements parts) self)
  = match track_outcome parts with Ok (Some v) => v | _ => track self end.
Proof. full_form. project track. reflexivity. Qed.

Lemma full_form_latitude (parts : list string) (self : Message) :
  latitude (commit_all (full_form_statements parts) self)
  = match latitude_outcome parts with Ok (Some v) => v | _ => latitude self end.
Proof. full_form. project latitude. reflexivity. Qed.

Lemma full_form_longitude (parts : list string) (self : Message) :
  longitude (commit_all (full_form_statements parts) self)
  = match longitude_outcome parts with Ok (Some v) => v | _ => longitude self end.
Proof. full_form. project longitude. reflexivity. Qed.

Lemma full_form_vertical_rate (parts : list string) (self : Message) :
  vertical_rate (commit_all (full_form_statements parts) self)
  = match vertical_rate_outcome parts with Ok (Some v) => v | _ => vertical_rate self end.
Proof. full_form. project vertical_rate. reflexivity. Qed.

Lemma full_form_squawk (parts : list string) (self : Message) :
  squawk (commit_all (full_form_statements parts) self)
  = match squawk_outcome parts with Ok (Some v) => v | _ => squawk self end.
Proof. full_form. project squawk. reflexivity. Qed.

Lemma full_form_squawk_alert (parts : list string) (self : Message) :
  squawk_alert (commit_all (full_form_statements parts) self)
  = match squawk_alert_outcome parts with Ok (Some v) => v | _ => squawk_alert self end.
Proof. full_form. project squawk_alert. reflexivity. Qed.

Lemma full_form_emergency (parts : list string) (self : Message) :
  emergency (commit_all (full_form_statements parts) self)
  = match emergency_outcome parts with Ok (Some v) => v | _ => emergency self end.
Proof. full_form. project emergency. reflexivity. Qed.

Lemma full_form_spi (parts : list string) (self : Message) :
  spi (commit_all (full_form_statements parts) self)
  = match spi_outcome parts with Ok (Some v) => v | _ => spi self end.
Proof. full_form. project spi. reflexivity. Qed.

Lemma full_form_on_ground (parts : list string) (self : Message) :
  on_ground (commit_all (full_form_statements parts) self)
  = match on_ground_outcome parts with Ok (Some v) => v | _ => on_ground self end.
Proof. full_form. project on_ground. reflexivity. Qed.

Lemma full_form_untouched {B : Type} (f : Message -> B) (parts : list string)
    (self : Message) :
  untouched f set_ground_speed -> untouched f set_track ->
  untouched f set_latitude -> untouched f set_longitude ->
  untouched f set_vertical_rate -> untouched f set_squawk ->
  untouched f set_squawk_alert -> untouched f set_emergency ->
  untouched f set_spi -> untouched f set_on_ground ->
  f (commit_all (full_form_statements parts) self) = f self.
Proof.
  intros. apply commit_all_untouched. unfold full_form_statements.
  repeat constructor; assumption.
Qed.

(** *** Fields of the line *)

Lemma getitem_nth (parts : list string) (i : Z) (p : string) :
  0 <= i -> nth_error parts (Z.to_nat i) = Some p -> getitem parts i = Ok p.
Proof. intros Hi H. rewrite getitem_item by exact Hi. unfold item. rewrite H. reflexivity. Qed.

Lemma getitem_ok (parts : list string) (i : Z) (p : string) :
  0 <= i -> getitem parts i = Ok p -> nth_error parts (Z.to_nat i) = Some p.
Proof.
  intros Hi. rewrite getitem_item by exact Hi. unfold item.
  destruct (nth_error parts (Z.to_nat i)); congruence.
Qed.

Lemma fields_not_nil (string : string) : fields string <> [].
Proof. apply split_not_nil. Qed.

Lemma fields_first (string : string) :
  nth_error (fields string) 0 = Some (hd "" (fields string)).
Proof.
  pose proof (fields_not_nil string) as H.
  destruct (fields string); [congruence | reflexivity].
Qed.

Lemma nth_error_before {A : Type} (l : list A) (i j : nat) (x : A) :
  nth_error l j = Some x -> (i <= j)%nat -> exists y, nth_error l i = Some y.
Proof.
  intros Hj Hij.
  assert (Hlt : (i < List.length l)%nat).
  { assert (j < List.length l)%nat by (apply nth_error_Some; congruence). lia. }
  destruct (nth_error l i) as [y|] eqn:Hi; [eauto|].
  apply nth_error_None in Hi. lia.
Qed.

(** Every statement returns or raises. *)
Lemma returns_or_raises (s : statement) : returns s \/ raises s.
Proof.
  unfold returns, raises. destruct (outcome s) as [o|e]; [left | right]; eauto.
Qed.

Lemma all_return_or_one_raises (stmts : list statement) :
  Forall returns stmts \/ Exists raises stmts.
Proof.
  induction stmts as [|s rest [IH|IH]].
  - left. constructor.
  - destruct (returns_or_raises s) as [H|H];
      [left; constructor; assumption | right; constructor; assumption].
  - right. apply Exists_cons_tl. exact IH.
Qed.

(** The message type and the transmission type that the header leaves in a
    fresh message. *)
Lemma header_init_message_type (parts : list string) (p0 : string) :
  nth_error parts 0 = Some p0 ->
  message_type (commit_all (header_statements parts) init)
  = if truthy p0 then Some (upper p0) else None.
Proof.
  intros H. rewrite header_message_type. unfold message_type_outcome, guarded, upper_of.
  rewrite (getitem_nth parts 0 p0) by (lia || exact H).
  destruct (truthy p0); reflexivity.
Qed.

Lemma upper_truthy (p : string) : truthy (upper p) = truthy p.
Proof. destruct p; reflexivity. Qed.

Lemma is_msg_header_init (parts : list string) (p0 : string) :
  nth_error parts 0 = Some p0 ->
  is_msg (commit_all (header_statements parts) init) = String.eqb (upper p0) "MSG".
Proof.
  intros H. unfold is_msg. rewrite (header_init_message_type parts p0 H).
  destruct (truthy p0) eqn:Hp; [reflexivity|].
  apply truthy_false in Hp. subst p0. reflexivity.
Qed.

(** *** C6 *)

(** C6: when field 1 of the line is non-empty and is not the text of an
    integer, [from_string] raises [ValueError]: no message is returned, and
    none with a transmission type set to some default. *)
Theorem malformed_transmission_type_raises (string p1 : string) :
  nth_error (fields string) 1 = Some p1 ->
  p1 <> "" ->
  int_literal p1 = None ->
  from_string string = Raise ValueError.
Proof.
  intros H1 Hne Hint.
  unfold from_string. rewrite parse_string_run.
  unfold header_statements. cbn [run outcome setter attr_type].
  unfold message_type_outcome, transmission_type_outcome, guarded.
  rewrite (getitem_nth _ 0 _ ltac:(lia) (fields_first string)).
  rewrite (getitem_nth _ 1 p1 ltac:(lia) H1).
  apply truthy_true in Hne. rewrite Hne.
  unfold int_of, int. rewrite Hint. simpl.
  destruct (truthy (hd "" (fields string))); reflexivity.
Qed.

Lemma malformed_transmission_type_raises_witness :
  nth_error (fields "MSG,abc,111,11111,3C49CC,111111,,,,,,24400,,,,,,,,,,0") 1 = Some "abc"
  /\ "abc" <> ""
  /\ int_literal "abc" = None
  /\ from_string "MSG,abc,111,11111,3C49CC,111111,,,,,,24400,,,,,,,,,,0" = Raise ValueError.
Proof.
  split; [reflexivity|]. split; [discriminate|]. split; [reflexivity|].
  apply (malformed_transmission_type_raises _ "abc"); [reflexivity | discriminate | reflexivity].
Defined.

(** *** C7 *)

Lemma getitem_firstn (n : nat) (parts : list string) (i : Z) :
  0 <= i < Z.of_nat n -> getitem (firstn n parts) i = getitem parts i.
Proof.
  intros Hi. rewrite !getitem_item by lia. unfold item.
  rewrite nth_error_firstn.
  replace (Nat.ltb (Z.to_nat i) n) with true; [reflexivity|].
  symmetry. apply Nat.ltb_lt. lia.
Qed.

Lemma length_firstn_test (parts : list string) :
  (10 <? Z.of_nat (List.length (firstn 11 parts))) = (10 <? Z.of_nat (List.length parts)).
Proof.
  rewrite length_firstn.
  destruct (10 <? Z.of_nat (List.length parts)) eqn:H.
  - apply Z.ltb_lt in H. apply Z.ltb_lt. lia.
  - apply Z.ltb_ge in H. apply Z.ltb_ge. lia.
Qed.

(** The header reads the first eleven fields only. *)
Lemma header_statements_firstn (parts : list string) :
  header_statements (firstn 11 parts) = header_statements parts.
Proof.
  unfold header_statements, message_type_outcome, transmission_type_outcome,
    session_id_outcome, aircraft_id_outcome, hexident_outcome, flight_id_outcome,
    generation_time_outcome, record_time_outcome, callsign_outcome.
  rewrite length_firstn_test.
  rewrite !(getitem_firstn 11) by (simpl; lia).
  reflexivity.
Qed.

Lemma hd_firstn (parts : list string) : hd "" (firstn 11 parts) = hd "" parts.
Proof. destruct parts; reflexivity. Qed.

Lemma from_string_non_msg (string : string) :
  upper (hd "" (fields string)) <> "MSG" ->
  from_string string
  = match run (header_statements (fields string)) init with
    | (m, Ok _) => Ok m
    | (_, Raise e) => Raise e
    end.
Proof.
  intros Hno. unfold from_string. rewrite parse_string_run.
  destruct (run (header_statements (fields string)) init) as [m1 [u|e]] eqn:Hh;
    [|reflexivity].
  apply run_ok in Hh. destruct Hh as [_ ->].
  unfold tail_statements.
  rewrite (is_msg_header_init _ _ (fields_first string)).
  apply String.eqb_neq in Hno. rewrite Hno. reflexivity.
Qed.

(** C7: when field 0 of the line, upper-cased, is not ["MSG"], [from_string]
    does what the header alone does; the message it returns has no altitude,
    ground speed, track, latitude, longitude, vertical rate, squawk, squawk
    alert, emergency, SPI or ground flag; and the fields after the eleventh
    have no influence at all, so none of them can make it raise. *)
Theorem non_msg_line_reads_header_only (string : string) :
  upper (hd "" (fields string)) <> "MSG" ->
  from_string string
  = match parse_header (fields string) init with
    | (m, Ok _) => Ok m
    | (_, Raise e) => Raise e
    end
  /\ (forall r, from_string string = Ok r ->
        altitude r = None /\ ground_speed r = None /\ track r = None
        /\ latitude r = None /\ longitude r = None /\ vertical_rate r = None
        /\ squawk r = None /\ squawk_alert r = None /\ emergency r = None
        /\ spi r = None /\ on_ground r = None)
  /\ (forall string',
        firstn 11 (fields string') = firstn 11 (fields string) ->
        from_string string' = from_string string).
Proof.
  intros Hno. split; [|split].
  - rewrite parse_header_run. apply from_string_non_msg, Hno.
  - intros r. rewrite (from_string_non_msg _ Hno).
    destruct (run (header_statements (fields string)) init) as [m1 [u|e]] eqn:Hh;
      [|discriminate].
    apply run_ok in Hh. destruct Hh as [_ ->].
    intros [= <-].
    repeat split;
      match goal with
      | |- ?f _ = None => header; project f; reflexivity
      end.
  - intros string' Heq.
    assert (Hno' : upper (hd "" (fields string')) <> "MSG").
    { rewrite <- hd_firstn, Heq, hd_firstn. exact Hno. }
    rewrite (from_string_non_msg _ Hno), (from_string_non_msg _ Hno').
    rewrite <- (header_statements_firstn (fields string')), Heq,
      header_statements_firstn.
    reflexivity.
Qed.

Lemma non_msg_line_reads_header_only_witness :
  upper (hd "" (fields "ID,,1,2,4CA2D6,3,2015/05/01,17:06:55.370,2015/05/01,17:06:55.326,ryr1427,37000,x,y,maybe,,,,,,,2"))
    <> "MSG"
  /\ exists r,
       from_string "ID,,1,2,4CA2D6,3,2015/05/01,17:06:55.370,2015/05/01,17:06:55.326,ryr1427,37000,x,y,maybe,,,,,,,2"
         = Ok r
       /\ callsign r = Some "RYR1427"
       /\ altitude r = None /\ ground_speed r = None /\ track r = None
       /\ latitude r = None /\ longitude r = None /\ vertical_rate r = None
       /\ squawk r = None /\ squawk_alert r = None /\ emergency r = None
       /\ spi r = None /\ on_ground r = None.
Proof.
  split; [vm_compute; discriminate|].
  destruct (non_msg_line_reads_header_only
              "ID,,1,2,4CA2D6,3,2015/05/01,17:06:55.370,2015/05/01,17:06:55.326,ryr1427,37000,x,y,maybe,,,,,,,2")
    as [Hrun [Hnone _]]; [vm_compute; discriminate|].
  eexists. split; [vm_compute; reflexivity|].
  split; [reflexivity|].
  apply Hnone. vm_compute. reflexivity.
Defined.

(** *** C8 *)

Lemma tail_untouched {B : Type} (f : Message -> B) (parts : list string)
    (self : Message) :
  untouched f set_altitude ->
  untouched f set_ground_speed -> untouched f set_track ->
  untouched f set_latitude -> untouched f set_longitude ->
  untouched f set_vertical_rate -> untouched f set_squawk ->
  untouched f set_squawk_alert -> untouched f set_emergency ->
  untouched f set_spi -> untouched f set_on_ground ->
  f (commit_all (tail_statements parts self) self) = f self.
Proof.
  intros. apply commit_all_untouched.
  unfold tail_statements, transmission_statements, full_form_statements.
  destruct (is_msg self); [destruct (takes_shortcut parts self)|];
    repeat constructor; assumption.
Qed.

(** An attribute of the header in the message that [from_string] returns is
    the one that the header left. *)
Ltac decoded_header f :=
  unfold decoded; cbv zeta; rewrite (tail_untouched f) by untouched.

Lemma returns_in (stmts : list statement) (s : statement) :
  Forall returns stmts -> In s stmts -> exists o, outcome s = Ok o.
Proof. intros H Hin. rewrite Forall_forall in H. exact (H s Hin). Qed.

Lemma guarded_returns {A : Type} (parts : list string) (i : Z) guard
    (conv : string -> result A) o :
  0 <= i ->
  guarded (getitem parts i) guard conv = Ok o ->
  exists p, nth_error parts (Z.to_nat i) = Some p
            /\ guarded (Ok p) guard conv = Ok o.
Proof.
  intros Hi H. destruct (getitem parts i) as [p|e] eqn:Hp; [|discriminate].
  exists p. split; [apply getitem_ok; assumption | exact H].
Qed.

(** C8: in the message that [from_string] returns, field 2 gives the session
    identifier, field 3 the aircraft identifier and field 5 the flight
    identifier unless the field is empty or is the sentinel ["111"],
    ["11111"] or ["111111"], which leave the attribute absent; field 4 gives
    the hexident whenever it is not empty, with no sentinel: ["111111"] is
    stored like any other text. Integers are parsed, texts upper-cased. *)
Theorem sentinel_fields_are_absent (string : string) (r : Message) :
  from_string string = Ok r ->
  exists p2 p3 p4 p5,
    nth_error (fields string) 2 = Some p2
    /\ nth_error (fields string) 3 = Some p3
    /\ nth_error (fields string) 4 = Some p4
    /\ nth_error (fields string) 5 = Some p5
    /\ (p2 = "" \/ p2 = "111" -> session_id r = None)
    /\ (p2 <> "" -> p2 <> "111" ->
        exists n, int_literal p2 = Some n /\ session_id r = Some n)
    /\ (p3 = "" \/ p3 = "11111" -> aircraft_id r = None)
    /\ (p3 <> "" -> p3 <> "11111" ->
        exists n, int_literal p3 = Some n /\ aircraft_id r = Some n)
    /\ (p4 = "" -> hexident r = None)
    /\ (p4 <> "" -> hexident r = Some (upper p4))
    /\ (p5 = "" \/ p5 = "111111" -> flight_id r = None)
    /\ (p5 <> "" -> p5 <> "111111" -> flight_id r = Some (upper p5)).
Proof.
  intros H. apply from_string_ok in H. destruct H as [-> [Hh _]].
  set (parts := fields string) in *.
  destruct (returns_in _ (Stmt _ (session_id_outcome parts) set_session_id) Hh)
    as [o2 H2]; [simpl; tauto|].
  destruct (returns_in _ (Stmt _ (aircraft_id_outcome parts) set_aircraft_id) Hh)
    as [o3 H3]; [simpl; tauto|].
  destruct (returns_in _ (Stmt _ (hexident_outcome parts) set_hexident) Hh)
    as [o4 H4]; [simpl; tauto|].
  destruct (returns_in _ (Stmt _ (flight_id_outcome parts) set_flight_id) Hh)
    as [o5 H5]; [simpl; tauto|].
  cbn [outcome] in H2, H3, H4, H5.
  assert (S2 : session_id (decoded parts)
               = match session_id_outcome parts with Ok (Some v) => v | _ => None end)
    by (decoded_header session_id; apply header_session_id).
  assert (S3 : aircraft_id (decoded parts)
               = match aircraft_id_outcome parts with Ok (Some v) => v | _ => None end)
    by (decoded_header aircraft_id; apply header_aircraft_id).
  assert (S4 : hexident (decoded parts)
               = match hexident_outcome parts with Ok (Some v) => v | _ => None end)
    by (decoded_header hexident; apply header_hexident).
  assert (S5 : flight_id (decoded parts)
               = match flight_id_outcome parts with Ok (Some v) => v | _ => None end)
    by (decoded_header flight_id; apply header_flight_id).
  rewrite S2, S3, S4, S5, H2, H3, H4, H5. clear S2 S3 S4 S5.
  apply guarded_returns in H2; [|lia]. destruct H2 as [p2 [N2 H2]].
  apply guarded_returns in H3; [|lia]. destruct H3 as [p3 [N3 H3]].
  apply guarded_returns in H4; [|lia]. destruct H4 as [p4 [N4 H4]].
  apply guarded_returns in H5; [|lia]. destruct H5 as [p5 [N5 H5]].
  exists p2, p3, p4, p5.
  do 4 (split; [assumption|]).
  unfold guarded, not_sentinel, int_of, int, upper_of in H2, H3, H4, H5.
  repeat split.
  - intros [-> | ->]; simpl in H2; inversion H2; reflexivity.
  - intros Hne Hns. apply truthy_true in Hne. apply String.eqb_neq in Hns.
    rewrite Hne, Hns in H2. simpl in H2.
    destruct (int_literal p2) as [n|]; simpl in H2; [|discriminate].
    inversion H2. eauto.
  - intros [-> | ->]; simpl in H3; inversion H3; reflexivity.
  - intros Hne Hns. apply truthy_true in Hne. apply String.eqb_neq in Hns.
    rewrite Hne, Hns in H3. simpl in H3.
    destruct (int_literal p3) as [n|]; simpl in H3; [|discriminate].
    inversion H3. eauto.
  - intros ->. simpl in H4. inversion H4. reflexivity.
  - intros Hne. apply truthy_true in Hne. rewrite Hne in H4. inversion H4. reflexivity.
  - intros [-> | ->]; simpl in H5; inversion H5; reflexivity.
  - intros Hne Hns. apply truthy_true in Hne. apply String.eqb_neq in Hns.
    rewrite Hne, Hns in H5. simpl in H5. inversion H5. reflexivity.
Qed.

Lemma sentinel_fields_are_absent_witness :
  exists r,
    from_string "MSG,3,111,11111,111111,111111,2015/05/01,17:06:55.370,2015/05/01,17:06:55.326,,24400,,,50.65931,6.67709,,,,,,0"
      = Ok r
    /\ session_id r = None /\ aircraft_id r = None
    /\ hexident r = Some "111111" /\ flight_id r = None.
Proof.
  eexists. split; [vm_compute; reflexivity|].
  destruct (sentinel_fields_are_absent
              "MSG,3,111,11111,111111,111111,2015/05/01,17:06:55.370,2015/05/01,17:06:55.326,,24400,,,50.65931,6.67709,,,,,,0"
              _ eq_refl)
    as [p2 [p3 [p4 [p5 [N2 [N3 [N4 [N5 [A [_ [B [_ [_ [C [D _]]]]]]]]]]]]]]].
  vm_compute in N2, N3, N4, N5.
  injection N2 as <-. injection N3 as <-. injection N4 as <-. injection N5 as <-.
  split; [apply A; right; reflexivity|].
  split; [apply B; right; reflexivity|].
  split; [apply C; discriminate|].
  apply D. right. reflexivity.
Defined.

(** *** C5 *)

Lemma getitem_within (parts : list string) (i : Z) :
  0 <= i < Z.of_nat (List.length parts) ->
  getitem parts i = Ok (nth (Z.to_nat i) parts "").
Proof.
  intros Hi. apply getitem_nth; [lia|]. apply nth_error_nth'. lia.
Qed.

Lemma takes_shortcut_header (parts : list string) :
  List.length parts = 21%nat ->
  int_literal (nth 1 parts "") = Some 7 ->
  takes_shortcut parts (commit_all (header_statements parts) init) = true.
Proof.
  intros Hlen H7. unfold takes_shortcut.
  rewrite header_transmission_type. unfold transmission_type_outcome, guarded.
  rewrite (getitem_within parts 1) by lia.
  change (Z.to_nat 1) with 1%nat.
  destruct (truthy (nth 1 parts "")) eqn:Hp.
  - unfold int_of, int. rewrite H7. simpl. rewrite Hlen. reflexivity.
  - apply truthy_false in Hp. rewrite Hp in H7. discriminate.
Qed.

Lemma tail_statements_shortcut (parts : list string) :
  List.length parts = 21%nat ->
  upper (nth 0 parts "") = "MSG" ->
  int_literal (nth 1 parts "") = Some 7 ->
  tail_statements parts (commit_all (header_statements parts) init)
  = [ Stmt _ (altitude_outcome parts) set_altitude;
      Stmt _ (on_ground_last_outcome parts) set_on_ground ].
Proof.
  intros Hlen Hmsg H7. unfold tail_statements, transmission_statements.
  rewrite (is_msg_header_init parts (nth 0 parts ""))
    by (apply nth_error_nth'; lia).
  rewrite Hmsg. simpl String.eqb. cbv iota.
  rewrite (takes_shortcut_header parts Hlen H7). reflexivity.
Qed.

(** C5: on a line of 21 fields whose message type is ["MSG"] and whose
    transmission type is 7, [parse_string] is the header followed by the
    statement of the altitude and the one that reads the last field: the
    altitude comes from field 11 and the ground flag from field 20, each when
    the field is not empty, the nine attributes of fields 12 to 20 stay
    absent, and no other field after the header is read. *)
Theorem subtype_7_line_of_21_fields (string : string) :
  List.length (fields string) = 21%nat ->
  upper (nth 0 (fields string) "") = "MSG" ->
  int_literal (nth 1 (fields string) "") = Some 7 ->
  parse_string string init
  = (parse_header (fields string) ;; parse_altitude (fields string) ;;
     parse_on_ground_last (fields string)) init
  /\ forall r, from_string string = Ok r ->
       altitude r = (if truthy (nth 11 (fields string) "")
                     then int_literal (nth 11 (fields string) "") else None)
       /\ on_ground r = (if truthy (nth 20 (fields string) "")
                         then _parse_bool (nth 20 (fields string) "") else None)
       /\ ground_speed r = None /\ track r = None /\ latitude r = None
       /\ longitude r = None /\ vertical_rate r = None /\ squawk r = None
       /\ squawk_alert r = None /\ emergency r = None /\ spi r = None.
Proof.
  intros Hlen Hmsg H7. set (parts := fields string) in *.
  pose proof (tail_statements_shortcut parts Hlen Hmsg H7) as Htail.
  split.
  - rewrite parse_string_run. fold parts. unfold bind. rewrite parse_header_run.
    destruct (run (header_statements parts) init) as [m1 [u|e]] eqn:Hh; [|reflexivity].
    apply run_ok in Hh. destruct Hh as [_ ->]. rewrite Htail.
    cbn [run outcome setter attr_type].
    rewrite parse_altitude_perform.
    destruct (perform (altitude_outcome parts) set_altitude _) as [m2 [u2|e]];
      [|reflexivity].
    rewrite parse_on_ground_last_perform. apply unit_result.
  - intros r H. apply from_string_ok in H. fold parts in H.
    destruct H as [-> [_ Ht]]. rewrite Htail in Ht.
    destruct (returns_in _ (Stmt _ (altitude_outcome parts) set_altitude) Ht)
      as [oa Ha]; [simpl; tauto|].
    cbn [outcome] in Ha.
    unfold decoded. cbv zeta. rewrite Htail.
    unfold commit_all. cbn [fold_left outcome setter attr_type].
    fold (commit_all (header_statements parts) init).
    repeat split;
      match goal with
      | |- ?f _ = _ => project f; try (apply (header_untouched f); untouched)
      end.
    + rewrite (header_untouched altitude) by untouched.
      unfold altitude_outcome, guarded in *.
      rewrite (getitem_within parts 11) in * by lia.
      change (Z.to_nat 11) with 11%nat in *.
      destruct (truthy (nth 11 parts "")); [|reflexivity].
      unfold int_of, int in *.
      destruct (int_literal (nth 11 parts "")); [reflexivity | discriminate].
    + rewrite (header_untouched on_ground) by untouched.
      unfold on_ground_last_outcome, guarded, bool_of.
      rewrite getitem_last by (intros E; rewrite E in Hlen; discriminate).
      rewrite Hlen. unfold item.
      rewrite (nth_error_nth' parts "") by lia.
      change (21 - 1)%nat with 20%nat.
      destruct (truthy (nth 20 parts "")); reflexivity.
Qed.

Lemma subtype_7_line_of_21_fields_witness :
  List.length (fields "MSG,7,111,11111,3C49CC,111111,2015/05/01,17:06:55.370,2015/05/01,17:06:55.326,,24400,,,,,,,,,1")
    = 21%nat
  /\ exists r,
       from_string "MSG,7,111,11111,3C49CC,111111,2015/05/01,17:06:55.370,2015/05/01,17:06:55.326,,24400,,,,,,,,,1"
         = Ok r
       /\ altitude r = Some 24400 /\ on_ground r = Some true
       /\ ground_speed r = None /\ track r = None /\ latitude r = None
       /\ longitude r = None /\ vertical_rate r = None /\ squawk r = None
       /\ squawk_alert r = None /\ emergency r = None /\ spi r = None.
Proof.
  split; [reflexivity|].
  destruct (subtype_7_line_of_21_fields
              "MSG,7,111,11111,3C49CC,111111,2015/05/01,17:06:55.370,2015/05/01,17:06:55.326,,24400,,,,,,,,,1")
    as [_ Hr]; [reflexivity | reflexivity | reflexivity |].
  eexists. split; [vm_compute; reflexivity|].
  apply Hr. vm_compute. reflexivity.
Defined.

(** *** C3 *)

Lemma takes_shortcut_not_7 (parts : list string) :
  Forall returns (header_statements parts) ->
  ~ (List.length parts = 21%nat /\ int_literal (nth 1 parts "") = Some 7) ->
  takes_shortcut parts (commit_all (header_statements parts) init) = false.
Proof.
  intros Hh Hno. unfold takes_shortcut.
  destruct (Z.of_nat (List.length parts) =? 21) eqn:Hlen;
    [|apply andb_false_r].
  apply Z.eqb_eq in Hlen. rewrite andb_true_r.
  rewrite header_transmission_type.
  destruct (returns_in _ (Stmt _ (transmission_type_outcome parts) set_transmission_type) Hh)
    as [o Ho]; [simpl; tauto|].
  cbn [outcome] in Ho. rewrite Ho.
  unfold transmission_type_outcome, guarded in Ho.
  rewrite (getitem_within parts 1) in Ho by lia.
  change (Z.to_nat 1) with 1%nat in Ho.
  destruct (truthy (nth 1 parts "")); [|inversion Ho; reflexivity].
  unfold int_of, int in Ho.
  destruct (int_literal (nth 1 parts "")) as [n|] eqn:Hn; [|discriminate].
  inversion Ho. simpl.
  destruct (n =? 7) eqn:H7; [|reflexivity].
  apply Z.eqb_eq in H7. subst n. exfalso. apply Hno. split; [lia | reflexivity].
Qed.

(** C3, as the code has it: a line whose message type is ["MSG"], that has
    fewer than 22 fields and that does not take the workaround for sub-type 7
    is never decoded: [from_string] raises, at the latest on the index of the
    first field that the line does not have. *)
Theorem short_msg_line_raises (string : string) :
  upper (nth 0 (fields string) "") = "MSG" ->
  (List.length (fields string) < 22)%nat ->
  ~ (List.length (fields string) = 21%nat
     /\ int_literal (nth 1 (fields string) "") = Some 7) ->
  exists e, from_string string = Raise e.
Proof.
  intros Hmsg Hlen Hno. set (parts := fields string) in *.
  destruct (all_return_or_one_raises (header_statements parts)) as [Hh|Hh];
    [|apply from_string_header_raises; exact Hh].
  apply from_string_tail_raises. fold parts.
  unfold tail_statements, transmission_statements.
  assert (H0 : nth_error parts 0 = Some (nth 0 parts "")).
  { apply nth_error_nth'. pose proof (fields_not_nil string) as Hne. fold parts in Hne.
    destruct parts; simpl; [congruence | lia]. }
  rewrite (is_msg_header_init parts _ H0), Hmsg. simpl String.eqb. cbv iota.
  rewrite (takes_shortcut_not_7 parts Hh Hno).
  apply Exists_exists.
  exists (Stmt _ (on_ground_outcome parts) set_on_ground).
  split; [simpl; tauto|].
  exists IndexError. cbn [outcome]. unfold on_ground_outcome, guarded.
  rewrite getitem_short by lia. reflexivity.
Qed.

Lemma short_msg_line_raises_witness :
  upper (nth 0 (fields "MSG,3,111,11111,3C49CC,111111,2015/05/01,17:06:55.370,2015/05/01,17:06:55.326,,24400") "")
    = "MSG"
  /\ (List.length (fields "MSG,3,111,11111,3C49CC,111111,2015/05/01,17:06:55.370,2015/05/01,17:06:55.326,,24400")
      < 22)%nat
  /\ exists e,
       from_string "MSG,3,111,11111,3C49CC,111111,2015/05/01,17:06:55.370,2015/05/01,17:06:55.326,,24400"
       = Raise e.
Proof.
  split; [reflexivity|]. split; [vm_compute; lia|].
  apply short_msg_line_raises; [reflexivity | vm_compute; lia |].
  intros [H _]. vm_compute in H. discriminate.
Defined.

(** C3 fails as stated: this line of 12 fields has the message type ["MSG"]
    and the transmission type 3, and [from_string] raises [IndexError] on
    [parts[12]] instead of returning a message without the missing fields. *)
Lemma short_msg_line_counterexample :
  upper (nth 0 (fields "MSG,3,111,11111,3C49CC,111111,2015/05/01,17:06:55.370,2015/05/01,17:06:55.326,,24400") "")
    = "MSG"
  /\ List.length (fields "MSG,3,111,11111,3C49CC,111111,2015/05/01,17:06:55.370,2015/05/01,17:06:55.326,,24400")
     = 12%nat
  /\ from_string "MSG,3,111,11111,3C49CC,111111,2015/05/01,17:06:55.370,2015/05/01,17:06:55.326,,24400"
     = Raise IndexError
  /\ ~ exists r,
         from_string "MSG,3,111,11111,3C49CC,111111,2015/05/01,17:06:55.370,2015/05/01,17:06:55.326,,24400"
         = Ok r.
Proof.
  split; [reflexivity|]. split; [reflexivity|].
  split; [vm_compute; reflexivity|].
  intros [r H]. vm_compute in H. discriminate.
Qed.

(** *** C1 *)

Lemma parse_datetime_without_time (datestr : string) :
  exists e, _parse_datetime datestr "" = Raise e.
Proof.
  unfold _parse_datetime. destruct (strptime_date datestr); simpl; eauto.
Qed.

(** C1, with the case in which the code departs from it. When fields 6 and
    7 are not both non-empty, the statement of the generation time returns
    and assigns nothing, and so does the statement of the record time when
    field 8 is empty. When field 8 is not empty and field 9 is empty, the
    test of line 181, which reads field 8 twice, lets [_parse_datetime] be
    called with an empty time, and [from_string] raises instead of leaving
    the record time absent. *)
Theorem partial_timestamp_pairs (string p6 p7 p8 p9 : string) :
  nth_error (fields string) 6 = Some p6 ->
  nth_error (fields string) 7 = Some p7 ->
  nth_error (fields string) 8 = Some p8 ->
  nth_error (fields string) 9 = Some p9 ->
  (p6 = "" \/ p7 = "" ->
   forall self, parse_generation_time (fields string) self = (self, Ok tt))
  /\ (p8 = "" ->
      forall self, parse_record_time (fields string) self = (self, Ok tt))
  /\ (p8 <> "" -> p9 = "" -> exists e, from_string string = Raise e).
Proof.
  intros H6 H7 H8 H9. split; [|split].
  - intros Hempty self. rewrite parse_generation_time_perform.
    unfold generation_time_outcome, guarded.
    rewrite (getitem_nth _ 6 p6 ltac:(lia) H6), (getitem_nth _ 7 p7 ltac:(lia) H7).
    destruct Hempty as [-> | ->]; simpl; [reflexivity|].
    destruct (truthy p6); reflexivity.
  - intros -> self. rewrite parse_record_time_perform.
    unfold record_time_outcome. rewrite (getitem_nth _ 8 "" ltac:(lia) H8).
    reflexivity.
  - intros Hne ->. apply from_string_header_raises.
    apply Exists_exists.
    exists (Stmt _ (record_time_outcome (fields string)) set_record_time).
    split; [simpl; tauto|].
    unfold raises. cbn [outcome]. unfold record_time_outcome, guarded.
    rewrite (getitem_nth _ 8 p8 ltac:(lia) H8), (getitem_nth _ 9 "" ltac:(lia) H9).
    apply truthy_true in Hne. rewrite Hne.
    destruct (parse_datetime_without_time p8) as [e ->]. simpl. eauto.
Qed.

Lemma partial_timestamp_pairs_witness :
  nth_error (fields "MSG,3,111,11111,3C49CC,111111,2015/05/01,,2015/05/01,,,24400,,,50.65931,6.67709,,,,,,0") 8
    = Some "2015/05/01"
  /\ nth_error (fields "MSG,3,111,11111,3C49CC,111111,2015/05/01,,2015/05/01,,,24400,,,50.65931,6.67709,,,,,,0") 9
     = Some ""
  /\ (forall self,
        parse_generation_time
          (fields "MSG,3,111,11111,3C49CC,111111,2015/05/01,,2015/05/01,,,24400,,,50.65931,6.67709,,,,,,0")
          self
        = (self, Ok tt))
  /\ from_string "MSG,3,111,11111,3C49CC,111111,2015/05/01,,2015/05/01,,,24400,,,50.65931,6.67709,,,,,,0"
     = Raise ValueError.
Proof.
  split; [reflexivity|]. split; [reflexivity|].
  destruct (partial_timestamp_pairs
              "MSG,3,111,11111,3C49CC,111111,2015/05/01,,2015/05/01,,,24400,,,50.65931,6.67709,,,,,,0"
              "2015/05/01" "" "2015/05/01" "" eq_refl eq_refl eq_refl eq_refl)
    as [Hg [_ Hr]].
  split; [apply Hg; right; reflexivity|].
  destruct (Hr ltac:(discriminate) eq_refl) as [e He].
  rewrite He. vm_compute in He. symmetry. exact He.
Defined.

(** *** C2 *)

Lemma existsb_eqb_In (s : string) (l : list string) :
  existsb (String.eqb s) l = true <-> In s l.
Proof.
  rewrite existsb_exists. split.
  - intros [x [Hin Heq]]. apply String.eqb_eq in Heq. subst. exact Hin.
  - intros Hin. exists s. split; [exact Hin | apply String.eqb_refl].
Qed.

Lemma boolean_statement (parts : list string) (i : Z) (p : string)
    (set : option bool -> Message -> Message) (self : Message) :
  0 <= i ->
  nth_error parts (Z.to_nat i) = Some p ->
  perform (guarded (getitem parts i) truthy bool_of) set self
  = (if truthy p then set (_parse_bool p) self else self, Ok tt).
Proof.
  intros Hi H. rewrite (getitem_nth parts i p Hi H). unfold guarded, bool_of.
  destruct (truthy p); reflexivity.
Qed.

(** C2, as the code has it. [_parse_bool] maps the texts ["true"], ["y"],
    ["yes"], ["on"] and ["1"], in any case, to [True], and ["false"], ["n"],
    ["no"], ["off"] and ["0"] to [False]; for any other text it returns
    [None]. The statement of each boolean field never raises when the field
    exists: it assigns what [_parse_bool] returns when the field is not
    empty, so a text outside the vocabulary leaves the attribute [None] and
    the decoding goes on. *)
Theorem boolean_fields (s : string) :
  (In (lower s) ["true"; "y"; "yes"; "on"; "1"] -> _parse_bool s = Some true)
  /\ (In (lower s) ["false"; "n"; "no"; "off"; "0"] -> _parse_bool s = Some false)
  /\ (~ In (lower s) ["true"; "y"; "yes"; "on"; "1"; "false"; "n"; "no"; "off"; "0"] ->
      _parse_bool s = None)
  /\ (forall parts self,
        nth_error parts 18 = Some s ->
        parse_squawk_alert parts self
        = (if truthy s then set_squawk_alert (_parse_bool s) self else self, Ok tt))
  /\ (forall parts self,
        nth_error parts 19 = Some s ->
        parse_emergency parts self
        = (if truthy s then set_emergency (_parse_bool s) self else self, Ok tt))
  /\ (forall parts self,
        nth_error parts 20 = Some s ->
        parse_spi parts self
        = (if truthy s then set_spi (_parse_bool s) self else self, Ok tt))
  /\ (forall parts self,
        nth_error parts 21 = Some s ->
        parse_on_ground parts self
        = (if truthy s then set_on_ground (_parse_bool s) self else self, Ok tt)).
Proof.
  repeat split.
  - intros H. unfold _parse_bool. apply existsb_eqb_In in H. rewrite H. reflexivity.
  - intros H. unfold _parse_bool.
    destruct (existsb (String.eqb (lower s)) ["true"; "y"; "yes"; "on"; "1"]) eqn:Ht.
    + apply existsb_eqb_In in Ht. exfalso.
      simpl in H, Ht.
      repeat match goal with
             | H : _ \/ _ |- _ => destruct H
             | H : False |- _ => destruct H
             end; congruence.
    + apply existsb_eqb_In in H. rewrite H. reflexivity.
  - intros H. unfold _parse_bool.
    destruct (existsb (String.eqb (lower s)) ["true"; "y"; "yes"; "on"; "1"]) eqn:Ht.
    + apply existsb_eqb_In in Ht. exfalso. apply H. simpl in *. tauto.
    + destruct (existsb (String.eqb (lower s)) ["false"; "n"; "no"; "off"; "0"]) eqn:Hf;
        [|reflexivity].
      apply existsb_eqb_In in Hf. exfalso. apply H. simpl in *. tauto.
  - intros parts self H. rewrite parse_squawk_alert_perform.
    apply (boolean_statement parts 18); [lia | exact H].
  - intros parts self H. rewrite parse_emergency_perform.
    apply (boolean_statement parts 19); [lia | exact H].
  - intros parts self H. rewrite parse_spi_perform.
    apply (boolean_statement parts 20); [lia | exact H].
  - intros parts self H. rewrite parse_on_ground_perform.
    apply (boolean_statement parts 21); [lia | exact H].
Qed.

Lemma boolean_fields_witness :
  _parse_bool "Yes" = Some true
  /\ _parse_bool "OFF" = Some false
  /\ _parse_bool "maybe" = None
  /\ (forall self,
        parse_on_ground
          (fields "MSG,3,111,11111,3C49CC,111111,2015/05/01,17:06:55.370,2015/05/01,17:06:55.326,,24400,,,50.65931,6.67709,,,,,,maybe")
          self
        = (set_on_ground None self, Ok tt)).
Proof.
  split; [apply (boolean_fields "Yes"); simpl; tauto|].
  split; [apply (boolean_fields "OFF"); simpl; tauto|].
  split.
  - apply (boolean_fields "maybe"). simpl. intros H.
    repeat match goal with
           | H : _ \/ _ |- _ => destruct H
           | H : False |- _ => destruct H
           end; discriminate.
  - intros self. apply (boolean_fields "maybe"). reflexivity.
Defined.

(** C2 fails as stated: the ground flag of this line is ["maybe"], and
    [from_string] returns a message, one in which the flag is absent. *)
Lemma boolean_fields_counterexample :
  exists r,
    from_string "MSG,3,111,11111,3C49CC,111111,2015/05/01,17:06:55.370,2015/05/01,17:06:55.326,,24400,,,50.65931,6.67709,,,,,,maybe"
    = Ok r
    /\ on_ground r = None
    /\ altitude r = Some 24400.
Proof. eexists. split; [vm_compute; reflexivity|]. split; reflexivity. Qed.

(** *** C9 *)

Lemma append_assoc (a b c : string) : (a ++ b) ++ c = a ++ (b ++ c).
Proof. induction a as [|x a IH]; simpl; [reflexivity | rewrite IH; reflexivity]. Qed.

Lemma holds_from_spec (n : nat) (k : Z) (p : Z -> bool) :
  holds_from n k p = true -> forall j, k <= j < k + Z.of_nat n -> p j = true.
Proof.
  revert k. induction n as [|n IH]; intros k H j Hj; [lia|].
  simpl in H. apply andb_true_iff in H. destruct H as [Hk Hrest].
  destruct (Z.eq_dec j k) as [->|Hne]; [exact Hk|].
  apply (IH (k + 1) Hrest). lia.
Qed.

(** Five digits, padded with zeros, for every number below [100000]:
    checked on each of them. *)
Lemma zfill_5_digits (k : Z) :
  0 <= k < 100000 ->
  String.length (zfill 5 (str_int k)) = 5%nat
  /\ all_digits (zfill 5 (str_int k)) = true.
Proof.
  intros Hk.
  assert (H : holds_from (Z.to_nat 100000) 0
                (fun k => (String.length (zfill 5 (str_int k)) =? 5)%nat
                          && all_digits (zfill 5 (str_int k))) = true)
    by (vm_compute; reflexivity).
  assert (Hin : 0 <= k < 0 + Z.of_nat (Z.to_nat 100000))
    by (rewrite Z2Nat.id; lia).
  pose proof (holds_from_spec _ _ _ H k Hin) as Hj. cbv beta in Hj.
  apply andb_true_iff in Hj. destruct Hj as [Hlen Hdig].
  apply Nat.eqb_eq in Hlen. split; assumption.
Qed.

Lemma rpartition_no_dot (frac : string) :
  all_digits frac = true -> rpartition "." frac = ("", "", frac).
Proof.
  induction frac as [|c r IH]; simpl; [reflexivity|].
  intros H. apply andb_true_iff in H. destruct H as [Hc Hr].
  rewrite (IH Hr). simpl.
  destruct (Ascii.eqb c ".") eqn:Hdot; [|reflexivity].
  apply Ascii.eqb_eq in Hdot. subst c. discriminate.
Qed.

Lemma rpartition_last_dot (whole frac : string) :
  all_digits frac = true ->
  rpartition "." (whole ++ "." ++ frac) = (whole, ".", frac).
Proof.
  intros H. induction whole as [|c w IH]; simpl.
  - rewrite (rpartition_no_dot frac H). reflexivity.
  - simpl in IH. rewrite IH. reflexivity.
Qed.

Lemma five_decimals_intro (whole frac : string) :
  String.length frac = 5%nat -> all_digits frac = true ->
  five_decimals (whole ++ "." ++ frac) = true.
Proof.
  intros Hlen Hdig. unfold five_decimals.
  rewrite (rpartition_last_dot whole frac Hdig), Hlen, Hdig. reflexivity.
Qed.

Lemma div_half_even_nonneg (num den : Z) :
  0 <= num -> 0 < den -> 0 <= div_half_even num den.
Proof.
  intros Hn Hd. unfold div_half_even.
  assert (0 <= num / den) by (apply Z.div_pos; lia).
  destruct (2 * (num mod den) ?= den); [destruct (Z.even (num / den))| |]; lia.
Qed.

(** A latitude or longitude that is a number is rendered with five digits
    after the decimal point. *)
Lemma format_5f_finite (x : float) :
  is_finite x = true -> five_decimals (format_5f x) = true.
Proof.
  destruct x as [s|s| |s m e]; simpl; try discriminate; intros _.
  - destruct s; reflexivity.
  - destruct (float_fraction m e) as [num den] eqn:Hf.
    set (n := div_half_even (num * 100000) den).
    rewrite <- append_assoc.
    destruct (zfill_5_digits (n mod 100000)) as [Hlen Hdig];
      [apply Z.mod_pos_bound; lia|].
    apply five_decimals_intro; assumption.
Qed.

(** C9, as the code has it. [to_string] joins twenty fields with commas and
    ends the line with one newline; the fields are, in this order, the message
    type, the transmission type, the session, aircraft and hex identifiers,
    the flight identifier, the generation time, the record time, the
    callsign, the altitude, the ground speed, the track, the latitude, the
    longitude, the vertical rate, the squawk, the squawk alert, the
    emergency flag, the SPI flag and the ground flag. A field whose attribute
    is absent is the empty string, so never a sentinel; a flag is ["1"] when
    true and ["0"] when false; a latitude or a longitude that is a number has
    exactly five digits after the decimal point. *)
Theorem to_string_layout (self : Message) :
  to_string self = join "," (to_string_fields self) ++ newline
  /\ List.length (to_string_fields self) = 20%nat
  /\ (message_type self = None -> nth 0 (to_string_fields self) "?" = "")
  /\ (transmission_type self = None -> nth 1 (to_string_fields self) "?" = "")
  /\ (session_id self = None -> nth 2 (to_string_fields self) "?" = "")
  /\ (aircraft_id self = None -> nth 3 (to_string_fields self) "?" = "")
  /\ (hexident self = None -> nth 4 (to_string_fields self) "?" = "")
  /\ (flight_id self = None -> nth 5 (to_string_fields self) "?" = "")
  /\ (generation_time self = None -> nth 6 (to_string_fields self) "?" = "")
  /\ (record_time self = None -> nth 7 (to_string_fields self) "?" = "")
  /\ (callsign self = None -> nth 8 (to_string_fields self) "?" = "")
  /\ (altitude self = None -> nth 9 (to_string_fields self) "?" = "")
  /\ (ground_speed self = None -> nth 10 (to_string_fields self) "?" = "")
  /\ (track self = None -> nth 11 (to_string_fields self) "?" = "")
  /\ (latitude self = None -> nth 12 (to_string_fields self) "?" = "")
  /\ (longitude self = None -> nth 13 (to_string_fields self) "?" = "")
  /\ (vertical_rate self = None -> nth 14 (to_string_fields self) "?" = "")
  /\ (squawk self = None -> nth 15 (to_string_fields self) "?" = "")
  /\ (squawk_alert self = None -> nth 16 (to_string_fields self) "?" = "")
  /\ (emergency self = None -> nth 17 (to_string_fields self) "?" = "")
  /\ (spi self = None -> nth 18 (to_string_fields self) "?" = "")
  /\ (on_ground self = None -> nth 19 (to_string_fields self) "?" = "")
  /\ (forall v, message_type self = Some v -> nth 0 (to_string_fields self) "?" = v)
  /\ (forall v, transmission_type self = Some v -> nth 1 (to_string_fields self) "?" = str_int v)
  /\ (forall v, session_id self = Some v -> nth 2 (to_string_fields self) "?" = str_int v)
  /\ (forall v, aircraft_id self = Some v -> nth 3 (to_string_fields self) "?" = str_int v)
  /\ (forall v, hexident self = Some v -> nth 4 (to_string_fields self) "?" = v)
  /\ (forall v, flight_id self = Some v -> nth 5 (to_string_fields self) "?" = v)
  /\ (forall v, generation_time self = Some v ->
      nth 6 (to_string_fields self) "?" = _dump_datetime v)
  /\ (forall v, record_time self = Some v ->
      nth 7 (to_string_fields self) "?" = _dump_datetime v)
  /\ (forall v, callsign self = Some v -> nth 8 (to_string_fields self) "?" = v)
  /\ (forall v, altitude self = Some v -> nth 9 (to_string_fields self) "?" = str_int v)
  /\ (forall v, ground_speed self = Some v -> nth 10 (to_string_fields self) "?" = str_float v)
  /\ (forall v, track self = Some v -> nth 11 (to_string_fields self) "?" = str_float v)
  /\ (forall v, latitude self = Some v -> is_finite v = true ->
      five_decimals (nth 12 (to_string_fields self) "?") = true)
  /\ (forall v, longitude self = Some v -> is_finite v = true ->
      five_decimals (nth 13 (to_string_fields self) "?") = true)
  /\ (forall v, vertical_rate self = Some v -> nth 14 (to_string_fields self) "?" = str_int v)
  /\ (forall v, squawk self = Some v -> nth 15 (to_string_fields self) "?" = str_int v)
  /\ (squawk_alert self = Some true -> nth 16 (to_string_fields self) "?" = "1")
  /\ (squawk_alert self = Some false -> nth 16 (to_string_fields self) "?" = "0")
  /\ (emergency self = Some true -> nth 17 (to_string_fields self) "?" = "1")
  /\ (emergency self = Some false -> nth 17 (to_string_fields self) "?" = "0")
  /\ (spi self = Some true -> nth 18 (to_string_fields self) "?" = "1")
  /\ (spi self = Some false -> nth 18 (to_string_fields self) "?" = "0")
  /\ (on_ground self = Some true -> nth 19 (to_string_fields self) "?" = "1")
  /\ (on_ground self = Some false -> nth 19 (to_string_fields self) "?" = "0").
Proof.
  destruct self. unfold to_string, to_string_fields. cbn [nth List.length].
  cbn [message_type transmission_type session_id aircraft_id hexident flight_id
       generation_time record_time callsign altitude ground_speed track latitude
       longitude vertical_rate squawk squawk_alert emergency spi on_ground].
  repeat split; try (intros; subst; reflexivity).
  - intros v -> Hfin. apply format_5f_finite, Hfin.
  - intros v -> Hfin. apply format_5f_finite, Hfin.
Qed.

Lemma to_string_layout_witness :
  exists r,
    from_string "MSG,3,111,11111,3C49CC,111111,2015/05/01,17:06:55.370,2015/05/01,17:06:55.326,,24400,,,50.65931,6.67709,,,,,,0"
    = Ok r
    /\ session_id r = None
    /\ nth 2 (to_string_fields r) "?" = ""
    /\ on_ground r = Some false
    /\ nth 19 (to_string_fields r) "?" = "0"
    /\ five_decimals (nth 12 (to_string_fields r) "?") = true
    /\ nth 12 (to_string_fields r) "?" = "50.65931".
Proof.
  eexists. split; [vm_compute; reflexivity|].
  split; [reflexivity|].
  split; [apply to_string_layout; reflexivity|].
  split; [reflexivity|].
  split; [apply to_string_layout; reflexivity|].
  split; [|vm_compute; reflexivity].
  eapply to_string_layout; reflexivity.
Defined.

(** C9 fails as stated: the latitude of this line is the text ["nan"], which
    [float] accepts; the message that [from_string] returns has a latitude
    that is present, and [to_string] renders it as ["nan"], with no decimal
    point and no digit. *)
Lemma to_string_layout_counterexample :
  exists r,
    from_string "MSG,3,111,11111,3C49CC,111111,2015/05/01,17:06:55.370,2015/05/01,17:06:55.326,,24400,,,nan,6.67709,,,,,,0"
    = Ok r
    /\ latitude r = Some S754_nan
    /\ nth 12 (to_string_fields r) "?" = "nan"
    /\ five_decimals (nth 12 (to_string_fields r) "?") = false
    /\ to_string r
       = "MSG,3,,,3C49CC,,2015/05/01,17:06:55.370,2015/05/01,17:06:55.326,,24400,,,nan,6.67709,,,,,,0"
           ++ newline.
Proof.
  eexists. split; [vm_compute; reflexivity|].
  repeat split; vm_compute; reflexivity.
Qed.

(** *** C10 *)

Lemma takes_shortcut_length (parts : list string) (self : Message) :
  takes_shortcut parts self = true -> List.length parts = 21%nat.
Proof.
  unfold takes_shortcut. intros H. apply andb_true_iff in H. destruct H as [_ H].
  apply Z.eqb_eq in H. lia.
Qed.

Lemma tail_respects (R : Message -> Message -> Prop) (parts : list string) :
  respects R (Stmt _ (altitude_outcome parts) set_altitude) ->
  (List.length parts = 21%nat ->
   respects R (Stmt _ (on_ground_last_outcome parts) set_on_ground)) ->
  Forall (respects R) (full_form_statements parts) ->
  forall self, Forall (respects R) (tail_statements parts self).
Proof.
  intros Ha Hl Hf self. unfold tail_statements, transmission_statements.
  destruct (is_msg self); [|constructor].
  destruct (takes_shortcut parts self) eqn:Hs;
    (constructor; [assumption|]); [|assumption].
  constructor; [apply Hl, (takes_shortcut_length parts self Hs) | constructor].
Qed.

(** A relation that every statement of [parse_string] respects holds between
    the state before the call and the state after it, whether the call
    returns or raises. *)
Lemma parse_string_respects (R : Message -> Message -> Prop) (string : string)
    (self : Message) :
  (forall m, R m m) ->
  (forall m1 m2 m3, R m1 m2 -> R m2 m3 -> R m1 m3) ->
  Forall (respects R) (header_statements (fields string)) ->
  respects R (Stmt _ (altitude_outcome (fields string)) set_altitude) ->
  (List.length (fields string) = 21%nat ->
   respects R (Stmt _ (on_ground_last_outcome (fields string)) set_on_ground)) ->
  Forall (respects R) (full_form_statements (fields string)) ->
  R self (fst (parse_string string self)).
Proof.
  intros Hrefl Htrans Hh Ha Hl Hf. rewrite parse_string_run.
  pose proof (run_respects R Hrefl Htrans _ self Hh) as H1.
  destruct (run (header_statements (fields string)) self) as [m1 [u|e]];
    simpl in H1; [|exact H1].
  eapply Htrans; [exact H1|].
  apply (run_respects R Hrefl Htrans).
  apply tail_respects; assumption.
Qed.

Lemma kept_refl {B : Type} (f : Message -> B) (m : Message) : kept f m m.
Proof. reflexivity. Qed.

Lemma kept_trans {B : Type} (f : Message -> B) (m1 m2 m3 : Message) :
  kept f m1 m2 -> kept f m2 m3 -> kept f m1 m3.
Proof. unfold kept. congruence. Qed.

Lemma still_set_refl {B : Type} (f : Message -> option B) (m : Message) :
  still_set f m m.
Proof. unfold still_set. auto. Qed.

Lemma still_set_trans {B : Type} (f : Message -> option B) (m1 m2 m3 : Message) :
  still_set f m1 m2 -> still_set f m2 m3 -> still_set f m1 m3.
Proof. unfold still_set. auto. Qed.

(** A guarded assignment whose field is rejected by the guard, or is beyond
    the end of the line, assigns nothing. *)
Lemma guarded_rejected {A : Type} (parts : list string) (i : nat) guard
    (conv : string -> result A) (v : A) :
  guard (nth i parts "") = false ->
  guarded (getitem parts (Z.of_nat i)) guard conv <> Ok (Some v).
Proof.
  intros Hg. rewrite getitem_item by lia. rewrite Nat2Z.id. unfold item, guarded.
  destruct (nth_error parts i) as [p|] eqn:Hp; [|discriminate].
  rewrite (nth_error_nth _ _ "" Hp) in Hg. rewrite Hg. discriminate.
Qed.

Lemma generation_time_rejected (parts : list string) v :
  blank parts 6 \/ blank parts 7 ->
  generation_time_outcome parts <> Ok (Some v).
Proof.
  unfold blank, generation_time_outcome. intros Hb.
  destruct (getitem parts 6) as [d|e] eqn:Hd; [|discriminate].
  destruct (truthy d) eqn:Ht; [|discriminate].
  destruct Hb as [Hb|Hb].
  - apply (getitem_ok parts 6) in Hd; [|lia].
    change (Z.to_nat 6) with 6%nat in Hd.
    rewrite (nth_error_nth _ _ "" Hd) in Hb. subst d. discriminate.
  - apply (guarded_rejected parts 7). rewrite Hb. reflexivity.
Qed.

Lemma record_time_rejected (parts : list string) v :
  blank parts 8 \/ blank parts 9 ->
  record_time_outcome parts <> Ok (Some v).
Proof.
  unfold blank, record_time_outcome. intros Hb.
  destruct (getitem parts 8) as [d|e] eqn:Hd; [|discriminate].
  destruct (truthy d) eqn:Ht; [|discriminate].
  destruct Hb as [Hb|Hb].
  - apply (getitem_ok parts 8) in Hd; [|lia].
    change (Z.to_nat 8) with 8%nat in Hd.
    rewrite (nth_error_nth _ _ "" Hd) in Hb. subst d. discriminate.
  - unfold guarded. destruct (getitem parts 9) as [t|e] eqn:H9; [|discriminate].
    apply (getitem_ok parts 9) in H9; [|lia].
    change (Z.to_nat 9) with 9%nat in H9.
    rewrite (nth_error_nth _ _ "" H9) in Hb. subst t.
    destruct (parse_datetime_without_time d) as [e ->]. discriminate.
Qed.

Lemma callsign_rejected (parts : list string) v :
  blank parts 10 -> callsign_outcome parts <> Ok (Some v).
Proof.
  unfold blank, callsign_outcome. intros Hb.
  destruct (10 <? Z.of_nat (List.length parts)); [|discriminate].
  apply (guarded_rejected parts 10). rewrite Hb. reflexivity.
Qed.

Lemma on_ground_last_rejected (parts : list string) v :
  List.length parts = 21%nat -> blank parts 20 ->
  on_ground_last_outcome parts <> Ok (Some v).
Proof.
  unfold blank, on_ground_last_outcome. intros Hlen Hb.
  rewrite getitem_last by (intros E; rewrite E in Hlen; discriminate).
  rewrite Hlen. change (21 - 1)%nat with 20%nat.
  unfold item, guarded.
  destruct (nth_error parts 20) as [p|] eqn:Hp; [|discriminate].
  rewrite (nth_error_nth _ _ "" Hp) in Hb. subst p. discriminate.
Qed.

(** The value that a conversion to a number, a text or a time assigns is
    never [None]. *)
Lemma guarded_some_of {A : Type} (tok : result string) guard
    (conv : string -> result A) (v : option A) :
  guarded tok guard (fun p => some_of (conv p)) = Ok (Some v) -> v <> None.
Proof.
  unfold guarded, some_of. destruct tok as [p|e]; [|discriminate].
  destruct (guard p); [|discriminate].
  destruct (conv p); [|discriminate].
  intros [= <-]. discriminate.
Qed.

Lemma guarded_upper_of (tok : result string) guard (v : option string) :
  guarded tok guard upper_of = Ok (Some v) -> v <> None.
Proof.
  unfold guarded, upper_of. destruct tok as [p|e]; [|discriminate].
  destruct (guard p); [|discriminate].
  intros [= <-]. discriminate.
Qed.

Lemma assigned_from_refl (parts : list string) f (m : Message) :
  assigned_from parts f m m.
Proof. left. reflexivity. Qed.

Lemma assigned_from_trans (parts : list string) f (m1 m2 m3 : Message) :
  assigned_from parts f m1 m2 -> assigned_from parts f m2 m3 ->
  assigned_from parts f m1 m3.
Proof.
  unfold assigned_from. intros H12 [H23|H23]; [|right; exact H23].
  rewrite H23. exact H12.
Qed.

Lemma getitem_In (parts : list string) (i : Z) (p : string) :
  getitem parts i = Ok p -> In p parts.
Proof.
  unfold getitem.
  destruct ((0 <=? _) && _); [|discriminate].
  destruct (nth_error parts _) as [q|] eqn:Hq; [|discriminate].
  intros [= <-]. eapply nth_error_In, Hq.
Qed.

Lemma guarded_bool_of (parts : list string) (i : Z) (v : option bool) :
  guarded (getitem parts i) truthy bool_of = Ok (Some v) ->
  exists p, In p parts /\ p <> "" /\ v = _parse_bool p.
Proof.
  unfold guarded, bool_of. destruct (getitem parts i) as [p|e] eqn:Hp; [|discriminate].
  destruct (truthy p) eqn:Ht; [|discriminate].
  intros [= <-]. exists p. split; [eapply getitem_In, Hp|].
  split; [apply truthy_true, Ht | reflexivity].
Qed.

(** The statements of [parse_string], other than the one of the attribute at
    hand, leave the attribute as it is; [own] deals with that one. *)
Ltac each_statement own :=
  unfold header_statements, full_form_statements;
  repeat first [apply Forall_nil | apply Forall_cons];
  unfold respects, kept, still_set, assigned_from; cbn [outcome setter attr_type];
  first [ solve [intros ? [] ?; reflexivity]
        | solve [intros ? [] ? ?; assumption]
        | solve [intros ? [] ?; left; reflexivity]
        | own ].

Ltac all_statements string R own :=
  apply (parse_string_respects R string);
  [ first [apply kept_refl | apply still_set_refl | apply assigned_from_refl]
  | first [apply kept_trans | apply still_set_trans | apply assigned_from_trans]
  | each_statement own
  | each_statement own
  | intros Hlen21; each_statement own
  | each_statement own ].

Section Kept.

Variable string : string.
Variable self : Message.

Lemma message_type_kept :
  blank (fields string) 0 ->
  message_type (fst (parse_string string self)) = message_type self.
Proof.
  intros Hb. unfold blank in Hb.
  all_statements string (kept message_type)
    ltac:(intros ? ? Ho; exfalso; revert Ho;
       apply (guarded_rejected (fields string) 0);
       rewrite Hb; reflexivity).
Qed.

Lemma transmission_type_kept :
  blank (fields string) 1 ->
  transmission_type (fst (parse_string string self)) = transmission_type self.
Proof.
  intros Hb. unfold blank in Hb.
  all_statements string (kept transmission_type)
    ltac:(intros ? ? Ho; exfalso; revert Ho;
       apply (guarded_rejected (fields string) 1);
       rewrite Hb; reflexivity).
Qed.

Lemma session_id_kept :
  blank (fields string) 2 \/ nth 2 (fields string) "" = "111" ->
  session_id (fst (parse_string string self)) = session_id self.
Proof.
  intros Hb. unfold blank in Hb.
  all_statements string (kept session_id)
    ltac:(intros ? ? Ho; exfalso; revert Ho;
       apply (guarded_rejected (fields string) 2);
       destruct Hb as [Hb|Hb]; rewrite Hb; reflexivity).
Qed.

Lemma aircraft_id_kept :
  blank (fields string) 3 \/ nth 3 (fields string) "" = "11111" ->
  aircraft_id (fst (parse_string string self)) = aircraft_id self.
Proof.
  intros Hb. unfold blank in Hb.
  all_statements string (kept aircraft_id)
    ltac:(intros ? ? Ho; exfalso; revert Ho;
       apply (guarded_rejected (fields string) 3);
       destruct Hb as [Hb|Hb]; rewrite Hb; reflexivity).
Qed.

Lemma hexident_kept :
  blank (fields string) 4 ->
  hexident (fst (parse_string string self)) = hexident self.
Proof.
  intros Hb. unfold blank in Hb.
  all_statements string (kept hexident)
    ltac:(intros ? ? Ho; exfalso; revert Ho;
       apply (guarded_rejected (fields string) 4);
       rewrite Hb; reflexivity).
Qed.

Lemma flight_id_kept :
  blank (fields string) 5 \/ nth 5 (fields string) "" = "111111" ->
  flight_id (fst (parse_string string self)) = flight_id self.
Proof.
  intros Hb. unfold blank in Hb.
  all_statements string (kept flight_id)
    ltac:(intros ? ? Ho; exfalso; revert Ho;
       apply (guarded_rejected (fields string) 5);
       destruct Hb as [Hb|Hb]; rewrite Hb; reflexivity).
Qed.

Lemma generation_time_kept :
  blank (fields string) 6 \/ blank (fields string) 7 ->
  generation_time (fst (parse_string string self)) = generation_time self.
Proof.
  intros Hb. unfold blank in Hb.
  all_statements string (kept generation_time)
    ltac:(intros ? ? Ho; exfalso; revert Ho; apply generation_time_rejected; exact Hb).
Qed.

Lemma record_time_kept :
  blank (fields string) 8 \/ blank (fields string) 9 ->
  record_time (fst (parse_string string self)) = record_time self.
Proof.
  intros Hb. unfold blank in Hb.
  all_statements string (kept record_time)
    ltac:(intros ? ? Ho; exfalso; revert Ho; apply record_time_rejected; exact Hb).
Qed.

Lemma callsign_kept :
  blank (fields string) 10 ->
  callsign (fst (parse_string string self)) = callsign self.
Proof.
  intros Hb. unfold blank in Hb.
  all_statements string (kept callsign)
    ltac:(intros ? ? Ho; exfalso; revert Ho; apply callsign_rejected; exact Hb).
Qed.

Lemma altitude_kept :
  blank (fields string) 11 ->
  altitude (fst (parse_string string self)) = altitude self.
Proof.
  intros Hb. unfold blank in Hb.
  all_statements string (kept altitude)
    ltac:(intros ? ? Ho; exfalso; revert Ho;
       apply (guarded_rejected (fields string) 11);
       rewrite Hb; reflexivity).
Qed.

Lemma ground_speed_kept :
  blank (fields string) 12 ->
  ground_speed (fst (parse_string string self)) = ground_speed self.
Proof.
  intros Hb. unfold blank in Hb.
  all_statements string (kept ground_speed)
    ltac:(intros ? ? Ho; exfalso; revert Ho;
       apply (guarded_rejected (fields string) 12);
       rewrite Hb; reflexivity).
Qed.

Lemma track_kept :
  blank (fields string) 13 ->
  track (fst (parse_string string self)) = track self.
Proof.
  intros Hb. unfold blank in Hb.
  all_statements string (kept track)
    ltac:(intros ? ? Ho; exfalso; revert Ho;
       apply (guarded_rejected (fields string) 13);
       rewrite Hb; reflexivity).
Qed.

Lemma latitude_kept :
  blank (fields string) 14 ->
  latitude (fst (parse_string string self)) = latitude self.
Proof.
  intros Hb. unfold blank in Hb.
  all_statements string (kept latitude)
    ltac:(intros ? ? Ho; exfalso; revert Ho;
       apply (guarded_rejected (fields string) 14);
       rewrite Hb; reflexivity).
Qed.

Lemma longitude_kept :
  blank (fields string) 15 ->
  longitude (fst (parse_string string self)) = longitude self.
Proof.
  intros Hb. unfold blank in Hb.
  all_statements string (kept longitude)
    ltac:(intros ? ? Ho; exfalso; revert Ho;
       apply (guarded_rejected (fields string) 15);
       rewrite Hb; reflexivity).
Qed.

Lemma vertical_rate_kept :
  blank (fields string) 16 ->
  vertical_rate (fst (parse_string string self)) = vertical_rate self.
Proof.
  intros Hb. unfold blank in Hb.
  all_statements string (kept vertical_rate)
    ltac:(intros ? ? Ho; exfalso; revert Ho;
       apply (guarded_rejected (fields string) 16);
       rewrite Hb; reflexivity).
Qed.

Lemma squawk_kept :
  blank (fields string) 17 ->
  squawk (fst (parse_string string self)) = squawk self.
Proof.
  intros Hb. unfold blank in Hb.
  all_statements string (kept squawk)
    ltac:(intros ? ? Ho; exfalso; revert Ho;
       apply (guarded_rejected (fields string) 17);
       rewrite Hb; reflexivity).
Qed.

Lemma squawk_alert_kept :
  blank (fields string) 18 ->
  squawk_alert (fst (parse_string string self)) = squawk_alert self.
Proof.
  intros Hb. unfold blank in Hb.
  all_statements string (kept squawk_alert)
    ltac:(intros ? ? Ho; exfalso; revert Ho;
       apply (guarded_rejected (fields string) 18);
       rewrite Hb; reflexivity).
Qed.

Lemma emergency_kept :
  blank (fields string) 19 ->
  emergency (fst (parse_string string self)) = emergency self.
Proof.
  intros Hb. unfold blank in Hb.
  all_statements string (kept emergency)
    ltac:(intros ? ? Ho; exfalso; revert Ho;
       apply (guarded_rejected (fields string) 19);
       rewrite Hb; reflexivity).
Qed.

Lemma spi_kept :
  blank (fields string) 20 ->
  spi (fst (parse_string string self)) = spi self.
Proof.
  intros Hb. unfold blank in Hb.
  all_statements string (kept spi)
    ltac:(intros ? ? Ho; exfalso; revert Ho;
       apply (guarded_rejected (fields string) 20);
       rewrite Hb; reflexivity).
Qed.

Lemma on_ground_kept :
  blank (fields string) 21 /\ (List.length (fields string) = 21%nat -> blank (fields string) 20) ->
  on_ground (fst (parse_string string self)) = on_ground self.
Proof.
  intros Hb. unfold blank in Hb.
  all_statements string (kept on_ground)
    ltac:(intros ? ? Ho; exfalso; revert Ho;
       first [ apply (guarded_rejected (fields string) 21);
               rewrite (proj1 Hb); reflexivity
             | apply on_ground_last_rejected; [assumption | apply (proj2 Hb); assumption] ]).
Qed.

End Kept.

Section StillSet.

Variable string : string.
Variable self : Message.

Lemma message_type_still_set :
  message_type self <> None -> message_type (fst (parse_string string self)) <> None.
Proof.
  all_statements string (still_set message_type)
    ltac:(intros v [] Ho _; cbn; unfold message_type_outcome in Ho;
       apply (guarded_upper_of _ _ _ Ho)).
Qed.

Lemma transmission_type_still_set :
  transmission_type self <> None -> transmission_type (fst (parse_string string self)) <> None.
Proof.
  all_statements string (still_set transmission_type)
    ltac:(intros v [] Ho _; cbn; unfold transmission_type_outcome, int_of, float_of in Ho;
       apply (guarded_some_of _ _ _ _ Ho)).
Qed.

Lemma session_id_still_set :
  session_id self <> None -> session_id (fst (parse_string string self)) <> None.
Proof.
  all_statements string (still_set session_id)
    ltac:(intros v [] Ho _; cbn; unfold session_id_outcome, int_of, float_of in Ho;
       apply (guarded_some_of _ _ _ _ Ho)).
Qed.

Lemma aircraft_id_still_set :
  aircraft_id self <> None -> aircraft_id (fst (parse_string string self)) <> None.
Proof.
  all_statements string (still_set aircraft_id)
    ltac:(intros v [] Ho _; cbn; unfold aircraft_id_outcome, int_of, float_of in Ho;
       apply (guarded_some_of _ _ _ _ Ho)).
Qed.

Lemma hexident_still_set :
  hexident self <> None -> hexident (fst (parse_string string self)) <> None.
Proof.
  all_statements string (still_set hexident)
    ltac:(intros v [] Ho _; cbn; unfold hexident_outcome in Ho;
       apply (guarded_upper_of _ _ _ Ho)).
Qed.

Lemma flight_id_still_set :
  flight_id self <> None -> flight_id (fst (parse_string string self)) <> None.
Proof.
  all_statements string (still_set flight_id)
    ltac:(intros v [] Ho _; cbn; unfold flight_id_outcome in Ho;
       apply (guarded_upper_of _ _ _ Ho)).
Qed.

Lemma generation_time_still_set :
  generation_time self <> None -> generation_time (fst (parse_string string self)) <> None.
Proof.
  all_statements string (still_set generation_time)
    ltac:(intros v [] Ho _; cbn; unfold generation_time_outcome in Ho;
       destruct (getitem (fields string) 6); [|discriminate];
       destruct (truthy _); [|discriminate];
       apply (guarded_some_of _ _ _ _ Ho)).
Qed.

Lemma record_time_still_set :
  record_time self <> None -> record_time (fst (parse_string string self)) <> None.
Proof.
  all_statements string (still_set record_time)
    ltac:(intros v [] Ho _; cbn; unfold record_time_outcome in Ho;
       destruct (getitem (fields string) 8); [|discriminate];
       destruct (truthy _); [|discriminate];
       apply (guarded_some_of _ _ _ _ Ho)).
Qed.

Lemma callsign_still_set :
  callsign self <> None -> callsign (fst (parse_string string self)) <> None.
Proof.
  all_statements string (still_set callsign)
    ltac:(intros v [] Ho _; cbn; unfold callsign_outcome in Ho;
       destruct (10 <? _); [|discriminate];
       apply (guarded_upper_of _ _ _ Ho)).
Qed.

Lemma altitude_still_set :
  altitude self <> None -> altitude (fst (parse_string string self)) <> None.
Proof.
  all_statements string (still_set altitude)
    ltac:(intros v [] Ho _; cbn; unfold altitude_outcome, int_of, float_of in Ho;
       apply (guarded_some_of _ _ _ _ Ho)).
Qed.

Lemma ground_speed_still_set :
  ground_speed self <> None -> ground_speed (fst (parse_string string self)) <> None.
Proof.
  all_statements string (still_set ground_speed)
    ltac:(intros v [] Ho _; cbn; unfold ground_speed_outcome, int_of, float_of in Ho;
       apply (guarded_some_of _ _ _ _ Ho)).
Qed.

Lemma track_still_set :
  track self <> None -> track (fst (parse_string string self)) <> None.
Proof.
  all_statements string (still_set track)
    ltac:(intros v [] Ho _; cbn; unfold track_outcome, int_of, float_of in Ho;
       apply (guarded_some_of _ _ _ _ Ho)).
Qed.

Lemma latitude_still_set :
  latitude self <> None -> latitude (fst (parse_string string self)) <> None.
Proof.
  all_statements string (still_set latitude)
    ltac:(intros v [] Ho _; cbn; unfold latitude_outcome, int_of, float_of in Ho;
       apply (guarded_some_of _ _ _ _ Ho)).
Qed.

Lemma longitude_still_set :
  longitude self <> None -> longitude (fst (parse_string string self)) <> None.
Proof.
  all_statements string (still_set longitude)
    ltac:(intros v [] Ho _; cbn; unfold longitude_outcome, int_of, float_of in Ho;
       apply (guarded_some_of _ _ _ _ Ho)).
Qed.

Lemma vertical_rate_still_set :
  vertical_rate self <> None -> vertical_rate (fst (parse_string string self)) <> None.
Proof.
  all_statements string (still_set vertical_rate)
    ltac:(intros v [] Ho _; cbn; unfold vertical_rate_outcome, int_of, float_of in Ho;
       apply (guarded_some_of _ _ _ _ Ho)).
Qed.

Lemma squawk_still_set :
  squawk self <> None -> squawk (fst (parse_string string self)) <> None.
Proof.
  all_statements string (still_set squawk)
    ltac:(intros v [] Ho _; cbn; unfold squawk_outcome, int_of, float_of in Ho;
       apply (guarded_some_of _ _ _ _ Ho)).
Qed.

Lemma squawk_alert_assigned_from :
  assigned_from (fields string) squawk_alert self (fst (parse_string string self)).
Proof.
  all_statements string (assigned_from (fields string) squawk_alert)
    ltac:(intros v [] Ho; right; cbn;
       first [ apply (guarded_bool_of _ _ _ Ho) ]).
Qed.

Lemma emergency_assigned_from :
  assigned_from (fields string) emergency self (fst (parse_string string self)).
Proof.
  all_statements string (assigned_from (fields string) emergency)
    ltac:(intros v [] Ho; right; cbn;
       first [ apply (guarded_bool_of _ _ _ Ho) ]).
Qed.

Lemma spi_assigned_from :
  assigned_from (fields string) spi self (fst (parse_string string self)).
Proof.
  all_statements string (assigned_from (fields string) spi)
    ltac:(intros v [] Ho; right; cbn;
       first [ apply (guarded_bool_of _ _ _ Ho) ]).
Qed.

Lemma on_ground_assigned_from :
  assigned_from (fields string) on_ground self (fst (parse_string string self)).
Proof.
  all_statements string (assigned_from (fields string) on_ground)
    ltac:(intros v [] Ho; right; cbn;
       first [ apply (guarded_bool_of _ _ _ Ho) ]).
Qed.

End StillSet.

(** C10, as the code has it. [parse_string] merges the line into [self],
    whether it returns or raises. An attribute keeps the value it had when
    its field is empty, is a sentinel or is beyond the end of the line: for a
    time, when one field of its pair is; for the ground flag, when field 21
    is and, on a line of 21 fields, the last field too. An attribute that is
    not a flag and was set is still set. A flag keeps its value or takes the
    one that [_parse_bool] gives for a field that is not empty, which is
    [None] for a text outside the vocabulary: this is the one way in which an
    attribute goes back to absent. *)
Theorem parse_string_merges (string : string) (self : Message) :
  (blank (fields string) 0 ->
   message_type (fst (parse_string string self)) = message_type self)
  /\ (blank (fields string) 1 ->
   transmission_type (fst (parse_string string self)) = transmission_type self)
  /\ (blank (fields string) 2 \/ nth 2 (fields string) "" = "111" ->
   session_id (fst (parse_string string self)) = session_id self)
  /\ (blank (fields string) 3 \/ nth 3 (fields string) "" = "11111" ->
   aircraft_id (fst (parse_string string self)) = aircraft_id self)
  /\ (blank (fields string) 4 ->
   hexident (fst (parse_string string self)) = hexident self)
  /\ (blank (fields string) 5 \/ nth 5 (fields string) "" = "111111" ->
   flight_id (fst (parse_string string self)) = flight_id self)
  /\ (blank (fields string) 6 \/ blank (fields string) 7 ->
   generation_time (fst (parse_string string self)) = generation_time self)
  /\ (blank (fields string) 8 \/ blank (fields string) 9 ->
   record_time (fst (parse_string string self)) = record_time self)
  /\ (blank (fields string) 10 ->
   callsign (fst (parse_string string self)) = callsign self)
  /\ (blank (fields string) 11 ->
   altitude (fst (parse_string string self)) = altitude self)
  /\ (blank (fields string) 12 ->
   ground_speed (fst (parse_string string self)) = ground_speed self)
  /\ (blank (fields string) 13 ->
   track (fst (parse_string string self)) = track self)
  /\ (blank (fields string) 14 ->
   latitude (fst (parse_string string self)) = latitude self)
  /\ (blank (fields string) 15 ->
   longitude (fst (parse_string string self)) = longitude self)
  /\ (blank (fields string) 16 ->
   vertical_rate (fst (parse_string string self)) = vertical_rate self)
  /\ (blank (fields string) 17 ->
   squawk (fst (parse_string string self)) = squawk self)
  /\ (blank (fields string) 18 ->
   squawk_alert (fst (parse_string string self)) = squawk_alert self)
  /\ (blank (fields string) 19 ->
   emergency (fst (parse_string string self)) = emergency self)
  /\ (blank (fields string) 20 ->
   spi (fst (parse_string string self)) = spi self)
  /\ (blank (fields string) 21
   /\ (List.length (fields string) = 21%nat -> blank (fields string) 20) ->
   on_ground (fst (parse_string string self)) = on_ground self)
  /\ (message_type self <> None -> message_type (fst (parse_string string self)) <> None)
  /\ (transmission_type self <> None -> transmission_type (fst (parse_string string self)) <> None)
  /\ (session_id self <> None -> session_id (fst (parse_string string self)) <> None)
  /\ (aircraft_id self <> None -> aircraft_id (fst (parse_string string self)) <> None)
  /\ (hexident self <> None -> hexident (fst (parse_string string self)) <> None)
  /\ (flight_id self <> None -> flight_id (fst (parse_string string self)) <> None)
  /\ (generation_time self <> None -> generation_time (fst (parse_string string self)) <> None)
  /\ (record_time self <> None -> record_time (fst (parse_string string self)) <> None)
  /\ (callsign self <> None -> callsign (fst (parse_string string self)) <> None)
  /\ (altitude self <> None -> altitude (fst (parse_string string self)) <> None)
  /\ (ground_speed self <> None -> ground_speed (fst (parse_string string self)) <> None)
  /\ (track self <> None -> track (fst (parse_string string self)) <> None)
  /\ (latitude self <> None -> latitude (fst (parse_string string self)) <> None)
  /\ (longitude self <> None -> longitude (fst (parse_string string self)) <> None)
  /\ (vertical_rate self <> None -> vertical_rate (fst (parse_string string self)) <> None)
  /\ (squawk self <> None -> squawk (fst (parse_string string self)) <> None)
  /\ assigned_from (fields string) squawk_alert self (fst (parse_string string self))
  /\ assigned_from (fields string) emergency self (fst (parse_string string self))
  /\ assigned_from (fields string) spi self (fst (parse_string string self))
  /\ assigned_from (fields string) on_ground self (fst (parse_string string self)).
Proof.
  repeat match goal with |- _ /\ _ => split end.
  - apply message_type_kept.
  - apply transmission_type_kept.
  - apply session_id_kept.
  - apply aircraft_id_kept.
  - apply hexident_kept.
  - apply flight_id_kept.
  - apply generation_time_kept.
  - apply record_time_kept.
  - apply callsign_kept.
  - apply altitude_kept.
  - apply ground_speed_kept.
  - apply track_kept.
  - apply latitude_kept.
  - apply longitude_kept.
  - apply vertical_rate_kept.
  - apply squawk_kept.
  - apply squawk_alert_kept.
  - apply emergency_kept.
  - apply spi_kept.
  - apply on_ground_kept.
  - apply message_type_still_set.
  - apply transmission_type_still_set.
  - apply session_id_still_set.
  - apply aircraft_id_still_set.
  - apply hexident_still_set.
  - apply flight_id_still_set.
  - apply generation_time_still_set.
  - apply record_time_still_set.
  - apply callsign_still_set.
  - apply altitude_still_set.
  - apply ground_speed_still_set.
  - apply track_still_set.
  - apply latitude_still_set.
  - apply longitude_still_set.
  - apply vertical_rate_still_set.
  - apply squawk_still_set.
  - apply squawk_alert_assigned_from.
  - apply emergency_assigned_from.
  - apply spi_assigned_from.
  - apply on_ground_assigned_from.
Qed.

Lemma parse_string_merges_witness :
  nth 2 (fields "MSG,3,111,,3C49CC,,,,,,,,,,,,,,,,,") "" = "111"
  /\ blank (fields "MSG,3,111,,3C49CC,,,,,,,,,,,,,,,,,") 10
  /\ session_id
       (fst (parse_string "MSG,3,111,,3C49CC,,,,,,,,,,,,,,,,,"
               (set_session_id (Some 42) (set_callsign (Some "RYR1427") init))))
     = Some 42
  /\ callsign
       (fst (parse_string "MSG,3,111,,3C49CC,,,,,,,,,,,,,,,,,"
               (set_session_id (Some 42) (set_callsign (Some "RYR1427") init))))
     = Some "RYR1427".
Proof.
  destruct (parse_string_merges "MSG,3,111,,3C49CC,,,,,,,,,,,,,,,,,"
              (set_session_id (Some 42) (set_callsign (Some "RYR1427") init)))
    as [_ [_ [Hs [_ [_ [_ [_ [_ [Hc _]]]]]]]]].
  split; [reflexivity|]. split; [reflexivity|]. split.
  - apply Hs. right. reflexivity.
  - apply Hc. reflexivity.
Defined.

(** C10 fails as stated: the ground flag of the message is [True] before the
    call; field 21 of the line is ["maybe"], neither empty nor a sentinel;
    [parse_string] returns and has reset the flag to [None]. *)
Lemma parse_string_merges_counterexample :
  on_ground (set_on_ground (Some true) init) = Some true
  /\ nth 21 (fields "MSG,3,111,11111,3C49CC,111111,,,,,,,,,,,,,,,,maybe") "" = "maybe"
  /\ snd (parse_string "MSG,3,111,11111,3C49CC,111111,,,,,,,,,,,,,,,,maybe"
            (set_on_ground (Some true) init))
     = Ok tt
  /\ on_ground
       (fst (parse_string "MSG,3,111,11111,3C49CC,111111,,,,,,,,,,,,,,,,maybe"
               (set_on_ground (Some true) init)))
     = None.
Proof. repeat split; vm_compute; reflexivity. Qed.

(** *** [int] reads back what [str] writes *)

Lemma lstrip_no_white (white : ascii -> bool) (s : string) :
  no_white white s = true -> lstrip_with white s = s.
Proof.
  destruct s as [|c r]; simpl; [reflexivity|].
  intros H. apply andb_true_iff in H. destruct H as [Hc _].
  apply negb_true_iff in Hc. rewrite Hc. reflexivity.
Qed.

Lemma rstrip_no_white (white : ascii -> bool) (s : string) :
  no_white white s = true -> rstrip_with white s = s.
Proof.
  induction s as [|c r IH]; simpl; [reflexivity|].
  intros H. apply andb_true_iff in H. destruct H as [Hc Hr].
  apply negb_true_iff in Hc. rewrite (IH Hr), Hc.
  destruct r; reflexivity.
Qed.

Lemma strip_no_white (white : ascii -> bool) (s : string) :
  no_white white s = true -> strip_with white s = s.
Proof.
  intros H. unfold strip_with. rewrite (lstrip_no_white white s H).
  apply rstrip_no_white, H.
Qed.

Lemma isdigit_not_space (c : ascii) : isdigit c = true -> c_isspace c = false.
Proof.
  unfold isdigit, c_isspace. intros H. apply andb_true_iff in H.
  destruct H as [H1 H2]. apply N.leb_le in H1. apply N.leb_le in H2.
  apply orb_false_iff. split.
  - apply andb_false_iff. right. apply N.leb_gt. lia.
  - apply N.eqb_neq. lia.
Qed.

Lemma all_digits_no_white (s : string) :
  all_digits s = true -> no_white c_isspace s = true.
Proof.
  induction s as [|c r IH]; simpl; [reflexivity|].
  intros H. apply andb_true_iff in H. destruct H as [Hc Hr].
  rewrite (isdigit_not_space c Hc), (IH Hr). reflexivity.
Qed.

Lemma scan_all_digits (s : string) (after_digit : bool) :
  all_digits s = true -> scan_digits after_digit s = (s, "").
Proof.
  revert after_digit. induction s as [|c r IH]; intros b; simpl; [reflexivity|].
  intros H. apply andb_true_iff in H. destruct H as [Hc Hr].
  rewrite Hc, (IH true Hr). reflexivity.
Qed.

Lemma split_sign_digit (c : ascii) (r : string) :
  isdigit c = true -> split_sign (String c r) = (false, String c r).
Proof.
  destruct c as [[] [] [] [] [] [] [] []]; simpl; intros H;
    first [discriminate H | reflexivity].
Qed.

Lemma string_of_uint_digits (d : Decimal.uint) :
  all_digits (NilEmpty.string_of_uint d) = true.
Proof. induction d; simpl; auto. Qed.

Lemma digits_acc_pos (d : Decimal.uint) (acc : positive) :
  digits_acc (Zpos acc) (NilEmpty.string_of_uint d) = Zpos (Pos.of_uint_acc d acc).
Proof.
  revert acc.
  induction d; intros acc;
    cbn [NilEmpty.string_of_uint digits_acc Pos.of_uint_acc]; try reflexivity;
    rewrite <- IHd; f_equal;
    match goal with
    | |- context [digit_value ?c] =>
        let v := eval vm_compute in (digit_value c) in
        change (digit_value c) with v
    end; lia.
Qed.

Lemma digits_value_of_uint (d : Decimal.uint) :
  digits_value (NilEmpty.string_of_uint d) = Z.of_N (Pos.of_uint d).
Proof.
  unfold digits_value.
  induction d; cbn [NilEmpty.string_of_uint digits_acc Pos.of_uint];
    try reflexivity;
    match goal with
    | |- context [digit_value ?c] =>
        let v := eval vm_compute in (10 * 0 + digit_value c) in
        change (10 * 0 + digit_value c) with v
    end;
    first [exact IHd | rewrite (digits_acc_pos d); reflexivity].
Qed.

Lemma int_literal_digits (s : string) :
  all_digits s = true -> s <> "" -> int_literal s = Some (digits_value s).
Proof.
  intros Hd Hne. unfold int_literal.
  rewrite (strip_no_white _ _ (all_digits_no_white s Hd)).
  destruct s as [|c r]; [congruence|].
  assert (Hc : isdigit c = true) by (simpl in Hd; apply andb_true_iff in Hd; tauto).
  rewrite (split_sign_digit c r Hc), (scan_all_digits _ false Hd). reflexivity.
Qed.

Lemma int_literal_minus (s : string) :
  all_digits s = true -> s <> "" ->
  int_literal (String "-" s) = Some (- digits_value s).
Proof.
  intros Hd Hne. unfold int_literal.
  assert (Hw : no_white c_isspace (String "-" s) = true)
    by (simpl; apply all_digits_no_white, Hd).
  rewrite (strip_no_white _ _ Hw).
  change (split_sign (String "-" s)) with (true, s). cbv iota beta.
  rewrite (scan_all_digits _ false Hd).
  destruct s; [congruence | reflexivity].
Qed.

Lemma string_of_uint_nonnil (d : Decimal.uint) :
  d <> Decimal.Nil -> NilEmpty.string_of_uint d <> "".
Proof. destruct d; simpl; congruence. Qed.

Lemma string_of_uint_nilzero (d : Decimal.uint) :
  d <> Decimal.Nil -> NilZero.string_of_uint d = NilEmpty.string_of_uint d.
Proof. destruct d; simpl; congruence. Qed.

(** [int(str(n)) == n] for every integer [n]. *)
Lemma int_literal_str_int (n : Z) : int_literal (str_int n) = Some n.
Proof.
  unfold str_int. destruct n as [|p|p]; simpl Z.to_int.
  - reflexivity.
  - simpl NilZero.string_of_int.
    pose proof (Unsigned.to_uint_nonnil p) as Hnn.
    rewrite (string_of_uint_nilzero _ Hnn).
    rewrite int_literal_digits;
      [|apply string_of_uint_digits | apply string_of_uint_nonnil, Hnn].
    rewrite digits_value_of_uint, Unsigned.of_to. reflexivity.
  - simpl NilZero.string_of_int.
    pose proof (Unsigned.to_uint_nonnil p) as Hnn.
    rewrite (string_of_uint_nilzero _ Hnn).
    rewrite int_literal_minus;
      [|apply string_of_uint_digits | apply string_of_uint_nonnil, Hnn].
    rewrite digits_value_of_uint, Unsigned.of_to. reflexivity.
Qed.

(** *** C4 *)

Lemma render_text (p : string) guard o :
  (forall q, guard q = true -> truthy q = true) ->
  guarded (Ok p) guard upper_of = Ok o ->
  (guard p = true \/ p = "" ->
   same_text p (_dump_or_none (match o with Some v => v | None => None end) str_str))
  /\ (guard p = false ->
      _dump_or_none (match o with Some v => v | None => None end) str_str = "").
Proof.
  intros Hg. unfold guarded, upper_of, same_text.
  destruct (guard p) eqn:Hp; intros [= <-]; simpl; split; try discriminate.
  - reflexivity.
  - intros [H | ->]; [discriminate | reflexivity].
  - reflexivity.
Qed.

Lemma render_integer (p : string) guard o :
  guarded (Ok p) guard int_of = Ok o ->
  (guard p = true ->
   exists n, int_literal p = Some n
             /\ _dump_or_none (match o with Some v => v | None => None end) str_int
                = str_int n
             /\ int_literal (str_int n) = Some n)
  /\ (guard p = false ->
      _dump_or_none (match o with Some v => v | None => None end) str_int = "").
Proof.
  unfold guarded, int_of, int, or_value_error, some_of.
  destruct (guard p) eqn:Hp.
  - destruct (int_literal p) as [n|]; [|discriminate].
    intros [= <-]. split; [|discriminate]. intros _.
    exists n. repeat split. apply int_literal_str_int.
  - intros [= <-]. split; [discriminate | reflexivity].
Qed.

Lemma same_integer_intro (p : string) o :
  guarded (Ok p) truthy int_of = Ok o ->
  same_integer p (_dump_or_none (match o with Some v => v | None => None end) str_int).
Proof.
  intros H. destruct (render_integer p truthy o H) as [Hset Hnot]. split.
  - intros ->. apply Hnot. reflexivity.
  - intros Hne. apply truthy_true in Hne. destruct (Hset Hne) as [n [Hn [He Hr]]].
    exists n. rewrite He. auto.
Qed.

Lemma same_integer_sentinel (sentinel p : string) o :
  guarded (Ok p) (not_sentinel sentinel) int_of = Ok o ->
  (p = sentinel ->
   _dump_or_none (match o with Some v => v | None => None end) str_int = "")
  /\ (p <> sentinel ->
      same_integer p
        (_dump_or_none (match o with Some v => v | None => None end) str_int)).
Proof.
  intros H. destruct (render_integer p _ o H) as [Hset Hnot].
  unfold not_sentinel in *. split.
  - intros ->. apply Hnot. rewrite String.eqb_refl. apply andb_false_r.
  - intros Hns. apply String.eqb_neq in Hns. rewrite Hns, andb_true_r in *.
    split.
    + intros ->. apply Hnot. reflexivity.
    + intros Hne. apply truthy_true in Hne. destruct (Hset Hne) as [n [Hn [He Hr]]].
      exists n. rewrite He. auto.
Qed.

Lemma same_flag_intro (p : string) o :
  guarded (Ok p) truthy bool_of = Ok o ->
  same_flag p (_dump_or_none (match o with Some v => v | None => None end) _dump_bool).
Proof.
  unfold guarded, bool_of, same_flag.
  destruct (truthy p) eqn:Hp; intros [= <-].
  - destruct (_parse_bool p) as [[]|]; simpl; auto.
  - apply truthy_false in Hp. subst p. simpl. auto.
Qed.

Lemma rendered_float_intro (render : float -> string) (p : string) o :
  guarded (Ok p) truthy float_of = Ok o ->
  rendered_float render p
    (_dump_or_none (match o with Some v => v | None => None end) render).
Proof.
  unfold guarded, float_of, float_of_str, or_value_error, some_of, rendered_float.
  destruct (truthy p) eqn:Hp.
  - destruct (float_literal p) as [x|]; [|discriminate].
    intros [= <-]. split.
    + intros ->. discriminate.
    + intros _. exists x. split; reflexivity.
  - intros [= <-]. apply truthy_false in Hp. subst p. split; [reflexivity | congruence].
Qed.

Lemma rendered_time_intro (d t : string) (read : bool) o :
  (if read then some_of (some_of (_parse_datetime d t)) else Ok None) = Ok o ->
  rendered_time read d t
    (_dump_or_none (match o with Some v => v | None => None end) _dump_datetime).
Proof.
  unfold rendered_time, some_of. destruct read.
  - destruct (_parse_datetime d t) as [v|e]; [|discriminate].
    intros [= <-]. split; [discriminate|]. intros _. exists v. split; reflexivity.
  - intros [= <-]. split; [reflexivity | discriminate].
Qed.

(** The attributes of the message decoded from a line of 22 fields whose
    message type is ["MSG"]. *)
Section FullForm.

Variable parts : list string.
Hypothesis parts_length : List.length parts = 22%nat.
Hypothesis parts_msg : upper (nth 0 parts "") = "MSG".

Lemma tail_statements_full_form :
  tail_statements parts (commit_all (header_statements parts) init)
  = Stmt _ (altitude_outcome parts) set_altitude :: full_form_statements parts.
Proof.
  unfold tail_statements, transmission_statements.
  rewrite (is_msg_header_init parts (nth 0 parts ""))
    by (apply nth_error_nth'; lia).
  rewrite parts_msg. simpl String.eqb. cbv iota.
  unfold takes_shortcut. rewrite parts_length.
  rewrite andb_false_r. reflexivity.
Qed.

Lemma decoded_full_form :
  decoded parts
  = commit_all (full_form_statements parts)
      (commit (altitude_outcome parts) set_altitude
         (commit_all (header_statements parts) init)).
Proof. unfold decoded. cbv zeta. rewrite tail_statements_full_form. reflexivity. Qed.

Lemma decoded_message_type :
  message_type (decoded parts)
  = match message_type_outcome parts with Ok (Some v) => v | _ => None end.
Proof.
  rewrite decoded_full_form.
  rewrite (full_form_untouched message_type) by untouched.
  rewrite (commit_untouched message_type) by untouched.
  apply header_message_type.
Qed.

Lemma decoded_transmission_type :
  transmission_type (decoded parts)
  = match transmission_type_outcome parts with Ok (Some v) => v | _ => None end.
Proof.
  rewrite decoded_full_form.
  rewrite (full_form_untouched transmission_type) by untouched.
  rewrite (commit_untouched transmission_type) by untouched.
  apply header_transmission_type.
Qed.

Lemma decoded_session_id :
  session_id (decoded parts)
  = match session_id_outcome parts with Ok (Some v) => v | _ => None end.
Proof.
  rewrite decoded_full_form.
  rewrite (full_form_untouched session_id) by untouched.
  rewrite (commit_untouched session_id) by untouched.
  apply header_session_id.
Qed.

Lemma decoded_aircraft_id :
  aircraft_id (decoded parts)
  = match aircraft_id_outcome parts with Ok (Some v) => v | _ => None end.
Proof.
  rewrite decoded_full_form.
  rewrite (full_form_untouched aircraft_id) by untouched.
  rewrite (commit_untouched aircraft_id) by untouched.
  apply header_aircraft_id.
Qed.

Lemma decoded_hexident :
  hexident (decoded parts)
  = match hexident_outcome parts with Ok (Some v) => v | _ => None end.
Proof.
  rewrite decoded_full_form.
  rewrite (full_form_untouched hexident) by untouched.
  rewrite (commit_untouched hexident) by untouched.
  apply header_hexident.
Qed.

Lemma decoded_flight_id :
  flight_id (decoded parts)
  = match flight_id_outcome parts with Ok (Some v) => v | _ => None end.
Proof.
  rewrite decoded_full_form.
  rewrite (full_form_untouched flight_id) by untouched.
  rewrite (commit_untouched flight_id) by untouched.
  apply header_flight_id.
Qed.

Lemma decoded_generation_time :
  generation_time (decoded parts)
  = match generation_time_outcome parts with Ok (Some v) => v | _ => None end.
Proof.
  rewrite decoded_full_form.
  rewrite (full_form_untouched generation_time) by untouched.
  rewrite (commit_untouched generation_time) by untouched.
  apply header_generation_time.
Qed.

Lemma decoded_record_time :
  record_time (decoded parts)
  = match record_time_outcome parts with Ok (Some v) => v | _ => None end.
Proof.
  rewrite decoded_full_form.
  rewrite (full_form_untouched record_time) by untouched.
  rewrite (commit_untouched record_time) by untouched.
  apply header_record_time.
Qed.

Lemma decoded_callsign :
  callsign (decoded parts)
  = match callsign_outcome parts with Ok (Some v) => v | _ => None end.
Proof.
  rewrite decoded_full_form.
  rewrite (full_form_untouched callsign) by untouched.
  rewrite (commit_untouched callsign) by untouched.
  apply header_callsign.
Qed.

Lemma decoded_altitude :
  altitude (decoded parts)
  = match altitude_outcome parts with Ok (Some v) => v | _ => None end.
Proof.
  rewrite decoded_full_form.
  rewrite (full_form_untouched altitude) by untouched.
  rewrite altitude_commit.
  rewrite (header_untouched altitude) by untouched.
  reflexivity.
Qed.

Lemma decoded_ground_speed :
  ground_speed (decoded parts)
  = match ground_speed_outcome parts with Ok (Some v) => v | _ => None end.
Proof.
  rewrite decoded_full_form, full_form_ground_speed.
  rewrite (commit_untouched ground_speed) by untouched.
  rewrite (header_untouched ground_speed) by untouched.
  reflexivity.
Qed.

Lemma decoded_track :
  track (decoded parts)
  = match track_outcome parts with Ok (Some v) => v | _ => None end.
Proof.
  rewrite decoded_full_form, full_form_track.
  rewrite (commit_untouched track) by untouched.
  rewrite (header_untouched track) by untouched.
  reflexivity.
Qed.

Lemma decoded_latitude :
  latitude (decoded parts)
  = match latitude_outcome parts with Ok (Some v) => v | _ => None end.
Proof.
  rewrite decoded_full_form, full_form_latitude.
  rewrite (commit_untouched latitude) by untouched.
  rewrite (header_untouched latitude) by untouched.
  reflexivity.
Qed.

Lemma decoded_longitude :
  longitude (decoded parts)
  = match longitude_outcome parts with Ok (Some v) => v | _ => None end.
Proof.
  rewrite decoded_full_form, full_form_longitude.
  rewrite (commit_untouched longitude) by untouched.
  rewrite (header_untouched longitude) by untouched.
  reflexivity.
Qed.

Lemma decoded_vertical_rate :
  vertical_rate (decoded parts)
  = match vertical_rate_outcome parts with Ok (Some v) => v | _ => None end.
Proof.
  rewrite decoded_full_form, full_form_vertical_rate.
  rewrite (commit_untouched vertical_rate) by untouched.
  rewrite (header_untouched vertical_rate) by untouched.
  reflexivity.
Qed.

Lemma decoded_squawk :
  squawk (decoded parts)
  = match squawk_outcome parts with Ok (Some v) => v | _ => None end.
Proof.
  rewrite decoded_full_form, full_form_squawk.
  rewrite (commit_untouched squawk) by untouched.
  rewrite (header_untouched squawk) by untouched.
  reflexivity.
Qed.

Lemma decoded_squawk_alert :
  squawk_alert (decoded parts)
  = match squawk_alert_outcome parts with Ok (Some v) => v | _ => None end.
Proof.
  rewrite decoded_full_form, full_form_squawk_alert.
  rewrite (commit_untouched squawk_alert) by untouched.
  rewrite (header_untouched squawk_alert) by untouched.
  reflexivity.
Qed.

Lemma decoded_emergency :
  emergency (decoded parts)
  = match emergency_outcome parts with Ok (Some v) => v | _ => None end.
Proof.
  rewrite decoded_full_form, full_form_emergency.
  rewrite (commit_untouched emergency) by untouched.
  rewrite (header_untouched emergency) by untouched.
  reflexivity.
Qed.

Lemma decoded_spi :
  spi (decoded parts)
  = match spi_outcome parts with Ok (Some v) => v | _ => None end.
Proof.
  rewrite decoded_full_form, full_form_spi.
  rewrite (commit_untouched spi) by untouched.
  rewrite (header_untouched spi) by untouched.
  reflexivity.
Qed.

Lemma decoded_on_ground :
  on_ground (decoded parts)
  = match on_ground_outcome parts with Ok (Some v) => v | _ => None end.
Proof.
  rewrite decoded_full_form, full_form_on_ground.
  rewrite (commit_untouched on_ground) by untouched.
  rewrite (header_untouched on_ground) by untouched.
  reflexivity.
Qed.

Lemma getitem_full_form (i : Z) :
  0 <= i < 22 -> getitem parts i = Ok (nth (Z.to_nat i) parts "").
Proof. intros Hi. apply getitem_within. lia. Qed.

End FullForm.




(** *** [iter_messages] *)

(** X1: the generator yields the messages of the lines in order for as long
    as they decode; the first line on which [from_string] raises ends the
    iteration with that exception, and the lines after it are never decoded,
    whatever they are. *)
Theorem iter_messages_stops_at_first_error (good : list string) (bad : string)
    (rest : list string) (messages : list Message) (e : exn) :
  Forall2 (fun item message => from_string item = Ok message) good messages ->
  from_string bad = Raise e ->
  iter_messages (good ++ bad :: rest) = (messages, Some e).
Proof.
  intros Hgood Hbad. induction Hgood as [|item message good messages Hitem _ IH]; simpl.
  - rewrite Hbad. reflexivity.
  - rewrite Hitem, IH. reflexivity.
Qed.

Lemma iter_messages_stops_at_first_error_witness :
  exists m,
    from_string "ID,,,,4CA2D6,,,,,,RYR1427" = Ok m
    /\ from_string "MSG,abc" = Raise ValueError
    /\ iter_messages
         ["ID,,,,4CA2D6,,,,,,RYR1427"; "MSG,abc"; "ID,,,,3C49CC,,,,,,DLH400"]
       = ([m], Some ValueError).
Proof.
  eexists. split; [vm_compute; reflexivity|]. split; [vm_compute; reflexivity|].
  apply (iter_messages_stops_at_first_error
           ["ID,,,,4CA2D6,,,,,,RYR1427"] "MSG,abc" ["ID,,,,3C49CC,,,,,,DLH400"]).
  - constructor; [vm_compute; reflexivity | constructor].
  - vm_compute. reflexivity.
Defined.

(** X2: the iteration ends without an exception exactly when every line
    decodes, and it has then yielded the message of each line, in order. *)
Theorem iter_messages_all_decoded (iterator : list string) (messages : list Message) :
  iter_messages iterator = (messages, None)
  <-> Forall2 (fun item message => from_string item = Ok message) iterator messages.
Proof.
  revert messages. induction iterator as [|item rest IH]; intros messages; simpl.
  - split.
    + intros [= <-]. constructor.
    + intros H. inversion H. reflexivity.
  - split.
    + destruct (from_string item) as [m|e] eqn:Hitem; [|discriminate].
      destruct (iter_messages rest) as [yielded raised] eqn:Hrest.
      intros [= <- ->]. constructor; [exact Hitem | apply IH; reflexivity].
    + intros H. inversion H as [|? m ? ms Hitem Hall]; subst.
      rewrite Hitem. apply IH in Hall. rewrite Hall. reflexivity.
Qed.

Lemma iter_messages_all_decoded_witness :
  exists m1 m2,
    iter_messages ["ID,,,,4CA2D6,,,,,,RYR1427"; "ID,,,,3C49CC,,,,,,DLH400"]
    = ([m1; m2], None)
    /\ callsign m1 = Some "RYR1427" /\ callsign m2 = Some "DLH400".
Proof.
  eexists. eexists. split.
  - apply iter_messages_all_decoded.
    constructor; [vm_compute; reflexivity|].
    constructor; [vm_compute; reflexivity | constructor].
  - split; reflexivity.
Defined.

(** *** Lines that are too short, and what a failed call leaves behind *)

(** X3: a line of fewer than nine fields is never decoded, since the header
    indexes [parts[8]] without a test on the length; with a single field,
    the empty line included, the exception is the [IndexError] of
    [parts[1]]. *)
Theorem line_below_nine_fields_raises (string : string) :
  (List.length (fields string) < 9)%nat ->
  exists e,
    from_string string = Raise e
    /\ (List.length (fields string) = 1%nat -> e = IndexError).
Proof.
  intros Hlen.
  assert (Hraise : exists e, from_string string = Raise e).
  { apply from_string_header_raises. apply Exists_exists.
    exists (Stmt _ (record_time_outcome (fields string)) set_record_time).
    split; [simpl; tauto|].
    exists IndexError. cbn [outcome]. unfold record_time_outcome.
    rewrite getitem_short by lia. reflexivity. }
  destruct Hraise as [e He]. exists e. split; [exact He|].
  intros H1. revert He. unfold from_string. rewrite parse_string_run.
  unfold header_statements. cbn [run outcome setter attr_type].
  unfold message_type_outcome, transmission_type_outcome, guarded.
  rewrite (getitem_nth _ 0 _ ltac:(lia) (fields_first string)).
  rewrite (getitem_short _ 1) by lia.
  destruct (truthy (hd "" (fields string))); simpl; congruence.
Qed.

Lemma line_below_nine_fields_raises_witness :
  (List.length (fields "") < 9)%nat
  /\ from_string "" = Raise IndexError
  /\ exists r, from_string "ID,,,,4CA2D6,,,," = Ok r.
Proof.
  split; [vm_compute; lia|]. split.
  - destruct (line_below_nine_fields_raises "") as [e [He H1]]; [vm_compute; lia|].
    rewrite He. f_equal. apply H1. reflexivity.
  - eexists. vm_compute. reflexivity.
Defined.

(** X4: [parse_string] assigns as it goes and does not undo on failure.
    When field 0 is not empty and field 1 is not empty and is no integer,
    the call raises [ValueError] and leaves [self] with the message type of
    the line and every other attribute as it was. *)
Theorem failed_parse_keeps_earlier_assignments (string p0 p1 : string)
    (self : Message) :
  nth_error (fields string) 0 = Some p0 ->
  nth_error (fields string) 1 = Some p1 ->
  p0 <> "" -> p1 <> "" -> int_literal p1 = None ->
  parse_string string self
  = (set_message_type (Some (upper p0)) self, Raise ValueError).
Proof.
  intros H0 H1 Hp0 Hp1 Hint.
  rewrite parse_string_run.
  unfold header_statements. cbn [run outcome setter attr_type].
  unfold message_type_outcome, transmission_type_outcome, guarded.
  rewrite (getitem_nth _ 0 p0 ltac:(lia) H0), (getitem_nth _ 1 p1 ltac:(lia) H1).
  apply truthy_true in Hp0. apply truthy_true in Hp1. rewrite Hp0, Hp1.
  unfold upper_of, int_of, int. rewrite Hint. reflexivity.
Qed.

Lemma failed_parse_keeps_earlier_assignments_witness :
  parse_string "sta,abc,,,,,,,,,"
    (set_callsign (Some "RYR1427") (set_message_type (Some "MSG") init))
  = (set_callsign (Some "RYR1427") (set_message_type (Some "STA") init),
     Raise ValueError).
Proof.
  rewrite (failed_parse_keeps_earlier_assignments "sta,abc,,,,,,,,," "sta" "abc");
    [reflexivity | reflexivity | reflexivity | discriminate | discriminate
    | reflexivity].
Defined.

(** *** White space around a line *)

Lemma lstrip_only_white (white : ascii -> bool) (pre s : string) :
  only_white white pre = true ->
  lstrip_with white (pre ++ s) = lstrip_with white s.
Proof.
  induction pre as [|c r IH]; simpl; [reflexivity|].
  intros H. apply andb_true_iff in H. destruct H as [Hc Hr].
  rewrite Hc. apply IH, Hr.
Qed.

Lemma rstrip_only_white (white : ascii -> bool) (s post : string) :
  only_white white post = true ->
  rstrip_with white (s ++ post) = rstrip_with white s.
Proof.
  intros Hpost.
  assert (Hnil : rstrip_with white post = "").
  { induction post as [|c r IH]; simpl; [reflexivity|].
    simpl in Hpost. apply andb_true_iff in Hpost. destruct Hpost as [Hc Hr].
    rewrite (IH Hr), Hc. reflexivity. }
  induction s as [|c r IH]; simpl; [exact Hnil|].
  rewrite IH. reflexivity.
Qed.

Lemma lstrip_app (white : ascii -> bool) (s t : string) :
  lstrip_with white (s ++ t)
  = match lstrip_with white s with
    | EmptyString => lstrip_with white t
    | r => r ++ t
    end.
Proof.
  induction s as [|c r IH]; simpl; [destruct (lstrip_with white t); reflexivity|].
  destruct (white c); [exact IH | reflexivity].
Qed.

Lemma lstrip_all_white (white : ascii -> bool) (s : string) :
  only_white white s = true -> lstrip_with white s = "".
Proof.
  induction s as [|c r IH]; simpl; [reflexivity|].
  intros H. apply andb_true_iff in H. destruct H as [Hc Hr]. rewrite Hc. auto.
Qed.

Lemma strip_surrounded (white : ascii -> bool) (pre s post : string) :
  only_white white pre = true -> only_white white post = true ->
  strip_with white (pre ++ s ++ post) = strip_with white s.
Proof.
  intros Hpre Hpost. unfold strip_with.
  rewrite (lstrip_only_white white pre _ Hpre), lstrip_app.
  destruct (lstrip_with white s) as [|c r] eqn:Hs.
  - rewrite (lstrip_all_white white post Hpost). reflexivity.
  - apply (rstrip_only_white white (String c r) post Hpost).
Qed.

(** X5: white space before and after the line, such as the end of line that
    a file or a socket leaves, changes nothing: [parse_string] does to [self]
    and returns or raises what it does for the bare line, and so does
    [from_string]. *)
Theorem surrounding_white_space_is_ignored (pre string post : string)
    (self : Message) :
  only_white isspace pre = true ->
  only_white isspace post = true ->
  parse_string (pre ++ string ++ post) self = parse_string string self
  /\ from_string (pre ++ string ++ post) = from_string string.
Proof.
  intros Hpre Hpost.
  assert (H : forall m, parse_string (pre ++ string ++ post) m = parse_string string m).
  { intros m. unfold parse_string, strip.
    rewrite (strip_surrounded isspace pre string post Hpre Hpost). reflexivity. }
  split; [apply H|]. unfold from_string. rewrite H. reflexivity.
Qed.

Lemma surrounding_white_space_is_ignored_witness :
  from_string (String (ascii_of_N 9) " " ++ "ID,,,,4CA2D6,,,,,,RYR1427"
               ++ String (ascii_of_N 13) newline)
  = from_string "ID,,,,4CA2D6,,,,,,RYR1427".
Proof.
  apply (surrounding_white_space_is_ignored
           (String (ascii_of_N 9) " ") "ID,,,,4CA2D6,,,,,,RYR1427"
           (String (ascii_of_N 13) newline) init);
    reflexivity.
Defined.

(** *** Decoded texts *)

Lemma upper_char_idempotent (c : ascii) : upper_char (upper_char c) = upper_char c.
Proof. destruct c as [[] [] [] [] [] [] [] []]; reflexivity. Qed.

Lemma upper_idempotent (s : string) : upper (upper s) = upper s.
Proof.
  unfold upper. induction s as [|c r IH]; simpl; [reflexivity|].
  rewrite upper_char_idempotent, IH. reflexivity.
Qed.

Lemma guarded_upper_shape (parts : list string) (i : Z) guard (v : option string) :
  (forall q, guard q = true -> truthy q = true) ->
  guarded (getitem parts i) guard upper_of = Ok (Some v) ->
  exists p, v = Some (upper p) /\ p <> "".
Proof.
  intros Hg. unfold guarded, upper_of.
  destruct (getitem parts i) as [p|e]; [|discriminate].
  destruct (guard p) eqn:Hp; [|discriminate].
  intros [= <-]. exists p. split; [reflexivity|]. apply truthy_true, Hg, Hp.
Qed.

Lemma upper_not_empty (p : string) : p <> "" -> upper p <> "".
Proof. unfold upper. destruct p; simpl; [congruence | discriminate]. Qed.

Lemma not_sentinel_truthy (sentinel q : string) :
  not_sentinel sentinel q = true -> truthy q = true.
Proof. unfold not_sentinel. intros H. apply andb_true_iff in H. tauto. Qed.

(** X6: in a message that [from_string] returns, the message type, the
    hexident, the flight identifier and the callsign, when present, are
    texts in upper case that are not empty: an empty field is never stored as
    an empty text. *)
Theorem decoded_texts_are_upper_case (string : string) (r : Message) (v : String.string) :
  from_string string = Ok r ->
  message_type r = Some v \/ hexident r = Some v
  \/ flight_id r = Some v \/ callsign r = Some v ->
  v <> "" /\ upper v = v.
Proof.
  intros H Hv. apply from_string_ok in H. destruct H as [-> _].
  set (parts := fields string) in *.
  assert (Hshape : exists p, Some v = Some (upper p) /\ p <> "").
  { destruct Hv as [Hv | [Hv | [Hv | Hv]]]; rewrite <- Hv.
    - decoded_header message_type. rewrite header_message_type.
      destruct (message_type_outcome parts) as [[o|]|e] eqn:Ho;
        try (simpl in Hv; revert Hv; decoded_header message_type;
             rewrite header_message_type, Ho; discriminate).
      apply (guarded_upper_shape parts 0 truthy o (fun q Hq => Hq) Ho).
    - decoded_header hexident. rewrite header_hexident.
      destruct (hexident_outcome parts) as [[o|]|e] eqn:Ho;
        try (simpl in Hv; revert Hv; decoded_header hexident;
             rewrite header_hexident, Ho; discriminate).
      apply (guarded_upper_shape parts 4 truthy o (fun q Hq => Hq) Ho).
    - decoded_header flight_id. rewrite header_flight_id.
      destruct (flight_id_outcome parts) as [[o|]|e] eqn:Ho;
        try (simpl in Hv; revert Hv; decoded_header flight_id;
             rewrite header_flight_id, Ho; discriminate).
      apply (guarded_upper_shape parts 5 _ o (not_sentinel_truthy "111111") Ho).
    - decoded_header callsign. rewrite header_callsign.
      destruct (callsign_outcome parts) as [[o|]|e] eqn:Ho;
        try (simpl in Hv; revert Hv; decoded_header callsign;
             rewrite header_callsign, Ho; discriminate).
      unfold callsign_outcome in Ho.
      destruct (10 <? Z.of_nat (List.length parts)); [|discriminate].
      apply (guarded_upper_shape parts 10 truthy o (fun q Hq => Hq) Ho). }
  destruct Hshape as [p [[= ->] Hp]].
  split; [apply upper_not_empty, Hp | apply upper_idempotent].
Qed.

Lemma decoded_texts_are_upper_case_witness :
  exists r,
    from_string "msg,3,111,11111,3c49cc,111111,,,,,ryr1427,,,,,,,,,,," = Ok r
    /\ callsign r = Some "RYR1427"
    /\ "RYR1427" <> "" /\ upper "RYR1427" = "RYR1427".
Proof.
  eexists. split; [vm_compute; reflexivity|]. split; [reflexivity|].
  eapply (decoded_texts_are_upper_case
            "msg,3,111,11111,3c49cc,111111,,,,,ryr1427,,,,,,,,,,," _ "RYR1427").
  - vm_compute. reflexivity.
  - right. right. right. reflexivity.
Defined.

(** *** [_parse_datetime] *)

Lemma rpartition_absent (sep : ascii) (s : string) :
  contains sep s = false -> rpartition sep s = ("", "", s).
Proof.
  induction s as [|c r IH]; simpl; [reflexivity|].
  intros H. apply orb_false_iff in H. destruct H as [Hc Hr].
  rewrite (IH Hr), Hc. reflexivity.
Qed.

(** X7: a time with no decimal point, such as ["17:06:55"], is rejected:
    [rpartition] then leaves an empty text in front of the fraction, which is
    no time, and [_parse_datetime] raises [ValueError] whatever the date. *)
Theorem time_without_fraction_raises (datestr timestr : string) :
  contains "." timestr = false ->
  _parse_datetime datestr timestr = Raise ValueError.
Proof.
  intros H. unfold _parse_datetime. rewrite (rpartition_absent _ _ H).
  destruct (strptime_date datestr) as [date|e] eqn:Hd; [reflexivity|].
  revert Hd. unfold strptime_date.
  match goal with |- or_value_error ?o = _ -> _ => destruct o end;
    simpl; congruence.
Qed.

Lemma time_without_fraction_raises_witness :
  contains "." "17:06:55" = false
  /\ _parse_datetime "2015/05/01" "17:06:55" = Raise ValueError
  /\ exists t, _parse_datetime "2015/05/01" "17:06:55.0" = Ok t.
Proof.
  split; [reflexivity|]. split.
  - apply (time_without_fraction_raises "2015/05/01" "17:06:55"). reflexivity.
  - eexists. vm_compute. reflexivity.
Defined.

Lemma digit_value_range (c : ascii) :
  isdigit c = true -> 0 <= digit_value c <= 9.
Proof.
  unfold isdigit, digit_value. intros H. apply andb_true_iff in H.
  destruct H as [H1 H2]. apply N.leb_le in H1. apply N.leb_le in H2. lia.
Qed.

Lemma directive_range (lo hi min1 : Z) (s r : string) (v : Z) :
  directive lo hi min1 s = Some (v, r) ->
  Z.min lo min1 <= v <= Z.max hi 9.
Proof.
  unfold directive. destruct s as [|a s1]; [discriminate|].
  destruct (isdigit a) eqn:Ha; [|discriminate].
  pose proof (digit_value_range a Ha) as Hda.
  assert (Hone : (if min1 <=? digit_value a then Some (digit_value a, s1) else None)
                 = Some (v, r) -> Z.min lo min1 <= v <= Z.max hi 9).
  { destruct (min1 <=? digit_value a) eqn:Hm; [|discriminate].
    apply Z.leb_le in Hm. intros [= <- <-]. lia. }
  destruct s1 as [|b s2]; [exact Hone|].
  destruct (isdigit b && (lo <=? 10 * digit_value a + digit_value b)
            && (10 * digit_value a + digit_value b <=? hi)) eqn:Htwo; [|exact Hone].
  apply andb_true_iff in Htwo. destruct Htwo as [Htwo Hhi].
  apply andb_true_iff in Htwo. destruct Htwo as [_ Hlo].
  apply Z.leb_le in Hlo. apply Z.leb_le in Hhi. intros Heq.
  assert (Hv : v = 10 * digit_value a + digit_value b) by congruence.
  lia.
Qed.

Lemma directive_Y_range (s r : string) (v : Z) :
  directive_Y s = Some (v, r) -> 0 <= v <= 9999.
Proof.
  unfold directive_Y.
  destruct s as [|a [|b [|c [|d s']]]]; try discriminate.
  destruct (isdigit a) eqn:Ha; [|discriminate].
  destruct (isdigit b) eqn:Hb; [|discriminate].
  destruct (isdigit c) eqn:Hc; [|discriminate].
  destruct (isdigit d) eqn:Hd; [|discriminate].
  simpl andb. cbv iota. intros [= <- <-].
  pose proof (digit_value_range a Ha). pose proof (digit_value_range b Hb).
  pose proof (digit_value_range c Hc). pose proof (digit_value_range d Hd).
  unfold digits_value. cbn [digits_acc]. lia.
Qed.

Lemma directive_d_range (s r : string) (v : Z) :
  directive_d s = Some (v, r) -> 1 <= v <= 31.
Proof.
  unfold directive_d.
  destruct (directive 1 31 1 s) as [[w r']|] eqn:Hd.
  - intros [= <- <-]. apply directive_range in Hd. lia.
  - intros H.
    destruct s as [|a [|b s']]; try discriminate H;
      try (destruct a as [[] [] [] [] [] [] [] []]; discriminate H).
    destruct a as [[] [] [] [] [] [] [] []]; try discriminate H.
    destruct (isdigit b) eqn:Hb; [|discriminate H].
    destruct (1 <=? digit_value b) eqn:H1; [|discriminate H].
    apply Z.leb_le in H1. pose proof (digit_value_range b Hb).
    simpl in H. assert (Hv : v = digit_value b) by congruence. lia.
Qed.

Lemma strptime_date_valid (s : string) (d : datetime) :
  strptime_date s = Ok d ->
  1 <= year d <= 9999 /\ 1 <= month d <= 12
  /\ 1 <= day d <= days_in_month (year d) (month d).
Proof.
  unfold strptime_date.
  destruct (directive_Y s) as [[y s1]|] eqn:HY; [|discriminate].
  destruct (literal "/" s1) as [s2|]; [|discriminate].
  destruct (directive 1 12 1 s2) as [[m s3]|] eqn:Hm; [|discriminate].
  destruct (literal "/" s3) as [s4|]; [|discriminate].
  destruct (directive_d s4) as [[dd s5]|] eqn:Hd; [|discriminate].
  destruct (negb (truthy s5) && (1 <=? y) && (dd <=? days_in_month y m)) eqn:Hc;
    [|discriminate].
  apply andb_true_iff in Hc. destruct Hc as [Hc Hdm].
  apply andb_true_iff in Hc. destruct Hc as [_ Hy].
  apply Z.leb_le in Hy. apply Z.leb_le in Hdm.
  apply directive_Y_range in HY. apply directive_range in Hm.
  apply directive_d_range in Hd.
  intros [= <-]. simpl. lia.
Qed.

Lemma strptime_time_valid (s : string) (t : datetime) :
  strptime_time s = Ok t ->
  0 <= hour t <= 23 /\ 0 <= minute t <= 59 /\ 0 <= second t <= 59.
Proof.
  unfold strptime_time.
  destruct (directive 0 23 0 s) as [[h s1]|] eqn:Hh; [|discriminate].
  destruct (literal ":" s1) as [s2|]; [|discriminate].
  destruct (directive 0 59 0 s2) as [[mi s3]|] eqn:Hmi; [|discriminate].
  destruct (literal ":" s3) as [s4|]; [|discriminate].
  destruct (directive 0 61 0 s4) as [[sec s5]|] eqn:Hs; [|discriminate].
  destruct (negb (truthy s5) && (sec <=? 59)) eqn:Hc; [|discriminate].
  apply andb_true_iff in Hc. destruct Hc as [_ H59]. apply Z.leb_le in H59.
  apply directive_range in Hh. apply directive_range in Hmi.
  apply directive_range in Hs.
  intros [= <-]. simpl. lia.
Qed.

(** X8: a time that [_parse_datetime] returns is a time of the calendar and
    of the clock: the year is between 1 and 9999, the day exists in its
    month, leap years included, the hour is below 24, the minute and the
    second below 60, and the microseconds below one million. *)
Theorem parsed_datetime_is_valid (datestr timestr : string) (t : datetime) :
  _parse_datetime datestr timestr = Ok t ->
  1 <= year t <= 9999 /\ 1 <= month t <= 12
  /\ 1 <= day t <= days_in_month (year t) (month t)
  /\ 0 <= hour t <= 23 /\ 0 <= minute t <= 59 /\ 0 <= second t <= 59
  /\ 0 <= microsecond t <= 999999.
Proof.
  unfold _parse_datetime.
  destruct (strptime_date datestr) as [date|e] eqn:Hd; [|discriminate].
  destruct (rpartition "." timestr) as [[timestr' separator] millisstr].
  destruct (strptime_time timestr') as [time|e] eqn:Ht; [|discriminate].
  destruct (float_of_str (separator ++ millisstr)) as [seconds|e]; [|discriminate].
  destruct (int_of_float _) as [us|e]; [|discriminate].
  unfold replace_microsecond.
  destruct ((0 <=? us) && (us <=? 999999)) eqn:Hus;
    [|destruct ((-2147483648 <=? us) && (us <=? 2147483647)); discriminate].
  apply andb_true_iff in Hus. destruct Hus as [H0 H1].
  apply Z.leb_le in H0. apply Z.leb_le in H1.
  apply strptime_date_valid in Hd. apply strptime_time_valid in Ht.
  intros [= <-]. unfold combine. simpl. lia.
Qed.

Lemma parsed_datetime_is_valid_witness :
  exists t,
    _parse_datetime "2016/02/29" "23:59:59.999" = Ok t
    /\ day t = 29 /\ 1 <= day t <= days_in_month (year t) (month t)
    /\ microsecond t = 999000
    /\ _parse_datetime "2015/02/29" "23:59:59.999" = Raise ValueError.
Proof.
  eexists. split; [vm_compute; reflexivity|]. split; [reflexivity|].
  split; [|split; [reflexivity | vm_compute; reflexivity]].
  eapply (parsed_datetime_is_valid "2016/02/29" "23:59:59.999").
  vm_compute. reflexivity.
Defined.

(** *** A time that is written is read back *)

Lemma holds_on_range (lo hi : Z) (p : Z -> bool) :
  holds_from (Z.to_nat (hi - lo + 1)) lo p = true ->
  forall v, lo <= v <= hi -> p v = true.
Proof.
  intros H v Hv. apply (holds_from_spec _ _ _ H). lia.
Qed.

Lemma four_digits_text (y : Z) :
  1000 <= y <= 9999 ->
  exists a b c d,
    str_int y = String a (String b (String c (String d "")))
    /\ isdigit a = true /\ isdigit b = true /\ isdigit c = true /\ isdigit d = true
    /\ digits_value (String a (String b (String c (String d "")))) = y.
Proof.
  intros Hy.
  assert (H : writes_four_digits y = true).
  { apply (holds_on_range 1000 9999); [vm_compute; reflexivity | exact Hy]. }
  unfold writes_four_digits in H.
  destruct (str_int y) as [|a [|b [|c [|d [|x s]]]]]; try discriminate H.
  do 4 (apply andb_true_iff in H; destruct H as [H ?]).
  exists a, b, c, d. repeat split; try assumption. apply Z.eqb_eq. assumption.
Qed.

Lemma two_digits_text (v : Z) :
  0 <= v <= 99 ->
  exists a b,
    zfill 2 (str_int v) = String a (String b "")
    /\ isdigit a = true /\ isdigit b = true
    /\ 10 * digit_value a + digit_value b = v.
Proof.
  intros Hv.
  assert (H : writes_two_digits v = true).
  { apply (holds_on_range 0 99); [vm_compute; reflexivity | exact Hv]. }
  unfold writes_two_digits in H.
  destruct (zfill 2 (str_int v)) as [|a [|b [|x s]]]; try discriminate H.
  do 2 (apply andb_true_iff in H; destruct H as [H ?]).
  exists a, b. repeat split; try assumption. apply Z.eqb_eq. assumption.
Qed.

Lemma milliseconds_text (ms : Z) :
  0 <= ms <= 999 ->
  (exists a b c,
     zfill 3 (str_int ms) = String a (String b (String c ""))
     /\ isdigit a = true /\ isdigit b = true /\ isdigit c = true)
  /\ (exists x,
        float_of_str ("." ++ zfill 3 (str_int ms)) = Ok x
        /\ int_of_float (float_mul x (float_of_int 1000000)) = Ok (1000 * ms))
  /\ milliseconds (mkDatetime 0 0 0 0 0 0 (1000 * ms)) = ms.
Proof.
  intros Hms.
  assert (H : writes_milliseconds ms = true).
  { apply (holds_on_range 0 999); [vm_compute; reflexivity | exact Hms]. }
  unfold writes_milliseconds in H.
  destruct (zfill 3 (str_int ms)) as [|a [|b [|c [|x s]]]] eqn:E; try discriminate H.
  do 4 (apply andb_true_iff in H; destruct H as [H ?]).
  split; [exists a, b, c; repeat split; assumption|].
  split; [|apply Z.eqb_eq; assumption].
  destruct (float_of_str ("." ++ String a (String b (String c "")))) as [x|e];
    [|discriminate].
  exists x. split; [reflexivity|].
  destruct (int_of_float (float_mul x (float_of_int 1000000))) as [us|e];
    [|discriminate].
  f_equal. apply Z.eqb_eq. assumption.
Qed.

Lemma directive_Y_four (a b c d : ascii) (rest : string) :
  isdigit a = true -> isdigit b = true -> isdigit c = true -> isdigit d = true ->
  directive_Y (String a (String b (String c (String d rest))))
  = Some (digits_value (String a (String b (String c (String d "")))), rest).
Proof. intros Ha Hb Hc Hd. unfold directive_Y. rewrite Ha, Hb, Hc, Hd. reflexivity. Qed.

Lemma directive_two (lo hi min1 : Z) (a b : ascii) (rest : string) (v : Z) :
  isdigit a = true -> isdigit b = true ->
  10 * digit_value a + digit_value b = v -> lo <= v <= hi ->
  directive lo hi min1 (String a (String b rest)) = Some (v, rest).
Proof.
  intros Ha Hb Hv Hr. unfold directive. rewrite Ha, Hb, Hv.
  replace (lo <=? v) with true by (symmetry; apply Z.leb_le; lia).
  replace (v <=? hi) with true by (symmetry; apply Z.leb_le; lia).
  reflexivity.
Qed.

Lemma literal_head (c : ascii) (rest : string) : literal c (String c rest) = Some rest.
Proof. unfold literal. rewrite Ascii.eqb_refl. reflexivity. Qed.

Lemma strptime_date_field (t : datetime) :
  wire_datetime t = true ->
  strptime_date (date_field t) = Ok (mkDatetime (year t) (month t) (day t) 0 0 0 0).
Proof.
  unfold wire_datetime. intros H.
  repeat (apply andb_true_iff in H; destruct H as [H ?]).
  repeat match goal with
         | X : (_ <=? _) = true |- _ => apply Z.leb_le in X
         end.
  destruct (four_digits_text (year t)) as (y1 & y2 & y3 & y4 & Ey & ? & ? & ? & ? & Hy);
    [lia|].
  destruct (two_digits_text (month t)) as (m1 & m2 & Em & ? & ? & Hm); [lia|].
  assert (Hd31 : day t <= 31).
  { unfold days_in_month in *.
    destruct (month t =? 2); [destruct (is_leap (year t)); lia|].
    destruct ((month t =? 4) || (month t =? 6) || (month t =? 9) || (month t =? 11));
      lia. }
  destruct (two_digits_text (day t)) as (d1 & d2 & Ed & ? & ? & Hd); [lia|].
  unfold date_field, strptime_date. rewrite Ey, Em, Ed. cbn [append].
  rewrite directive_Y_four by assumption. rewrite Hy.
  rewrite literal_head.
  rewrite (directive_two 1 12 1 m1 m2 _ (month t)) by (assumption || lia).
  rewrite literal_head.
  unfold directive_d.
  rewrite (directive_two 1 31 1 d1 d2 _ (day t)) by (assumption || lia).
  replace (1 <=? year t) with true by (symmetry; apply Z.leb_le; lia).
  replace (day t <=? days_in_month (year t) (month t)) with true
    by (symmetry; apply Z.leb_le; lia).
  reflexivity.
Qed.

Lemma strptime_time_field (t : datetime) :
  wire_datetime t = true ->
  strptime_time
    (zfill 2 (str_int (hour t)) ++ ":" ++ zfill 2 (str_int (minute t)) ++ ":"
       ++ zfill 2 (str_int (second t)))
  = Ok (mkDatetime 1900 1 1 (hour t) (minute t) (second t) 0).
Proof.
  unfold wire_datetime. intros H.
  repeat (apply andb_true_iff in H; destruct H as [H ?]).
  repeat match goal with
         | X : (_ <=? _) = true |- _ => apply Z.leb_le in X
         end.
  destruct (two_digits_text (hour t)) as (h1 & h2 & Eh & ? & ? & Hh); [lia|].
  destruct (two_digits_text (minute t)) as (i1 & i2 & Ei & ? & ? & Hi); [lia|].
  destruct (two_digits_text (second t)) as (s1 & s2 & Es & ? & ? & Hs); [lia|].
  unfold strptime_time. rewrite Eh, Ei, Es. cbn [append].
  rewrite (directive_two 0 23 0 h1 h2 _ (hour t)) by (assumption || lia).
  rewrite literal_head.
  rewrite (directive_two 0 59 0 i1 i2 _ (minute t)) by (assumption || lia).
  rewrite literal_head.
  rewrite (directive_two 0 61 0 s1 s2 _ (second t)) by (assumption || lia).
  replace (second t <=? 59) with true by (symmetry; apply Z.leb_le; lia).
  reflexivity.
Qed.

Lemma wire_milliseconds (t : datetime) :
  wire_datetime t = true ->
  0 <= microsecond t / 1000 <= 999
  /\ microsecond t = 1000 * (microsecond t / 1000).
Proof.
  unfold wire_datetime. intros H.
  repeat (apply andb_true_iff in H; destruct H as [H ?]).
  repeat match goal with
         | X : (_ <=? _) = true |- _ => apply Z.leb_le in X
         | X : (_ =? _) = true |- _ => apply Z.eqb_eq in X
         end.
  pose proof (Z.div_mod (microsecond t) 1000 ltac:(lia)).
  split; [|lia].
  split; [apply Z.div_pos; lia | apply Z.div_le_upper_bound; lia].
Qed.

Lemma milliseconds_of_microsecond (t : datetime) :
  milliseconds t = milliseconds (mkDatetime 0 0 0 0 0 0 (microsecond t)).
Proof. reflexivity. Qed.

Lemma milliseconds_wire (t : datetime) :
  wire_datetime t = true -> milliseconds t = microsecond t / 1000.
Proof.
  intros H. destruct (wire_milliseconds t H) as [Hr Hus].
  rewrite milliseconds_of_microsecond, Hus.
  destruct (milliseconds_text _ Hr) as [_ [_ Hms]].
  rewrite Hms. rewrite <- Hus. reflexivity.
Qed.

Lemma time_field_split (t : datetime) :
  time_field t
  = (zfill 2 (str_int (hour t)) ++ ":" ++ zfill 2 (str_int (minute t)) ++ ":"
       ++ zfill 2 (str_int (second t)))
      ++ "." ++ zfill 3 (str_int (milliseconds t)).
Proof. unfold time_field. rewrite !append_assoc. reflexivity. Qed.

(** The two fields of a time on the wire are read back as that time. *)
Lemma parse_datetime_fields (t : datetime) :
  wire_datetime t = true ->
  _parse_datetime (date_field t) (time_field t) = Ok t.
Proof.
  intros H. unfold _parse_datetime.
  rewrite (strptime_date_field t H).
  rewrite time_field_split, (milliseconds_wire t H).
  destruct (wire_milliseconds t H) as [Hr Hus].
  destruct (milliseconds_text _ Hr) as [(a & b & c & E & Ha & Hb & Hc) [(x & Hx & Hi) _]].
  rewrite rpartition_last_dot
    by (rewrite E; simpl; rewrite Ha, Hb, Hc; reflexivity).
  rewrite (strptime_time_field t H).
  change ("." ++ zfill 3 (str_int (microsecond t / 1000)))
    with ("." ++ zfill 3 (str_int (microsecond t / 1000))) in Hx.
  rewrite Hx, Hi.
  unfold replace_microsecond.
  replace ((0 <=? 1000 * (microsecond t / 1000))
           && (1000 * (microsecond t / 1000) <=? 999999)) with true
    by (symmetry; apply andb_true_iff; split; apply Z.leb_le; lia).
  unfold combine. cbn [year month day hour minute second microsecond].
  rewrite <- Hus. destruct t. reflexivity.
Qed.

(** *** Commas *)

Lemma contains_app (c : ascii) (a b : string) :
  contains c (a ++ b) = contains c a || contains c b.
Proof.
  induction a as [|x a IH]; simpl; [reflexivity|].
  rewrite IH. apply orb_assoc.
Qed.

Lemma split_whole (sep : ascii) (s : string) :
  contains sep s = false -> split sep s = [s].
Proof.
  induction s as [|c r IH]; simpl; [reflexivity|].
  intros H. apply orb_false_iff in H. destruct H as [Hc Hr].
  rewrite Hc, (IH Hr). reflexivity.
Qed.

Lemma split_at_sep (sep : ascii) (a b : string) :
  contains sep a = false ->
  split sep (a ++ String sep b) = a :: split sep b.
Proof.
  induction a as [|c r IH]; simpl.
  - intros _. rewrite Ascii.eqb_refl. reflexivity.
  - intros H. apply orb_false_iff in H. destruct H as [Hc Hr].
    rewrite Hc, (IH Hr). reflexivity.
Qed.

Lemma contains_digits (c : ascii) (s : string) :
  isdigit c = false -> all_digits s = true -> contains c s = false.
Proof.
  intros Hc. induction s as [|x r IH]; simpl; [reflexivity|].
  intros H. apply andb_true_iff in H. destruct H as [Hx Hr].
  rewrite (IH Hr), orb_false_r. apply Ascii.eqb_neq. intros ->. congruence.
Qed.

Lemma str_int_chars (c : ascii) (n : Z) :
  isdigit c = false -> c <> "-"%char -> contains c (str_int n) = false.
Proof.
  intros Hd Hm. unfold str_int.
  assert (Hz : contains c "0" = false).
  { cbn [contains]. rewrite orb_false_r. apply Ascii.eqb_neq. intros E.
    rewrite <- E in Hd. discriminate. }
  assert (Hu : forall d, contains c (NilZero.string_of_uint d) = false).
  { intros d. destruct d; [exact Hz | ..];
      (apply contains_digits; [exact Hd|]);
      match goal with
      | |- all_digits (NilZero.string_of_uint ?u) = true =>
          exact (string_of_uint_digits u)
      end. }
  destruct n as [|p|p]; cbn [Z.to_int NilZero.string_of_int].
  - exact Hz.
  - apply Hu.
  - cbn [contains]. rewrite Hu, orb_false_r.
    apply Ascii.eqb_neq. congruence.
Qed.

Lemma zeros_chars (c : ascii) (n : nat) :
  c <> "0"%char -> contains c (String.concat "" (repeat "0" n)) = false.
Proof.
  intros Hc.
  assert (Hz : Ascii.eqb "0" c = false) by (apply Ascii.eqb_neq; congruence).
  induction n as [|n IH]; [reflexivity|].
  destruct n as [|m].
  - cbn [repeat String.concat contains]. rewrite Hz. reflexivity.
  - change (String.concat "" (repeat "0" (S (S m))))
      with ("0" ++ "" ++ String.concat "" (repeat "0" (S m))).
    rewrite !contains_app, IH. cbn [contains]. rewrite Hz. reflexivity.
Qed.

Lemma zfill_chars (c : ascii) (width : nat) (s : string) :
  c <> "0"%char -> contains c (zfill width s) = contains c s.
Proof.
  intros Hc. unfold zfill. rewrite contains_app, (zeros_chars c _ Hc). reflexivity.
Qed.

Lemma date_field_no_comma (t : datetime) : contains "," (date_field t) = false.
Proof.
  unfold date_field.
  rewrite !contains_app, !zfill_chars, !str_int_chars by (discriminate || reflexivity).
  reflexivity.
Qed.

Lemma time_field_no_comma (t : datetime) : contains "," (time_field t) = false.
Proof.
  unfold time_field.
  rewrite !contains_app, !zfill_chars, !str_int_chars by (discriminate || reflexivity).
  reflexivity.
Qed.

Lemma dump_datetime_fields (t : datetime) :
  _dump_datetime t = date_field t ++ String "," (time_field t).
Proof.
  unfold _dump_datetime, strftime, date_field, time_field.
  rewrite !append_assoc. reflexivity.
Qed.

(** X9: a time on the wire survives encoding and decoding. When the time is
    a date of the calendar in a year of four digits with a whole number of
    milliseconds, what [_dump_datetime] writes splits at its comma into a
    date field and a time field, and [_parse_datetime] reads these two
    fields back as the same time, microseconds included. *)
Theorem dumped_datetime_is_parsed_back (t : datetime) :
  wire_datetime t = true ->
  split "," (_dump_datetime t) = [date_field t; time_field t]
  /\ _parse_datetime (date_field t) (time_field t) = Ok t.
Proof.
  intros H. split; [|apply parse_datetime_fields, H].
  rewrite dump_datetime_fields.
  rewrite (split_at_sep "," _ _ (date_field_no_comma t)).
  rewrite (split_whole "," _ (time_field_no_comma t)). reflexivity.
Qed.

Lemma dumped_datetime_is_parsed_back_witness :
  wire_datetime (mkDatetime 2015 5 1 17 6 55 370000) = true
  /\ split "," (_dump_datetime (mkDatetime 2015 5 1 17 6 55 370000))
     = ["2015/05/01"; "17:06:55.370"]
  /\ _parse_datetime "2015/05/01" "17:06:55.370"
     = Ok (mkDatetime 2015 5 1 17 6 55 370000).
Proof.
  split; [reflexivity|].
  exact (dumped_datetime_is_parsed_back (mkDatetime 2015 5 1 17 6 55 370000) eq_refl).
Defined.

(** *** The columns of an encoded line *)

Lemma count_app (c : ascii) (a b : string) :
  count c (a ++ b) = (count c a + count c b)%nat.
Proof. induction a as [|x a IH]; simpl; [reflexivity | rewrite IH; lia]. Qed.

Lemma count_absent (c : ascii) (s : string) :
  contains c s = false -> count c s = 0%nat.
Proof.
  induction s as [|x r IH]; simpl; [reflexivity|].
  intros H. apply orb_false_iff in H. destruct H as [Hx Hr].
  rewrite Hx, (IH Hr). reflexivity.
Qed.

Lemma split_length (sep : ascii) (s : string) :
  List.length (split sep s) = S (count sep s).
Proof.
  induction s as [|c r IH]; simpl; [reflexivity|].
  destruct (Ascii.eqb c sep); simpl; [rewrite IH; reflexivity|].
  destruct (split sep r) as [|p ps]; simpl in *; [discriminate | exact IH].
Qed.

Lemma count_lstrip (white : ascii -> bool) (c : ascii) (s : string) :
  white c = false -> count c (lstrip_with white s) = count c s.
Proof.
  intros Hc. induction s as [|x r IH]; simpl; [reflexivity|].
  destruct (white x) eqn:Hx; [|reflexivity].
  rewrite IH. destruct (Ascii.eqb x c) eqn:E; [|reflexivity].
  apply Ascii.eqb_eq in E. congruence.
Qed.

Lemma count_rstrip (white : ascii -> bool) (c : ascii) (s : string) :
  white c = false -> count c (rstrip_with white s) = count c s.
Proof.
  intros Hc. induction s as [|x r IH]; simpl; [reflexivity|].
  destruct (rstrip_with white r) as [|y q] eqn:Hr.
  - simpl in IH. rewrite <- IH.
    destruct (white x) eqn:Hx; simpl; [|lia].
    destruct (Ascii.eqb x c) eqn:E; [|reflexivity].
    apply Ascii.eqb_eq in E. congruence.
  - rewrite <- IH. reflexivity.
Qed.

Lemma count_strip (c : ascii) (s : string) :
  isspace c = false -> count c (strip s) = count c s.
Proof.
  intros Hc. unfold strip, strip_with.
  rewrite (count_rstrip _ _ _ Hc). apply count_lstrip, Hc.
Qed.

Lemma contains_string_rev (c : ascii) (s : string) :
  contains c (string_rev s) = contains c s.
Proof.
  induction s as [|x r IH]; simpl; [reflexivity|].
  rewrite contains_app, IH. simpl. rewrite orb_false_r. apply orb_comm.
Qed.

Lemma contains_strip_zeros (c : ascii) (s : string) :
  contains c s = false -> contains c (strip_zeros_rev s) = false.
Proof.
  induction s as [|x r IH]; [reflexivity|].
  intros H. pose proof H as H'. cbn [contains] in H'.
  apply orb_false_iff in H'. destruct H' as [_ Hr].
  destruct x as [[] [] [] [] [] [] [] []]; try exact H.
  apply IH, Hr.
Qed.

Lemma contains_substring (c : ascii) (n m : nat) (s : string) :
  contains c s = false -> contains c (substring n m s) = false.
Proof.
  revert n m. induction s as [|x r IH]; intros n m H.
  - destruct n, m; reflexivity.
  - cbn [contains] in H. apply orb_false_iff in H. destruct H as [Hx Hr].
    destruct n as [|n]; [destruct m as [|m]|]; cbn [substring contains];
      [reflexivity | rewrite Hx; apply IH, Hr | apply IH, Hr].
Qed.

Lemma zeros_no_comma (n : Z) : contains "," (zeros n) = false.
Proof. apply zeros_chars. discriminate. Qed.

Lemma layout_repr_no_comma (ds : string) (decpt : Z) :
  contains "," ds = false -> contains "," (layout_repr ds decpt) = false.
Proof.
  intros H. unfold layout_repr.
  repeat match goal with
         | |- context [if ?b then _ else _] => destruct b
         end;
    rewrite ?contains_app, ?zeros_no_comma, ?H, ?zfill_chars, ?str_int_chars,
      ?(contains_substring _ _ _ _ H) by (discriminate || reflexivity);
    reflexivity.
Qed.

Lemma str_float_no_comma (x : float) : contains "," (str_float x) = false.
Proof.
  destruct x as [s|s| |s m e]; cbn [str_float]; try (destruct s; reflexivity);
    try reflexivity.
  destruct (shortest_digits 16 1 m e (decimal_exponent m e)) as [c k].
  rewrite contains_app, layout_repr_no_comma.
  - destruct s; reflexivity.
  - rewrite contains_string_rev. apply contains_strip_zeros.
    rewrite contains_string_rev. apply str_int_chars; [reflexivity | discriminate].
Qed.

Lemma format_5f_no_comma (x : float) : contains "," (format_5f x) = false.
Proof.
  destruct x as [s|s| |s m e]; cbn [format_5f]; try (destruct s; reflexivity);
    try reflexivity.
  destruct (float_fraction m e) as [num den].
  rewrite !contains_app, zfill_chars, !str_int_chars by (discriminate || reflexivity).
  destruct s; reflexivity.
Qed.

Lemma dump_bool_no_comma (b : bool) : contains "," (_dump_bool b) = false.
Proof. destruct b; reflexivity. Qed.

Lemma count_dump_datetime (t : datetime) : count "," (_dump_datetime t) = 1%nat.
Proof.
  rewrite dump_datetime_fields, count_app. cbn [count].
  rewrite (count_absent _ _ (date_field_no_comma t)),
    (count_absent _ _ (time_field_no_comma t)).
  reflexivity.
Qed.

Lemma count_dump_or_none {A : Type} (value : option A) (func : A -> string) :
  (forall v, contains "," (func v) = false) ->
  count "," (_dump_or_none value func) = 0%nat.
Proof.
  intros H. destruct value as [v|]; simpl; [apply count_absent, H | reflexivity].
Qed.

Lemma count_dump_text (value : option string) :
  (forall v, value = Some v -> contains "," v = false) ->
  count "," (_dump_or_none value str_str) = 0%nat.
Proof.
  intros H. destruct value as [v|]; simpl; [|reflexivity].
  apply count_absent, H. reflexivity.
Qed.

Lemma count_dump_time (value : option datetime) :
  count "," (_dump_or_none value _dump_datetime) = present value.
Proof. destruct value as [t|]; simpl; [apply count_dump_datetime | reflexivity]. Qed.

Lemma to_string_commas (self : Message) :
  texts_without_comma self ->
  count "," (to_string self)
  = (19 + present (generation_time self) + present (record_time self))%nat.
Proof.
  intros Htexts. unfold to_string, join, to_string_fields.
  cbn [String.concat]. rewrite !count_app. cbn [count newline].
  rewrite !count_dump_time.
  rewrite !(count_dump_or_none _ str_int)
    by (intros; apply str_int_chars; [reflexivity | discriminate]).
  rewrite !(count_dump_or_none _ str_float) by apply str_float_no_comma.
  rewrite !(count_dump_or_none _ format_coordinates) by apply format_5f_no_comma.
  rewrite !(count_dump_or_none _ _dump_bool) by apply dump_bool_no_comma.
  rewrite !count_dump_text by (intros v Hv; apply Htexts; tauto).
  simpl. lia.
Qed.

(** X10: the line that [to_string] writes has twenty columns and one more
    for each time that is present, since a time is written with a comma of
    its own: it has the twenty-two columns that [parse_string] reads only
    when both the generation time and the record time are present. This
    holds for every message whose texts have no comma. *)
Theorem encoded_line_columns (self : Message) :
  texts_without_comma self ->
  List.length (fields (to_string self))
  = (20 + present (generation_time self) + present (record_time self))%nat.
Proof.
  intros Htexts. unfold fields.
  rewrite split_length, count_strip, (to_string_commas self Htexts) by reflexivity.
  reflexivity.
Qed.

Lemma encoded_line_columns_witness :
  texts_without_comma (set_hexident (Some "3C49CC") (set_message_type (Some "MSG") init))
  /\ List.length
       (fields (to_string
                  (set_hexident (Some "3C49CC") (set_message_type (Some "MSG") init))))
     = 20%nat
  /\ exists r,
       from_string "MSG,3,111,11111,3C49CC,111111,2015/05/01,17:06:55.370,2015/05/01,17:06:55.326,,24400,,,50.65931,6.67709,,,,,,0"
       = Ok r
       /\ List.length (fields (to_string r)) = 22%nat.
Proof.
  assert (H0 : texts_without_comma
                 (set_hexident (Some "3C49CC") (set_message_type (Some "MSG") init))).
  { intros v [H | [H | [H | H]]]; simpl in H; inversion H; reflexivity. }
  split; [exact H0|]. split; [exact (encoded_line_columns _ H0)|].
  eexists. split; [vm_compute; reflexivity|].
  rewrite encoded_line_columns; [reflexivity|].
  intros v [H | [H | [H | H]]]; simpl in H; inversion H; reflexivity.
Defined.

(** *** From a message to its line and back *)

Lemma rstrip_kept_cons (white : ascii -> bool) (c : ascii) (b : string) :
  rstrip_with white b = b /\ b <> "" ->
  rstrip_with white (String c b) = String c b /\ String c b <> "".
Proof.
  intros [Hb Hne]. split; [|discriminate].
  cbn [rstrip_with]. rewrite Hb. destruct b; [congruence | reflexivity].
Qed.

Lemma rstrip_kept_app (white : ascii -> bool) (a b : string) :
  rstrip_with white b = b /\ b <> "" ->
  rstrip_with white (a ++ b) = a ++ b /\ a ++ b <> "".
Proof.
  intros H. induction a as [|c a IH]; [exact H|].
  apply (rstrip_kept_cons white c (a ++ b)), IH.
Qed.

Lemma rstrip_kept_flag (value : option bool) :
  rstrip_with isspace ("," ++ _dump_or_none value _dump_bool)
  = "," ++ _dump_or_none value _dump_bool
  /\ "," ++ _dump_or_none value _dump_bool <> "".
Proof. destruct value as [[]|]; split; (reflexivity || discriminate). Qed.

Lemma join_cons (sep item : string) (items : list string) :
  items <> [] -> join sep (item :: items) = item ++ sep ++ join sep items.
Proof. destruct items; [congruence | reflexivity]. Qed.

Lemma split_join_cons (sep : ascii) (item : string) (items : list string) :
  contains sep item = false -> items <> [] ->
  split sep (join (String sep "") (item :: items))
  = item :: split sep (join (String sep "") items).
Proof.
  intros Hitem Hne. rewrite join_cons by exact Hne.
  exact (split_at_sep sep item _ Hitem).
Qed.

Lemma split_join (sep : ascii) (items : list string) :
  items <> [] ->
  Forall (fun p => contains sep p = false) items ->
  split sep (join (String sep "") items) = items.
Proof.
  intros Hne H. induction H as [|p ps Hp Hps IH]; [congruence|].
  destruct ps as [|q qs].
  - apply split_whole, Hp.
  - rewrite join_cons by discriminate.
    change (String sep "" ++ join (String sep "") (q :: qs))
      with (String sep (join (String sep "") (q :: qs))).
    rewrite (split_at_sep sep _ _ Hp), IH by discriminate. reflexivity.
Qed.

Lemma truthy_app_cons (a : string) (c : ascii) (b : string) :
  truthy (a ++ String c b) = true.
Proof. destruct a; reflexivity. Qed.

Lemma truthy_date_field (t : datetime) : truthy (date_field t) = true.
Proof. apply truthy_app_cons. Qed.

Lemma truthy_time_field (t : datetime) : truthy (time_field t) = true.
Proof. apply truthy_app_cons. Qed.

Lemma truthy_str_int (n : Z) : truthy (str_int n) = true.
Proof.
  apply truthy_true. intros E. pose proof (int_literal_str_int n) as H.
  rewrite E in H. discriminate.
Qed.

(** What each kind of statement reads from the field that [to_string] writes
    for an attribute: the attribute, and no assignment when it is absent. *)
Lemma integer_read_back (value : option Z) :
  guarded (Ok (_dump_or_none value str_int)) truthy int_of = Ok (option_map Some value).
Proof.
  destruct value as [n|]; [|reflexivity].
  unfold guarded, int_of, int. cbn [_dump_or_none option_map].
  rewrite truthy_str_int, int_literal_str_int. reflexivity.
Qed.

Lemma identifier_read_back (sentinel : string) (k : Z) (value : option Z) :
  int_literal sentinel = Some k -> value <> Some k ->
  guarded (Ok (_dump_or_none value str_int)) (not_sentinel sentinel) int_of
  = Ok (option_map Some value).
Proof.
  intros Hs Hk. destruct value as [n|]; [|reflexivity].
  unfold guarded, int_of, int, not_sentinel. cbn [_dump_or_none option_map].
  rewrite truthy_str_int, int_literal_str_int.
  destruct (String.eqb (str_int n) sentinel) eqn:E; [|reflexivity].
  apply String.eqb_eq in E. pose proof (int_literal_str_int n) as H.
  rewrite E, Hs in H. congruence.
Qed.

Lemma text_read_back (value : option string) :
  when_present wire_text value ->
  guarded (Ok (_dump_or_none value str_str)) truthy upper_of = Ok (option_map Some value).
Proof.
  destruct value as [v|]; [|reflexivity].
  intros (Hne & Hup & _). unfold guarded, upper_of, str_str.
  cbn [_dump_or_none option_map].
  apply truthy_true in Hne. rewrite Hne, Hup. reflexivity.
Qed.

Lemma flight_id_read_back (value : option string) :
  when_present (fun v => wire_text v /\ v <> "111111") value ->
  guarded (Ok (_dump_or_none value str_str)) (not_sentinel "111111") upper_of
  = Ok (option_map Some value).
Proof.
  destruct value as [v|]; [|reflexivity].
  intros [(Hne & Hup & _) Hs]. unfold guarded, upper_of, str_str, not_sentinel.
  cbn [_dump_or_none option_map].
  apply truthy_true in Hne. apply String.eqb_neq in Hs. rewrite Hne, Hs, Hup. reflexivity.
Qed.

Lemma float_read_back_field (render : float -> string) (value : option float) :
  when_present (float_read_back render) value ->
  guarded (Ok (_dump_or_none value render)) truthy float_of = Ok (option_map Some value).
Proof.
  destruct value as [x|]; [|reflexivity].
  unfold when_present, float_read_back. intros H.
  unfold guarded, float_of, float_of_str. cbn [_dump_or_none option_map].
  rewrite H. destruct (render x); [discriminate | reflexivity].
Qed.

Lemma flag_read_back (value : option bool) :
  guarded (Ok (_dump_or_none value _dump_bool)) truthy bool_of = Ok (option_map Some value).
Proof. destruct value as [[]|]; reflexivity. Qed.

Lemma commit_present {A : Type} (value : option A)
    (set : option A -> Message -> Message) (self : Message) :
  set None self = self ->
  commit (Ok (option_map Some value)) set self = set value self.
Proof. intros H. destruct value; [reflexivity | symmetry; exact H]. Qed.

Lemma text_without_comma (value : option string) :
  when_present wire_text value -> contains "," (_dump_or_none value str_str) = false.
Proof. destruct value as [v|]; [intros (_ & _ & H); exact H | reflexivity]. Qed.

Lemma flight_id_without_comma (value : option string) :
  when_present (fun v => wire_text v /\ v <> "111111") value ->
  contains "," (_dump_or_none value str_str) = false.
Proof. destruct value as [v|]; [intros [(_ & _ & H) _]; exact H | reflexivity]. Qed.

Lemma field_without_comma {A : Type} (value : option A) (func : A -> string) :
  (forall v, contains "," (func v) = false) ->
  contains "," (_dump_or_none value func) = false.
Proof. intros H. destruct value; [apply H | reflexivity]. Qed.

Lemma str_int_no_comma (n : Z) : contains "," (str_int n) = false.
Proof. apply str_int_chars; [reflexivity | discriminate]. Qed.

(** The line without its end is what [strip] leaves of it: a line that
    starts with ["MSG"] ends with a comma or with the flag after it. *)
Lemma strip_to_string (self : Message) :
  message_type self = Some "MSG" ->
  strip (to_string self) = join "," (to_string_fields self).
Proof.
  intros Hmsg. unfold to_string, strip.
  etransitivity; [exact (strip_surrounded isspace "" _ newline eq_refl eq_refl)|].
  unfold strip_with.
  assert (Hl : lstrip_with isspace (join "," (to_string_fields self))
               = join "," (to_string_fields self)).
  { unfold to_string_fields, join. rewrite Hmsg. reflexivity. }
  rewrite Hl.
  unfold to_string_fields, join. cbn [String.concat].
  match goal with |- _ = ?r => apply (proj1 (B := r <> "")) end.
  repeat first [ apply rstrip_kept_flag | apply rstrip_kept_app ].
Qed.

Section WireMessage.

Variable self : Message.
Variables generated recorded : datetime.
Hypothesis on_wire : wire_message self.
Hypothesis generated_at : generation_time self = Some generated.
Hypothesis recorded_at : record_time self = Some recorded.
Hypothesis generated_wire : wire_datetime generated = true.
Hypothesis recorded_wire : wire_datetime recorded = true.

Lemma join_columns :
  join "," (to_string_fields self) = join "," (columns self generated recorded).
Proof.
  unfold to_string_fields, columns, join. rewrite generated_at, recorded_at.
  cbn [String.concat _dump_or_none]. rewrite !dump_datetime_fields.
  rewrite !append_assoc. reflexivity.
Qed.

Lemma columns_without_comma :
  Forall (fun p => contains "," p = false) (columns self generated recorded).
Proof.
  destruct on_wire.
  unfold columns.
  repeat (constructor;
          [first [ apply date_field_no_comma | apply time_field_no_comma
                 | apply text_without_comma; assumption
                 | apply flight_id_without_comma; assumption
                 | apply field_without_comma;
                   first [ apply str_int_no_comma | apply str_float_no_comma
                         | apply format_5f_no_comma | apply dump_bool_no_comma ]
                 | rewrite wire_message_type0; reflexivity ]|]).
  constructor.
Qed.

Lemma strip_line :
  strip (to_string self) = join "," (columns self generated recorded).
Proof. rewrite (strip_to_string _ (wire_message_type _ on_wire)). apply join_columns. Qed.

Lemma fields_columns : fields (to_string self) = columns self generated recorded.
Proof.
  unfold fields. rewrite strip_line.
  apply (split_join "," (columns self generated recorded));
    [discriminate | apply columns_without_comma].
Qed.

Ltac column i := erewrite (getitem_nth _ i); [| lia | reflexivity].

Lemma columns_message_type :
  message_type_outcome (columns self generated recorded)
  = Ok (option_map Some (message_type self)).
Proof.
  unfold message_type_outcome. column 0. apply text_read_back.
  rewrite (wire_message_type _ on_wire).
  split; [discriminate | split; reflexivity].
Qed.

Lemma columns_transmission_type :
  transmission_type_outcome (columns self generated recorded)
  = Ok (option_map Some (transmission_type self)).
Proof. unfold transmission_type_outcome. column 1. apply integer_read_back. Qed.

Lemma columns_session_id :
  session_id_outcome (columns self generated recorded)
  = Ok (option_map Some (session_id self)).
Proof.
  unfold session_id_outcome. column 2.
  apply (identifier_read_back "111" 111); [reflexivity | apply on_wire].
Qed.

Lemma columns_aircraft_id :
  aircraft_id_outcome (columns self generated recorded)
  = Ok (option_map Some (aircraft_id self)).
Proof.
  unfold aircraft_id_outcome. column 3.
  apply (identifier_read_back "11111" 11111); [reflexivity | apply on_wire].
Qed.

Lemma columns_hexident :
  hexident_outcome (columns self generated recorded)
  = Ok (option_map Some (hexident self)).
Proof. unfold hexident_outcome. column 4. apply text_read_back, on_wire. Qed.

Lemma columns_flight_id :
  flight_id_outcome (columns self generated recorded)
  = Ok (option_map Some (flight_id self)).
Proof. unfold flight_id_outcome. column 5. apply flight_id_read_back, on_wire. Qed.

Lemma columns_generation_time :
  generation_time_outcome (columns self generated recorded)
  = Ok (option_map Some (generation_time self)).
Proof.
  unfold generation_time_outcome. column 6. rewrite truthy_date_field. column 7.
  unfold guarded. rewrite truthy_time_field, (parse_datetime_fields _ generated_wire).
  rewrite generated_at. reflexivity.
Qed.

Lemma columns_record_time :
  record_time_outcome (columns self generated recorded)
  = Ok (option_map Some (record_time self)).
Proof.
  unfold record_time_outcome. column 8. rewrite truthy_date_field. column 9.
  unfold guarded. rewrite (parse_datetime_fields _ recorded_wire).
  rewrite recorded_at. reflexivity.
Qed.

Lemma columns_callsign :
  callsign_outcome (columns self generated recorded)
  = Ok (option_map Some (callsign self)).
Proof.
  unfold callsign_outcome.
  change (10 <? Z.of_nat (List.length (columns self generated recorded))) with true.
  cbv iota. column 10. apply text_read_back, on_wire.
Qed.

Lemma columns_altitude :
  altitude_outcome (columns self generated recorded)
  = Ok (option_map Some (altitude self)).
Proof. unfold altitude_outcome. column 11. apply integer_read_back. Qed.

Lemma columns_ground_speed :
  ground_speed_outcome (columns self generated recorded)
  = Ok (option_map Some (ground_speed self)).
Proof. unfold ground_speed_outcome. column 12. apply float_read_back_field, on_wire. Qed.

Lemma columns_track :
  track_outcome (columns self generated recorded)
  = Ok (option_map Some (track self)).
Proof. unfold track_outcome. column 13. apply float_read_back_field, on_wire. Qed.

Lemma columns_latitude :
  latitude_outcome (columns self generated recorded)
  = Ok (option_map Some (latitude self)).
Proof. unfold latitude_outcome. column 14. apply float_read_back_field, on_wire. Qed.

Lemma columns_longitude :
  longitude_outcome (columns self generated recorded)
  = Ok (option_map Some (longitude self)).
Proof. unfold longitude_outcome. column 15. apply float_read_back_field, on_wire. Qed.

Lemma columns_vertical_rate :
  vertical_rate_outcome (columns self generated recorded)
  = Ok (option_map Some (vertical_rate self)).
Proof. unfold vertical_rate_outcome. column 16. apply integer_read_back. Qed.

Lemma columns_squawk :
  squawk_outcome (columns self generated recorded)
  = Ok (option_map Some (squawk self)).
Proof. unfold squawk_outcome. column 17. apply integer_read_back. Qed.

Lemma columns_squawk_alert :
  squawk_alert_outcome (columns self generated recorded)
  = Ok (option_map Some (squawk_alert self)).
Proof. unfold squawk_alert_outcome. column 18. apply flag_read_back. Qed.

Lemma columns_emergency :
  emergency_outcome (columns self generated recorded)
  = Ok (option_map Some (emergency self)).
Proof. unfold emergency_outcome. column 19. apply flag_read_back. Qed.

Lemma columns_spi :
  spi_outcome (columns self generated recorded)
  = Ok (option_map Some (spi self)).
Proof. unfold spi_outcome. column 20. apply flag_read_back. Qed.

Lemma columns_on_ground :
  on_ground_outcome (columns self generated recorded)
  = Ok (option_map Some (on_ground self)).
Proof. unfold on_ground_outcome. column 21. apply flag_read_back. Qed.

Lemma columns_msg : upper (nth 0 (columns self generated recorded) "") = "MSG".
Proof. cbn [columns nth]. rewrite (wire_message_type _ on_wire). reflexivity. Qed.

Lemma columns_header_return :
  Forall returns (header_statements (columns self generated recorded)).
Proof.
  unfold header_statements.
  repeat constructor; unfold returns; cbn [outcome attr_type];
    rewrite ?columns_message_type, ?columns_transmission_type, ?columns_session_id,
      ?columns_aircraft_id, ?columns_hexident, ?columns_flight_id,
      ?columns_generation_time, ?columns_record_time, ?columns_callsign;
    eexists; reflexivity.
Qed.

Lemma columns_tail_return :
  Forall returns
    (tail_statements (columns self generated recorded)
       (commit_all (header_statements (columns self generated recorded)) init)).
Proof.
  rewrite (tail_statements_full_form (columns self generated recorded) eq_refl columns_msg).
  unfold full_form_statements.
  repeat constructor; unfold returns; cbn [outcome attr_type];
    rewrite ?columns_altitude, ?columns_ground_speed, ?columns_track, ?columns_latitude,
      ?columns_longitude, ?columns_vertical_rate, ?columns_squawk, ?columns_squawk_alert,
      ?columns_emergency, ?columns_spi, ?columns_on_ground;
    eexists; reflexivity.
Qed.

Lemma decoded_columns : decoded (columns self generated recorded) = self.
Proof.
  rewrite (decoded_full_form (columns self generated recorded) eq_refl columns_msg).
  unfold commit_all, header_statements, full_form_statements.
  cbn [fold_left outcome setter attr_type].
  rewrite columns_message_type, columns_transmission_type, columns_session_id,
    columns_aircraft_id, columns_hexident, columns_flight_id,
    columns_generation_time, columns_record_time, columns_callsign,
    columns_altitude, columns_ground_speed, columns_track, columns_latitude,
    columns_longitude, columns_vertical_rate, columns_squawk, columns_squawk_alert,
    columns_emergency, columns_spi, columns_on_ground.
  rewrite (commit_present _ set_message_type) by reflexivity.
  rewrite (commit_present _ set_transmission_type) by reflexivity.
  rewrite (commit_present _ set_session_id) by reflexivity.
  rewrite (commit_present _ set_aircraft_id) by reflexivity.
  rewrite (commit_present _ set_hexident) by reflexivity.
  rewrite (commit_present _ set_flight_id) by reflexivity.
  rewrite (commit_present _ set_generation_time) by reflexivity.
  rewrite (commit_present _ set_record_time) by reflexivity.
  rewrite (commit_present _ set_callsign) by reflexivity.
  rewrite (commit_present _ set_altitude) by reflexivity.
  rewrite (commit_present _ set_ground_speed) by reflexivity.
  rewrite (commit_present _ set_track) by reflexivity.
  rewrite (commit_present _ set_latitude) by reflexivity.
  rewrite (commit_present _ set_longitude) by reflexivity.
  rewrite (commit_present _ set_vertical_rate) by reflexivity.
  rewrite (commit_present _ set_squawk) by reflexivity.
  rewrite (commit_present _ set_squawk_alert) by reflexivity.
  rewrite (commit_present _ set_emergency) by reflexivity.
  rewrite (commit_present _ set_spi) by reflexivity.
  rewrite (commit_present _ set_on_ground) by reflexivity.
  destruct self. reflexivity.
Qed.

Lemma from_string_to_string : from_string (to_string self) = Ok self.
Proof.
  rewrite from_string_returns; rewrite fields_columns.
  - rewrite decoded_columns. reflexivity.
  - apply columns_header_return.
  - apply columns_tail_return.
Qed.

End WireMessage.



(** X12: a transmission message that lacks a time does not survive
    encoding. When the message type is ["MSG"], the texts have no comma, the
    generation time or the record time is absent and the transmission type
    is not 7, [from_string] raises on the line that [to_string] writes: the
    line has fewer than twenty-two columns, and the statements of the
    transmission read up to [parts[21]]. *)
Theorem line_without_a_time_is_not_decoded (self : Message) :
  message_type self = Some "MSG" ->
  texts_without_comma self ->
  transmission_type self <> Some 7 ->
  generation_time self = None \/ record_time self = None ->
  exists e, from_string (to_string self) = Raise e.
Proof.
  intros Hmsg Htexts H7 Htime.
  set (parts := fields (to_string self)).
  assert (Hlen : (List.length parts < 22)%nat).
  { unfold parts, fields. rewrite split_length, count_strip by reflexivity.
    rewrite (to_string_commas self Htexts).
    destruct Htime as [-> | ->]; destruct (generation_time self), (record_time self);
      simpl; lia. }
  assert (Hparts : exists rest,
             parts = "MSG" :: _dump_or_none (transmission_type self) str_int :: rest).
  { unfold parts, fields. rewrite (strip_to_string self Hmsg).
    unfold to_string_fields. rewrite Hmsg.
    rewrite split_join_cons by (reflexivity || discriminate).
    rewrite split_join_cons
      by (discriminate || apply field_without_comma, str_int_no_comma).
    eexists. reflexivity. }
  destruct Hparts as [rest Hparts].
  assert (Hno : ~ (List.length parts = 21%nat /\ int_literal (nth 1 parts "") = Some 7)).
  { rewrite Hparts. cbn [nth]. intros [_ H].
    destruct (transmission_type self) as [n|]; cbn [_dump_or_none] in H.
    - rewrite int_literal_str_int in H. congruence.
    - discriminate. }
  destruct (all_return_or_one_raises (header_statements parts)) as [Hh|Hh];
    [|apply from_string_header_raises; exact Hh].
  apply from_string_tail_raises. fold parts.
  unfold tail_statements, transmission_statements.
  rewrite (is_msg_header_init parts "MSG") by (rewrite Hparts; reflexivity).
  simpl String.eqb. cbv iota.
  rewrite (takes_shortcut_not_7 parts Hh Hno).
  apply Exists_exists.
  exists (Stmt _ (on_ground_outcome parts) set_on_ground).
  split; [simpl; tauto|].
  exists IndexError. cbn [outcome]. unfold on_ground_outcome, guarded.
  rewrite getitem_short by lia. reflexivity.
Qed.

Lemma line_without_a_time_is_not_decoded_witness :
  exists e,
    from_string
      (to_string
         (set_altitude (Some 24400)
            (set_hexident (Some "3C49CC") (set_message_type (Some "MSG") init))))
    = Raise e.
Proof.
  apply line_without_a_time_is_not_decoded.
  - reflexivity.
  - intros v [H | [H | [H | H]]]; simpl in H; inversion H; reflexivity.
  - discriminate.
  - left. reflexivity.
Defined.
